(** * CV builder: renderer, colour and skill tables, date formatting,
      preview scale, export pipeline and progress evaluator

    A shallow embedding of [src/components/CVPreview.tsx] (both revisions
    kept in the repository: the one that injects CSS variables on the
    document root, here [Legacy], and the one with per-instance variables,
    here [Current]), of [CVProgress] and of the [CVBuilder] page (its
    scale computation, and its export with and without the waits for
    fonts and images).

    A JavaScript string is given by the bytes of its UTF-8 encoding (so
    without lone surrogates), numbers that the code only uses as integers
    are [Z], ratios are exact rationals ([Q]). *)

From Stdlib Require Import String Ascii List ZArith QArith Qminmax Qround.
From Stdlib Require Import Bool Lia DecimalString.
Import ListNotations.
Close Scope Q_scope.
Open Scope string_scope.
Open Scope list_scope.
Set Warnings "-register-all".

(* ===================================================================== *)
(** ** JavaScript values, operators and plain objects *)
(* ===================================================================== *)

Module JS.

(** The values that flow through the modelled functions. A plain object
    keeps its own properties in source order; [VNative] is a built-in
    function object of the realm (named by its [name] property) and
    [VObjectPrototype] is [Object.prototype] itself. *)
Inductive value : Type :=
| VUndefined
| VBool (b : bool)
| VNum (n : Z)
| VStr (s : string)
| VObj (own : list (string * value))
| VNative (name : string)
| VObjectPrototype.

Definition isStr (v : value) : bool :=
  match v with VStr _ => true | _ => false end.

Definition isBool (v : value) : bool :=
  match v with VBool _ => true | _ => false end.

Definition isNum (v : value) : bool :=
  match v with VNum _ => true | _ => false end.

(** ToBoolean *)
Definition truthy (v : value) : bool :=
  match v with
  | VUndefined => false
  | VBool b => b
  | VNum n => negb (n =? 0)%Z
  | VStr s => negb (s =? "")
  | VObj _ | VNative _ | VObjectPrototype => true
  end.

(** [a || b], [a && b], [a ?? b] *)
Definition or (a b : value) : value := if truthy a then a else b.
Definition and (a b : value) : value := if truthy a then b else a.
Definition nullish (a b : value) : value :=
  match a with VUndefined => b | _ => a end.

Fixpoint assoc {A : Type} (k : string) (l : list (string * A)) : option A :=
  match l with
  | [] => None
  | (k', v) :: rest => if k =? k' then Some v else assoc k rest
  end.

(** The properties every object literal inherits: those of
    [Object.prototype] (ECMA-262 20.1.3 and Annex B.2.2). The [__proto__]
    accessor yields the prototype of the receiver, which for an object
    literal is [Object.prototype]. *)
Definition Object_prototype : list (string * value) :=
  [ ("constructor", VNative "Object");
    ("hasOwnProperty", VNative "hasOwnProperty");
    ("isPrototypeOf", VNative "isPrototypeOf");
    ("propertyIsEnumerable", VNative "propertyIsEnumerable");
    ("toLocaleString", VNative "toLocaleString");
    ("toString", VNative "toString");
    ("valueOf", VNative "valueOf");
    ("__proto__", VObjectPrototype);
    ("__defineGetter__", VNative "__defineGetter__");
    ("__defineSetter__", VNative "__defineSetter__");
    ("__lookupGetter__", VNative "__lookupGetter__");
    ("__lookupSetter__", VNative "__lookupSetter__") ].

Definition inherited (k : string) : bool :=
  match assoc k Object_prototype with Some _ => true | None => false end.

(** [Object.prototype.hasOwnProperty.call(o, k)] for an object literal
    with own properties [own]. *)
Definition hasOwnProperty {A : Type} (own : list (string * A)) (k : string) : bool :=
  match assoc k own with Some _ => true | None => false end.

(** [o[k]] for an object literal: own properties first, then the
    prototype chain, [undefined] when the chain is exhausted. *)
Definition get (own : list (string * value)) (k : string) : value :=
  match assoc k own with
  | Some v => v
  | None =>
      match assoc k Object_prototype with
      | Some v => v
      | None => VUndefined
      end
  end.

(** [v.k] / [v[k]] on a value. Only plain objects carry data here; a
    built-in function has none of the properties the code reads. *)
Definition getV (v : value) (k : string) : value :=
  match v with
  | VObj own => get own k
  | _ => VUndefined
  end.

Definition showZ (n : Z) : string := NilZero.string_of_int (Z.to_int n).

(** ToString, as a template literal applies it. The text of a native
    function is the one V8 prints. *)
Definition toString (v : value) : string :=
  match v with
  | VUndefined => "undefined"
  | VBool true => "true"
  | VBool false => "false"
  | VNum n => showZ n
  | VStr s => s
  | VObj _ | VObjectPrototype => "[object Object]"
  | VNative name => ("function " ++ name ++ "() { [native code] }")%string
  end.

(** The UTF-16 code units a byte of the encoding stands for: one for
    the first byte of a code point below U+10000, two for the first byte
    of a code point from U+10000 on, none for a continuation byte. *)
Definition codeUnits (c : ascii) : nat :=
  let n := nat_of_ascii c in
  if (n <? 128)%nat then 1%nat
  else if (n <? 192)%nat then 0%nat
  else if (n <? 240)%nat then 1%nat
  else 2%nat.

(** [s.length] *)
Fixpoint string_length (s : string) : nat :=
  match s with
  | EmptyString => 0%nat
  | String c rest => (codeUnits c + string_length rest)%nat
  end.

(** WhiteSpace and LineTerminator (ECMA-262 12.2 and 12.3), by the bytes
    of the code point. One byte: U+0009 to U+000D and U+0020. *)
Definition isWhite (c : ascii) : bool :=
  let n := nat_of_ascii c in
  ((9 <=? n) && (n <=? 13))%nat || (n =? 32)%nat.

(** Two bytes: U+00A0. *)
Definition isWhite2 (a b : ascii) : bool :=
  ((nat_of_ascii a =? 194) && (nat_of_ascii b =? 160))%nat.

(** Three bytes: U+1680, U+2000 to U+200A, U+2028, U+2029, U+202F,
    U+205F, U+3000 and U+FEFF. *)
Definition isWhite3 (a b c : ascii) : bool :=
  let x := nat_of_ascii a in
  let y := nat_of_ascii b in
  let z := nat_of_ascii c in
  (((x =? 225) && (y =? 154) && (z =? 128))
   || ((x =? 226) && (y =? 128)
       && (((128 <=? z) && (z <=? 138)) || (z =? 168) || (z =? 169) || (z =? 175)))
   || ((x =? 226) && (y =? 129) && (z =? 159))
   || ((x =? 227) && (y =? 128) && (z =? 128))
   || ((x =? 239) && (y =? 187) && (z =? 191)))%nat.

(** [s.trim()] is the empty string exactly when every code point of [s]
    is white space or a line terminator. *)
Fixpoint blank (s : string) : bool :=
  match s with
  | EmptyString => true
  | String a r1 =>
      if isWhite a then blank r1
      else
        match r1 with
        | EmptyString => false
        | String b r2 =>
            if isWhite2 a b then blank r2
            else
              match r2 with
              | EmptyString => false
              | String c r3 => isWhite3 a b c && blank r3
              end
        end
  end.

End JS.

(* ===================================================================== *)
(** ** The colour and skill tables of [CVPreview] *)
(* ===================================================================== *)

Module Tables.
Import JS.

Definition triple (p s a : string) : value :=
  VObj [("primary", VStr p); ("secondary", VStr s); ("accent", VStr a)].

(** [const colorMap = { slate: ..., rose: ..., ... }] *)
Definition colorMap : list (string * value) :=
  [ ("slate",   triple "215, 25%, 27%" "215, 25%, 95%" "215, 25%, 20%");
    ("rose",    triple "11, 70%, 84%"  "11, 70%, 95%"  "11, 70%, 74%");
    ("emerald", triple "164, 44%, 80%" "164, 44%, 95%" "164, 44%, 70%");
    ("amber",   triple "0, 0%, 49%"    "0, 0%, 95%"    "0, 0%, 39%");
    ("blue",    triple "217, 91%, 60%" "217, 91%, 95%" "217, 91%, 50%");
    ("orange",  triple "20, 90%, 48%"  "20, 90%, 95%"  "20, 90%, 40%") ].

(** [const levels = { Beginner: 25, Intermediate: 50, Advanced: 75, Expert: 100 }] *)
Definition levels : list (string * value) :=
  [ ("Beginner", VNum 25); ("Intermediate", VNum 50);
    ("Advanced", VNum 75); ("Expert", VNum 100) ].

Definition knownColor (c : string) : bool :=
  existsb (String.eqb c) ["slate"; "rose"; "emerald"; "amber"; "blue"; "orange"].

Definition knownLevel (l : string) : bool :=
  existsb (String.eqb l) ["Beginner"; "Intermediate"; "Advanced"; "Expert"].

(** A value is a colour triple when it is an object whose [primary],
    [secondary] and [accent] are strings. *)
Definition isTriple (v : value) : bool :=
  match v with
  | VObj _ => isStr (getV v "primary") && isStr (getV v "secondary")
              && isStr (getV v "accent")
  | _ => false
  end.
End Tables.

(* ===================================================================== *)
(** ** The engine's [Date]: parsing and [toLocaleDateString] *)
(* ===================================================================== *)

Module Platform.
Import JS.
Local Open Scope Z_scope.

(** What the host leaves open: the formats [Date.parse] accepts beyond
    the ECMA-262 date-time string format (21.4.3.2 lets an engine fall
    back to heuristics of its own) and the offset of local time from UTC,
    in milliseconds, at a given instant. A time value is [Some t] with
    [t] in milliseconds since the epoch, or [None] for [NaN]. *)
Record Engine : Type := {
  fallbackParse : string -> option Z;
  LocalTZA : Z -> Z
}.

Definition msPerDay : Z := 86400000.

Definition isDigit (c : ascii) : bool :=
  let n := nat_of_ascii c in ((48 <=? n) && (n <=? 57))%nat.

Fixpoint digitsVal (s : string) (acc : Z) : option Z :=
  match s with
  | EmptyString => Some acc
  | String c rest =>
      if isDigit c
      then digitsVal rest (10 * acc + (Z.of_nat (nat_of_ascii c) - 48))
      else None
  end.

(** The date-only forms of the format: [YYYY], [YYYY-MM], [YYYY-MM-DD].
    Returns the three elements as written, month and day defaulting
    to 1. A string that passes holds digits and dashes only, one byte
    each, so that the count of its bytes is its length. *)
Definition scanISODate (s : string) : option (Z * Z * Z) :=
  let field i n := digitsVal (substring i n s) 0 in
  let dash i := String.eqb (substring i 1 s) "-" in
  match String.length s with
  | 4%nat =>
      match field 0%nat 4%nat with
      | Some y => Some (y, 1, 1)
      | None => None
      end
  | 7%nat =>
      match field 0%nat 4%nat, field 5%nat 2%nat with
      | Some y, Some m => if dash 4%nat then Some (y, m, 1) else None
      | _, _ => None
      end
  | 10%nat =>
      match field 0%nat 4%nat, field 5%nat 2%nat, field 8%nat 2%nat with
      | Some y, Some m, Some d =>
          if dash 4%nat && dash 7%nat then Some (y, m, d) else None
      | _, _, _ => None
      end
  | _ => None
  end.

Definition isLeap (y : Z) : bool :=
  ((y mod 4 =? 0) && negb (y mod 100 =? 0)) || (y mod 400 =? 0).

Definition daysInMonth (y m : Z) : Z :=
  if m =? 2 then (if isLeap y then 29 else 28)
  else if (m =? 4) || (m =? 6) || (m =? 9) || (m =? 11) then 30
  else 31.

(** Day number (days since 1970-01-01) of a proleptic Gregorian date. *)
Definition daysFromCivil (y m d : Z) : Z :=
  let y' := if m <=? 2 then y - 1 else y in
  let era := y' / 400 in
  let yoe := y' - era * 400 in
  let mp := if m <=? 2 then m + 9 else m - 3 in
  let doy := (153 * mp + 2) / 5 + d - 1 in
  let doe := yoe * 365 + yoe / 4 - yoe / 100 + doy in
  era * 146097 + doe - 719468.

Inductive month : Type :=
| Jan | Feb | Mar | Apr | May | Jun | Jul | Aug | Sep | Oct | Nov | Dec.

(** Month from its index counted from March. *)
Definition monthFromMarch (mp : Z) : month :=
  if mp =? 0 then Mar else if mp =? 1 then Apr else if mp =? 2 then May
  else if mp =? 3 then Jun else if mp =? 4 then Jul else if mp =? 5 then Aug
  else if mp =? 6 then Sep else if mp =? 7 then Oct else if mp =? 8 then Nov
  else if mp =? 9 then Dec else if mp =? 10 then Jan else Feb.

(** Year and month of a day number. *)
Definition yearMonthFromDays (z0 : Z) : Z * month :=
  let z := z0 + 719468 in
  let era := z / 146097 in
  let doe := z - era * 146097 in
  let yoe := (doe - doe / 1460 + doe / 36524 - doe / 146096) / 365 in
  let doy := doe - (365 * yoe + yoe / 4 - yoe / 100) in
  let mp := (5 * doy + 2) / 153 in
  let y := yoe + era * 400 in
  (if mp <? 10 then y else y + 1, monthFromMarch mp).

(** [Date.parse]: a date-only string of the format is UTC midnight of
    that day; an element out of bounds makes the result [NaN] whatever
    the engine; a day the month does not have (30 February) and every
    string outside the date-only forms are the engine's business. *)
Definition Date_parse (e : Engine) (s : string) : option Z :=
  match scanISODate s with
  | Some (y, m, d) =>
      if (m <? 1) || (12 <? m) || (d <? 1) || (31 <? d) then None
      else if d <=? daysInMonth y m
           then Some (msPerDay * daysFromCivil y m d)
           else fallbackParse e s
  | None => fallbackParse e s
  end.

(** The abbreviated month names of the [en-US] locale. *)
Definition monthShort (m : month) : string :=
  match m with
  | Jan => "Jan" | Feb => "Feb" | Mar => "Mar" | Apr => "Apr"
  | May => "May" | Jun => "Jun" | Jul => "Jul" | Aug => "Aug"
  | Sep => "Sep" | Oct => "Oct" | Nov => "Nov" | Dec => "Dec"
  end.

(** The year of the era: year 0 of the proleptic calendar is year 1
    before the era. *)
Definition yearOfEra (y : Z) : Z := if 1 <=? y then y else 1 - y.

(** [date.toLocaleDateString("en-US", { year: "numeric", month: "short" })]
    on a date with time value [tv] (ECMA-402 19.4.2: an invalid date
    gives the text [Invalid Date]). *)
Definition toLocaleDateString (e : Engine) (tv : option Z) : string :=
  match tv with
  | None => "Invalid Date"
  | Some t =>
      let '(y, m) := yearMonthFromDays ((t + LocalTZA e t) / msPerDay) in
      (monthShort m ++ " " ++ showZ (yearOfEra y))%string
  end.

(** An engine without formats of its own, running in UTC. *)
Definition strictUTC : Engine :=
  {| fallbackParse := fun _ => None; LocalTZA := fun _ => 0 |}.

(** Local time five hours behind UTC. *)
Definition strictEST : Engine :=
  {| fallbackParse := fun _ => None; LocalTZA := fun _ => -18000000 |}.
End Platform.

(* ===================================================================== *)
(** ** The data model ([@/types/cv]) *)
(* ===================================================================== *)

Record PersonalInfo : Type := {
  fullName : string;
  pi_jobTitle : string;
  email : string;
  phone : string;
  address : string;
  website : string;
  photoUrl : string
}.

(** The type declares [current] a boolean; the editor can also leave the
    empty string in it, so the field holds a value and the code reads it
    as a condition. *)
Record WorkExperience : Type := {
  we_id : string;
  we_jobTitle : string;
  company : string;
  we_startDate : string;
  we_endDate : string;
  current : JS.value;
  responsibilities : list string
}.

Record Education : Type := {
  ed_id : string;
  degree : string;
  fieldOfStudy : string;
  institution : string;
  ed_startDate : string;
  ed_endDate : string;
  grade : option string
}.

Record Skill : Type := { sk_id : string; sk_name : string; level : string }.

Record Language : Type := { la_id : string; la_name : string; proficiency : string }.

Record Certification : Type := {
  ce_id : string;
  ce_name : string;
  issuer : string;
  ce_date : string;
  expiryDate : option string
}.

Record Reference : Type := {
  re_id : string;
  re_name : string;
  re_email : string;
  re_phone : string;
  organization : string
}.

Record CVData : Type := {
  personalInfo : PersonalInfo;
  summary : string;
  workExperience : list WorkExperience;
  education : list Education;
  skills : list Skill;
  languages : list Language;
  certifications : list Certification;
  references : list Reference
}.

Record CVTemplate : Type := {
  id : string;
  hasPhoto : bool;
  columns : Z;
  color : string
}.

(* ===================================================================== *)
(** ** The rendered tree *)
(* ===================================================================== *)

(** Host elements and the icon components of [lucide-react] used by
    [CVPreview]. *)
Inductive tag : Type :=
| div | h1 | h3 | h4 | p | span | ul | li | img | style
| Mail | Phone | MapPin | Globe | Calendar | Award | Users.

(** An argument of a [console.log] call inside an image event handler:
    a string known at render time, or [e.currentTarget.src]. *)
Inductive logArg : Type :=
| LStr (s : string)
| LTargetSrc.

(** The props a rendered element carries. An event handler is kept as the
    [console.log] calls it makes. *)
Inductive attr : Type :=
| key (k : string)
| keyIndex (i : nat)
| className (c : string)
| src (url : string)
| alt (text : string)
| styleProp (decls : list (string * JS.value))
| onError (logs : list (list logArg))
| onLoad (logs : list (list logArg)).

(** Children that React does not render ([false] and the empty string,
    the values of a failed [cond && <x/>]) are left out of the tree. *)
Inductive VNode : Type :=
| Text (s : string)
| Elem (t : tag) (attrs : list attr) (children : list VNode).

Definition tag_eqb (a b : tag) : bool :=
  match a, b with
  | div, div | h1, h1 | h3, h3 | h4, h4 | p, p | span, span | ul, ul | li, li
  | img, img | style, style | Mail, Mail | Phone, Phone | MapPin, MapPin
  | Globe, Globe | Calendar, Calendar | Award, Award | Users, Users => true
  | _, _ => false
  end.

(** A string child: nothing when empty. *)
Definition text (s : string) : list VNode :=
  if s =? "" then [] else [Text s].

(** [{cond && (...)}] *)
Definition when (cond : bool) (nodes : list VNode) : list VNode :=
  if cond then nodes else [].

Definition nonEmpty {A : Type} (l : list A) : bool :=
  match l with [] => false | _ :: _ => true end.

(** [s] as a condition *)
Definition nonEmptyStr (s : string) : bool := negb (s =? "").

(** [a || b] on strings *)
Definition orStr (a b : string) : string := if a =? "" then b else a.

(** The concatenated text of the direct text children. *)
Fixpoint ownText (cs : list VNode) : string :=
  match cs with
  | [] => ""
  | Text s :: rest => (s ++ ownText rest)%string
  | Elem _ _ _ :: rest => ownText rest
  end.

(** The own text of every element with tag [t], in document order. *)
Fixpoint textsOf (t : tag) (n : VNode) : list string :=
  match n with
  | Text _ => []
  | Elem t' _ cs =>
      (if tag_eqb t t' then [ownText cs] else []) ++ flat_map (textsOf t) cs
  end.

(** The section titles of a tree: the texts of its [h3] headings. *)
Definition headings (n : VNode) : list string := textsOf h3 n.

Definition hasSection (title : string) (n : VNode) : bool :=
  existsb (String.eqb title) (headings n).

(** Pairs of neighbours among the children of one parent: the children
    lists of every element with tag [t] that comes right after an element
    with tag [t0]. *)
Fixpoint adjacent (t0 t : tag) (cs : list VNode) : list (list VNode) :=
  match cs with
  | [] => []
  | Elem a _ _ :: rest =>
      match rest with
      | Elem b _ bs :: _ =>
          (if tag_eqb t0 a && tag_eqb t b then [bs] else []) ++ adjacent t0 t rest
      | _ => adjacent t0 t rest
      end
  | Text _ :: rest => adjacent t0 t rest
  end.

(** The same, anywhere in the tree, in document order. *)
Fixpoint following (t0 t : tag) (n : VNode) : list (list VNode) :=
  match n with
  | Text _ => []
  | Elem _ _ cs => adjacent t0 t cs ++ flat_map (following t0 t) cs
  end.

(** The children that follow a first child with tag [t0]. *)
Definition rowOf (t0 : tag) (cs : list VNode) : list (list VNode) :=
  match cs with
  | Elem a _ _ :: rest => if tag_eqb t0 a then [rest] else []
  | _ => []
  end.

(** The rows of the tree that start with an element with tag [t0], each
    without that first element, in document order. *)
Fixpoint rowsAfter (t0 : tag) (n : VNode) : list (list VNode) :=
  match n with
  | Text _ => []
  | Elem _ _ cs => rowOf t0 cs ++ flat_map (rowsAfter t0) cs
  end.

(** Whether an element with tag [t] occurs in the tree. *)
Fixpoint uses (t : tag) (n : VNode) : bool :=
  match n with
  | Text _ => false
  | Elem t' _ cs => tag_eqb t t' || existsb (uses t) cs
  end.

(** Every text of the tree, in document order. *)
Fixpoint allTexts (n : VNode) : list string :=
  match n with
  | Text s => [s]
  | Elem _ _ cs => flat_map allTexts cs
  end.

(* ===================================================================== *)
(** ** The document the component is mounted in *)
(* ===================================================================== *)

(** [document.documentElement.style]: the custom properties set inline on
    the root element, the state every mounted component shares. *)
Definition Document : Type := list (string * string).

Fixpoint removeProperty (name : string) (d : Document) : Document :=
  match d with
  | [] => []
  | (k, v) :: rest =>
      if k =? name then removeProperty name rest
      else (k, v) :: removeProperty name rest
  end.

Fixpoint updateProperty (name s : string) (d : Document) : Document :=
  match d with
  | [] => [(name, s)]
  | (k, v) :: rest =>
      if k =? name then (k, s) :: rest
      else (k, v) :: updateProperty name s rest
  end.

(** [style.setProperty(name, value)]: the value is converted to a string;
    the empty string removes the property, any other value replaces the
    one set before or is added at the end. *)
Definition setProperty (name : string) (v : JS.value) (d : Document) : Document :=
  let s := JS.toString v in
  if s =? "" then removeProperty name d else updateProperty name s d.

(** An effect registered with [useEffect]: what it does after the commit,
    what its clean-up does, and its dependency list. *)
Record Effect : Type := {
  run : Document -> Document;
  cleanup : Document -> Document;
  deps : list string
}.

(** What calling the component yields: the tree it returns and the effects
    it registers. *)
Record Rendered : Type := {
  tree : VNode;
  effects : list Effect
}.

(** Mounting runs every effect; unmounting runs every clean-up. *)
Definition mount (r : Rendered) (d : Document) : Document :=
  fold_left (fun d e => run e d) (effects r) d.

Definition unmount (r : Rendered) (d : Document) : Document :=
  fold_left (fun d e => cleanup e d) (effects r) d.

(** A later render of a mounted component: an effect whose dependencies
    are the ones of the render before is not run again; otherwise the old
    clean-up runs, then the new effect. *)
Definition rerender (prev next : Rendered) (d : Document) : Document :=
  fold_left
    (fun d (en : Effect * Effect) =>
       let (old, new) := en in
       if list_eq_dec string_dec (deps old) (deps new) then d
       else run new (cleanup old d))
    (combine (effects prev) (effects next)) d.

(* ===================================================================== *)
(** ** [CVPreview]: helpers shared by the two revisions *)
(* ===================================================================== *)

Module Preview.
Import JS Platform Tables.

Definition DEFAULT_AVATAR_URL : string :=
  "https://encrypted-tbn0.gstatic.com/images?q=tbn:ANd9GcSUqDBA8jnL_ezUoa8s_GgnboMkEeE4M7-LyA&s".

(** A template literal: its pieces, concatenated. *)
Definition tpl (parts : list string) : string := String.concat "" parts.

(** [if (!dateString) return "";
     return new Date(dateString).toLocaleDateString("en-US",
              { year: "numeric", month: "short" });] *)
Definition formatDate (e : Engine) (dateString : string) : string :=
  if dateString =? "" then ""
  else toLocaleDateString e (Date_parse e dateString).

Record Styles : Type := {
  sidebarBg : string;
  primaryColor : string;
  accentColor : string;
  borderColor : string;
  skillBar : string;
  headerStyle : string
}.

Definition baseStyle : string := "transition-all duration-300".

Definition dynamicStyles (header : string) : Styles :=
  {| sidebarBg := "cv-sidebar-bg";
     primaryColor := "cv-primary-text";
     accentColor := "cv-accent-bg";
     borderColor := "cv-primary-border";
     skillBar := "cv-skill-bar";
     headerStyle := header |}.

(** [switch (template.id) { case "professional": ... default: ... }] *)
Definition getTemplateStyles (template : CVTemplate) : Styles :=
  let i := id template in
  if i =? "professional" then
    dynamicStyles (tpl [baseStyle; " cv-header-professional"])
  else if i =? "creative" then
    {| sidebarBg := "cv-sidebar-creative";
       primaryColor := "cv-primary-text";
       accentColor := "cv-accent-bg";
       borderColor := "cv-primary-border";
       skillBar := "cv-skill-bar-creative";
       headerStyle := tpl [baseStyle; " cv-header-creative"] |}
  else if i =? "executive" then
    dynamicStyles (tpl [baseStyle; " cv-header-executive"])
  else if i =? "minimal" then
    dynamicStyles (tpl [baseStyle; " cv-header-minimal"])
  else dynamicStyles baseStyle.

(** The two revisions of the component in the repository. *)
Inductive revision : Type := revLegacy | revCurrent.

(** The rules of the [<style>] element both revisions emit. *)
Definition cssRules : list string :=
  [ ".cv-sidebar-bg { background-color: hsl(var(--template-secondary)); }";
    ".cv-sidebar-creative { background-color: hsl(var(--template-secondary)); }";
    ".cv-primary-text { color: hsl(var(--template-primary)); }";
    ".cv-accent-bg { background-color: hsl(var(--template-primary)); }";
    ".cv-primary-border { border-color: hsl(var(--template-primary)); }";
    ".cv-skill-bar { background-color: hsl(var(--template-primary)); }";
    ".cv-skill-bar-creative { background-color: hsl(var(--template-primary)); }";
    ".cv-header-professional { background: linear-gradient(to right, hsl(var(--template-primary)), hsl(var(--template-accent))); }";
    ".cv-header-creative { background-color: hsl(var(--template-primary)); }";
    ".cv-header-executive { background-color: hsl(var(--template-primary)); }";
    ".cv-header-minimal { border-bottom: 2px solid hsl(var(--template-primary)); }" ].

(** The text of a [<style>] element, one rule a line (the indentation
    of the source literal is not kept). *)
Definition styleElem (rules : list string) : VNode :=
  Elem style [] [Text (String.concat (String "010"%char "") rules)].

(** What the JSX of the component closes over: the props [data] and
    [template], the engine behind [formatDate], and the revision with
    its [getSkillLevel]. *)
Record Closure : Type := {
  cl_rev : revision;
  cl_engine : Engine;
  cl_getSkillLevel : string -> value;
  cl_data : CVData;
  cl_template : CVTemplate
}.

(** The bodies of the two layouts. They are the same text in both
    revisions but for the image event handlers (legacy only) and the
    order of two class names. *)
Section Body.
Variable cl : Closure.

Let rev : revision := cl_rev cl.
Let e : Engine := cl_engine cl.
Let getSkillLevel : string -> value := cl_getSkillLevel cl.
Let data : CVData := cl_data cl.
Let template : CVTemplate := cl_template cl.
Let styles : Styles := getTemplateStyles template.
Let info : PersonalInfo := personalInfo data.
Let minimal : bool := id template =? "minimal".
Let creative : bool := id template =? "creative".

(** [src={data.personalInfo.photoUrl || DEFAULT_AVATAR_URL}] *)
Definition photoSrc : string := orStr (photoUrl info) DEFAULT_AVATAR_URL.

(** [onError] / [onLoad] of the legacy [<img>]; [label] is the text the
    messages carry for the place of the image. *)
Definition imgHandlers (label : string) : list attr :=
  match rev with
  | revCurrent => []
  | revLegacy =>
      [ onError [ [LStr (tpl ["Image failed to load"; label; ":"]); LTargetSrc];
                  [LStr "Data photoUrl:"; LStr (photoUrl info)];
                  [LStr "DEFAULT_AVATAR_URL:"; LStr DEFAULT_AVATAR_URL] ];
        onLoad [ [LStr (tpl ["Image loaded successfully"; label; ":"]);
                  LStr photoSrc] ] ]
  end.

Definition photo (cls label : string) : VNode :=
  Elem img ([src photoSrc; alt "Profile"; className cls] ++ imgHandlers label) [].

Definition sectionTitle (cls title : string) : VNode :=
  Elem h3 [className cls] [Text title].

(** [{data.personalInfo.fullName || "Your Name"}] and
    [{data.personalInfo.jobTitle || "Your Job Title"}] *)
Definition displayName : string := orStr (fullName info) "Your Name".
Definition displayTitle : string := orStr (pi_jobTitle info) "Your Job Title".

(** [{formatDate(exp.startDate)} - {exp.current ? "Present" : formatDate(exp.endDate)}] *)
Definition workDates (exp : WorkExperience) : list VNode :=
  text (formatDate e (we_startDate exp)) ++ [Text " - "]
  ++ (if JS.truthy (current exp) then [Text "Present"]
      else text (formatDate e (we_endDate exp))).

(** [{formatDate(edu.startDate)} - {formatDate(edu.endDate)}] *)
Definition educationDates (edu : Education) : list VNode :=
  text (formatDate e (ed_startDate edu)) ++ [Text " - "]
  ++ text (formatDate e (ed_endDate edu)).

(** [{edu.grade && <div ...>Grade: {edu.grade}</div>}] *)
Definition gradeLine (edu : Education) : list VNode :=
  match grade edu with
  | Some g =>
      when (nonEmptyStr g)
        [Elem div [className "text-sm text-muted-foreground"]
           [Text "Grade: "; Text g]]
  | None => []
  end.

Fixpoint items (i : nat) (rs : list string) : list VNode :=
  match rs with
  | [] => []
  | r :: rest =>
      Elem li [keyIndex i; className "text-sm leading-relaxed"] (text r)
      :: items (S i) rest
  end.

(** [exp.responsibilities.filter((r) => r.trim()).map((resp, index) => <li .../>)] *)
Definition responsibilityItems (exp : WorkExperience) : list VNode :=
  items 0 (filter (fun r => negb (blank r)) (responsibilities exp)).

(** [{template.id === "creative" && <div className=... />}] *)
Definition accentBar : list VNode :=
  when creative
    [Elem div [className (tpl ["absolute left-0 top-0 w-1 h-full ";
                               accentColor styles; " rounded-full"])] []].

Definition indent : string := if creative then "pl-4" else "".

(** A work-experience entry. The layouts differ in the size class of
    the date ([sz]), the size of the calendar icon ([icon]) and the
    class of the list ([listCls]). *)
Definition workEntry (sz icon listCls : string) (exp : WorkExperience) : VNode :=
  Elem div [key (we_id exp); className "relative"]
    (accentBar ++
     [Elem div [className indent]
        ([Elem div [className "flex justify-between items-start mb-2"]
            [ Elem div []
                [ Elem h4 [className "font-semibold text-foreground text-base"]
                    (text (we_jobTitle exp));
                  Elem p [className (tpl ["font-medium "; primaryColor styles])]
                    (text (company exp)) ];
              Elem div [className (tpl ["text-right "; sz; " text-muted-foreground"])]
                [ Elem div [className "flex items-center gap-1"]
                    (Elem Calendar [className icon] [] :: workDates exp) ] ]]
         ++ when (nonEmpty (responsibilities exp))
              [Elem ul [className listCls] (responsibilityItems exp)])]).

Definition workSection (titleCls sz icon listCls : string) : list VNode :=
  when (nonEmpty (workExperience data))
    [Elem div []
       [ sectionTitle titleCls "Work Experience";
         Elem div [className "space-y-6"]
           (map (workEntry sz icon listCls) (workExperience data)) ]].

Definition summarySection (titleCls : string) : list VNode :=
  when (nonEmptyStr (summary data))
    [Elem div []
       [ sectionTitle titleCls "Professional Summary";
         Elem p [className "text-muted-foreground leading-relaxed"]
           (text (summary data)) ]].

(** [style={{ width: `${getSkillLevel(skill.level)}%` }}] *)
Definition barWidth (skill : Skill) : string :=
  tpl [toString (getSkillLevel (level skill)); "%"].

Definition skillEntry (sz : string) (skill : Skill) : VNode :=
  Elem div [key (sk_id skill)]
    [ Elem div [className "flex justify-between items-center mb-1"]
        [ Elem span [className (tpl [sz; " font-medium"])] (text (sk_name skill));
          Elem span [className (tpl [sz; " text-muted-foreground"])]
            (text (level skill)) ];
      Elem div [className "w-full bg-muted/50 rounded-full h-2"]
        [ Elem div [className (tpl [skillBar styles;
                                    " h-2 rounded-full transition-all duration-500"]);
                    styleProp [("width", VStr (barWidth skill))]] [] ] ].

Definition skillsSection (titleCls sz : string) : list VNode :=
  when (nonEmpty (skills data))
    [Elem div []
       [ sectionTitle titleCls "Skills";
         Elem div [className "space-y-3"] (map (skillEntry sz) (skills data)) ]].

Definition languageEntry (sz : string) (lang : Language) : VNode :=
  Elem div [key (la_id lang); className "flex items-center justify-between"]
    [ Elem span [className (tpl [sz; " font-medium"])] (text (la_name lang));
      Elem span [className (tpl [sz; " text-muted-foreground"])]
        (text (proficiency lang)) ].

Definition languagesSection (titleCls sz : string) : list VNode :=
  when (nonEmpty (languages data))
    [Elem div []
       [ sectionTitle titleCls "Languages";
         Elem div [className "space-y-2"]
           (map (languageEntry sz) (languages data)) ]].

(** An entry of the certifications or references list: an icon and
    lines of text. *)
Definition iconEntry (k : string) (ic : tag) (icon sz : string)
    (first : string) (others : list string) : VNode :=
  Elem div [key k]
    [ Elem div [className "flex items-start gap-2"]
        [ Elem ic [className (tpl [icon; " flex-shrink-0 mt-0.5 ";
                                   primaryColor styles])] [];
          Elem div []
            (Elem div [className (tpl [sz; " font-medium text-foreground"])]
               (text first)
             :: map (fun s => Elem div [className (tpl [sz; " text-muted-foreground"])]
                                (text s)) others) ] ].

Definition certificationEntry (icon sz : string) (cert : Certification) : VNode :=
  iconEntry (ce_id cert) Award icon sz (ce_name cert)
    [issuer cert; formatDate e (ce_date cert)].

Definition certificationsSection (titleCls spacing icon sz : string) : list VNode :=
  when (nonEmpty (certifications data))
    [Elem div []
       [ sectionTitle titleCls "Certifications";
         Elem div [className spacing]
           (map (certificationEntry icon sz) (certifications data)) ]].

Definition referenceEntry (icon sz : string) (r : Reference) : VNode :=
  iconEntry (re_id r) Users icon sz (re_name r)
    [organization r; re_email r; re_phone r].

Definition referencesSection (titleCls spacing icon sz : string) : list VNode :=
  when (nonEmpty (references data))
    [Elem div []
       [ sectionTitle titleCls "References";
         Elem div [className spacing]
           (map (referenceEntry icon sz) (references data)) ]].

(** ---- Two-column layout ---- *)

(** A line of the sidebar contact block. *)
Definition contactLine (ic : tag) (spanCls value : string) : list VNode :=
  when (nonEmptyStr value)
    [Elem div [className "flex items-center gap-2 text-muted-foreground"]
       [ Elem ic [className (tpl ["w-3 h-3 flex-shrink-0 "; primaryColor styles])] [];
         Elem span [className spanCls] (text value) ]].

Definition sidebarTitleCls : string :=
  tpl ["font-semibold "; primaryColor styles; " mb-3 border-b ";
       borderColor styles; "/30 pb-1 text-sm"].

(** The contact block of the sidebar: rendered whatever the data. *)
Definition contactSection : VNode :=
  Elem div []
    [ sectionTitle sidebarTitleCls "Contact";
      Elem div [className "space-y-2"]
        (contactLine Mail "text-xs break-all" (email info)
         ++ contactLine Phone "text-xs" (phone info)
         ++ contactLine MapPin "text-xs" (address info)
         ++ contactLine Globe "text-xs break-all" (website info)) ].

Definition sidebar : VNode :=
  Elem div [className (tpl ["w-1/3 "; sidebarBg styles; " p-6 space-y-6"])]
    (when (hasPhoto template)
       [Elem div [className "text-center"]
          [photo (tpl ["w-24 h-24 rounded-full mx-auto object-cover border-4 ";
                       borderColor styles; "/20 shadow-md"]) ""]]
     ++ [contactSection]
     ++ skillsSection sidebarTitleCls "text-xs"
     ++ languagesSection sidebarTitleCls "text-xs"
     ++ certificationsSection sidebarTitleCls "space-y-3" "w-3 h-3" "text-xs"
     ++ referencesSection sidebarTitleCls "space-y-3" "w-3 h-3" "text-xs").

Definition headerTwoColumn : VNode :=
  Elem div [className (tpl [if minimal
                            then (headerStyle styles ++ " pb-4")%string
                            else "border-b border-border pb-4"])]
    (when (negb minimal)
       [Elem div [className (tpl [headerStyle styles;
                                  " text-white p-4 rounded-lg mb-4 shadow-md"])]
          [ Elem h1 [className "text-2xl font-bold mb-1"] (text displayName);
            Elem p [className "text-lg opacity-90"] (text displayTitle) ]]
     ++ when minimal
          [ Elem h1 [className (tpl ["text-2xl font-bold "; primaryColor styles;
                                     " mb-1"])] (text displayName);
            Elem p [className "text-lg text-muted-foreground"] (text displayTitle) ]).

Definition educationEntryTwoColumn (edu : Education) : VNode :=
  Elem div [key (ed_id edu); className "relative"]
    (accentBar ++
     [Elem div [className indent]
        ([Elem div [className "flex justify-between items-start mb-2"]
            [ Elem div []
                [ Elem h4 [className "font-semibold text-foreground text-base"]
                    (text (degree edu));
                  Elem p [className (tpl ["font-medium "; primaryColor styles])]
                    (text (fieldOfStudy edu));
                  Elem p [className "text-sm text-muted-foreground"]
                    (text (institution edu)) ];
              Elem div [className "text-right text-xs text-muted-foreground"]
                [ Elem div [className "flex items-center gap-1"]
                    (Elem Calendar [className "w-3 h-3"] [] :: educationDates edu) ] ]]
         ++ gradeLine edu)]).

Definition contentTitleCls (margin : string) : string :=
  tpl ["font-semibold "; primaryColor styles; " "; margin; " text-lg"].

Definition educationSectionTwoColumn : list VNode :=
  when (nonEmpty (education data))
    [Elem div []
       [ sectionTitle (contentTitleCls "mb-4") "Education";
         Elem div [className "space-y-6"]
           (map educationEntryTwoColumn (education data)) ]].

Definition content : VNode :=
  Elem div [className "flex-1 p-6 space-y-6"]
    ([headerTwoColumn]
     ++ summarySection (contentTitleCls "mb-3")
     ++ workSection (contentTitleCls "mb-4") "text-xs" "w-3 h-3"
          "list-disc list-inside text-muted-foreground space-y-1 ml-4"
     ++ educationSectionTwoColumn).

(** The children of the root element after the [<style>] element. *)
Definition twoColumnBody : list VNode :=
  [Elem div [className "flex h-full"] [sidebar; content]].

(** ---- Single-column layout ---- *)

Definition inlineContact (ic : tag) (value : string) : list VNode :=
  when (nonEmptyStr value)
    [Elem div [className "flex items-center gap-1"]
       (Elem ic [className "w-4 h-4"] [] :: text value)].

Definition inlineContacts (cls : string) : VNode :=
  Elem div [className cls]
    (inlineContact Mail (email info)
     ++ inlineContact Phone (phone info)
     ++ inlineContact MapPin (address info)).

Definition headerSingleColumn : VNode :=
  Elem div [className (tpl ["text-center ";
                            if minimal
                            then (headerStyle styles ++ " pb-6")%string
                            else "border-b border-border pb-6"])]
    (when (negb minimal)
       [Elem div [className (tpl [headerStyle styles;
                                  " text-white p-6 rounded-lg mb-6 shadow-md"])]
          (when (hasPhoto template)
             [photo "w-24 h-24 rounded-full mx-auto object-cover border-4 border-white/20 mb-4 shadow-lg"
                " (single-column)"]
           ++ [ Elem h1 [className "text-3xl font-bold mb-2"] (text displayName);
                Elem p [className "text-xl opacity-90 mb-4"] (text displayTitle);
                inlineContacts "flex flex-wrap justify-center gap-4 text-sm text-white/80" ])]
     ++ when minimal
          (when (hasPhoto template)
             [photo (tpl ["w-24 h-24 rounded-full mx-auto object-cover border-4 ";
                          borderColor styles; "/20 mb-4 shadow-md"]) " (minimal)"]
           ++ [ Elem h1 [className (tpl ["text-3xl font-bold "; primaryColor styles;
                                         " mb-2"])] (text displayName);
                Elem p [className "text-xl text-muted-foreground mb-4"]
                  (text displayTitle);
                inlineContacts
                  "flex flex-wrap justify-center gap-4 text-sm text-muted-foreground" ])).

Definition stackedTitleCls (margin : string) : string :=
  tpl ["font-semibold "; primaryColor styles; " "; margin; " border-b ";
       borderColor styles; "/30 pb-1 text-lg"].

Definition educationEntrySingleColumn (edu : Education) : VNode :=
  Elem div [key (ed_id edu)]
    ([ Elem h4 [className (match rev with
                           | revLegacy => "font-medium text-foreground"
                           | revCurrent => "text-foreground font-medium"
                           end)] (text (degree edu));
       Elem p [className "text-muted-foreground"] (text (fieldOfStudy edu));
       Elem p [className (tpl ["font-medium "; primaryColor styles])]
         (text (institution edu));
       Elem div [className "text-sm text-muted-foreground"] (educationDates edu) ]
     ++ gradeLine edu).

Definition educationSectionSingleColumn : list VNode :=
  when (nonEmpty (education data))
    [Elem div []
       [ sectionTitle (stackedTitleCls "mb-4") "Education";
         Elem div [className "space-y-4"]
           (map educationEntrySingleColumn (education data)) ]].

(** The children of the root element after the [<style>] element. *)
Definition singleColumnBody : list VNode :=
  [headerSingleColumn]
  ++ summarySection (stackedTitleCls "mb-3")
  ++ workSection (stackedTitleCls "mb-4") "text-sm" "w-4 h-4"
       "list-disc list-inside text-muted-foreground space-y-1"
  ++ [ Elem div [className "grid md:grid-cols-2 gap-6"]
         (educationSectionSingleColumn
          ++ skillsSection (stackedTitleCls "mb-4") "text-sm");
       Elem div [className "grid md:grid-cols-2 gap-6"]
         (languagesSection (stackedTitleCls "mb-4") "text-sm"
          ++ certificationsSection (stackedTitleCls "mb-4") "space-y-4" "w-4 h-4" "text-sm"
          ++ referencesSection (stackedTitleCls "mb-4") "space-y-4" "w-4 h-4" "text-sm") ].
End Body.
End Preview.

(* ===================================================================== *)
(** ** [CVPreview], legacy revision: CSS variables injected on the root *)
(* ===================================================================== *)

Module Legacy.
Import JS Platform Tables Preview.

(** [return levels[level as keyof typeof levels] || 50;] *)
Definition getSkillLevel (level : string) : value :=
  or (get levels level) (VNum 50).

(** [return colorMap[colorName as keyof typeof colorMap] || colorMap.slate;] *)
Definition getColorValues (colorName : string) : value :=
  or (get colorMap colorName) (get colorMap "slate").

Record Props : Type := {
  data : CVData;
  template : CVTemplate;
  isPreview : bool;
  isPDF : bool
}.

(** [useEffect(() => { ...setProperty x3...; return () => { ...removeProperty x3... }; },
               [template.color])] *)
Definition injectVariables (template : CVTemplate) : Effect :=
  let colors := getColorValues (color template) in
  {| run := fun d =>
       setProperty "--template-accent" (getV colors "accent")
         (setProperty "--template-secondary" (getV colors "secondary")
            (setProperty "--template-primary" (getV colors "primary") d));
     cleanup := fun d =>
       removeProperty "--template-accent"
         (removeProperty "--template-secondary"
            (removeProperty "--template-primary" d));
     deps := [color template] |}.

(** The [.cv-template { ... }] block at the head of the [<style>] text. *)
Definition variablesRule (template : CVTemplate) : list string :=
  let colors := getColorValues (color template) in
  [ ".cv-template {";
    tpl ["--template-primary: "; toString (getV colors "primary"); ";"];
    tpl ["--template-secondary: "; toString (getV colors "secondary"); ";"];
    tpl ["--template-accent: "; toString (getV colors "accent"); ";"];
    "}" ].

(** The class of the root element; the layouts differ in what stands
    before and after the text size. *)
Definition rootClass (props : Props) (before after : string) : string :=
  tpl [ "cv-a4 "; if isPDF props then "bg-white" else "bg-background"; " ";
        if isPDF props then "" else "border border-border rounded-lg shadow-card";
        before; if isPreview props then "text-xs" else "text-sm"; after ].

Definition closure (e : Engine) (props : Props) : Closure :=
  {| cl_rev := revLegacy; cl_engine := e; cl_getSkillLevel := getSkillLevel;
     cl_data := data props; cl_template := template props |}.

Definition CVPreview (e : Engine) (props : Props) : Rendered :=
  let styleNode := styleElem (variablesRule (template props) ++ cssRules) in
  {| tree :=
       if (columns (template props) =? 2)%Z then
         Elem div [className (rootClass props " overflow-hidden " " cv-template")]
           (styleNode
            :: twoColumnBody (closure e props))
       else
         Elem div [className (rootClass props " p-6 " " space-y-6 cv-template")]
           (styleNode
            :: singleColumnBody (closure e props));
     effects := [injectVariables (template props)] |}.
End Legacy.

(* ===================================================================== *)
(** ** [CVPreview], current revision: per-instance CSS variables *)
(* ===================================================================== *)

Module Current.
Import JS Platform Tables Preview.

(** [return levels[level] ?? 50;] *)
Definition getSkillLevel (level : string) : value :=
  nullish (get levels level) (VNum 50).

(** [const key = hasOwnProperty.call(colorMap, colorName) ? colorName : "slate";
     return colorMap[key];] *)
Definition getColorValues (colorName : string) : value :=
  let key := if hasOwnProperty colorMap colorName then colorName else "slate" in
  get colorMap key.

Record Props : Type := {
  data : CVData;
  template : CVTemplate;
  isPreview : bool;
  isPDF : bool;
  isFullPagePDF : bool;
  unbounded : bool
}.

(** [const colorVars: CSSProperties = { "--template-primary": ..., ... }] *)
Definition colorVars (template : CVTemplate) : list (string * value) :=
  [ ("--template-primary", getV (getColorValues (color template)) "primary");
    ("--template-secondary", getV (getColorValues (color template)) "secondary");
    ("--template-accent", getV (getColorValues (color template)) "accent") ].

Definition outerBase (props : Props) : string :=
  if isPDF props then "bg-white" else "bg-background".
Definition chrome (props : Props) : string :=
  if isPDF props then "" else "border border-border rounded-lg shadow-card".
Definition overflowClip (props : Props) : string :=
  if unbounded props then "" else "overflow-hidden".
Definition textSize (props : Props) : string :=
  if isPreview props then "text-xs" else "text-sm".

(** Screen: 794 x 1123 px. PDF: 210 x 297 mm. *)
Definition unboundedStyle (props : Props) : list (string * value) :=
  if unbounded props then
    (if isPDF props
     then [("width", VStr "210mm"); ("minHeight", VStr "297mm")]
     else [("width", VStr "794px"); ("minHeight", VStr "1123px")])
  else [].

Definition closure (e : Engine) (props : Props) : Closure :=
  {| cl_rev := revCurrent; cl_engine := e; cl_getSkillLevel := getSkillLevel;
     cl_data := data props; cl_template := template props |}.

Definition cvContent (e : Engine) (props : Props) : VNode :=
  let a4 := if unbounded props then "" else "cv-a4" in
  let rootStyle := styleProp (unboundedStyle props ++ colorVars (template props)) in
  if (columns (template props) =? 2)%Z then
    Elem div [className (tpl [a4; " "; outerBase props; " "; chrome props; " ";
                              overflowClip props; " "; textSize props]);
              rootStyle]
      (styleElem cssRules
       :: twoColumnBody (closure e props))
  else
    Elem div [className (tpl [a4; " "; outerBase props; " "; chrome props; " ";
                              overflowClip props; " p-6 "; textSize props;
                              " space-y-6"]);
              rootStyle]
      (styleElem cssRules
       :: singleColumnBody (closure e props)).

(** [return isFullPagePDF ? <div className="cv-page">{cvContent}</div> : cvContent;]
    The component registers no effect. *)
Definition CVPreview (e : Engine) (props : Props) : Rendered :=
  {| tree := if isFullPagePDF props
             then Elem div [className "cv-page"] [cvContent e props]
             else cvContent e props;
     effects := [] |}.
End Current.

(* ===================================================================== *)
(** ** [CVProgress]: the completeness evaluator *)
(* ===================================================================== *)

Module CVProgress.
Import JS.

(** An entry of [sections]. [complete] holds whatever the [&&] chain
    evaluates to. *)
Record Section_ : Type := {
  name : string;
  complete : value
}.

Record Completeness : Type := {
  percentage : Z;
  sections : list Section_
}.

(** [Math.round] on a rational: the nearest integer, halves upwards. *)
Definition Math_round (x : Q) : Z := Qfloor (x + (1 # 2))%Q.

(** [s.length > n] *)
Definition longerThan (n : nat) (s : string) : bool := (n <? string_length s)%nat.

(** [xs.some(pred)] *)
Definition some {A : Type} (pred : A -> value) (xs : list A) : bool :=
  existsb (fun x => truthy (pred x)) xs.

Definition calculateCompleteness (data : CVData) : Completeness :=
  let totalSections : Z := 5%Z in
  let info := personalInfo data in
  (* fullName && email && phone *)
  let personalComplete :=
    and (and (VStr (fullName info)) (VStr (email info))) (VStr (phone info)) in
  (* data.summary && data.summary.length > 20 *)
  let summaryComplete :=
    and (VStr (summary data)) (VBool (longerThan 20 (summary data))) in
  (* length > 0 && some(exp => exp.jobTitle && exp.company && exp.startDate) *)
  let workComplete :=
    and (VBool (nonEmpty (workExperience data)))
        (VBool (some (fun exp => and (and (VStr (we_jobTitle exp)) (VStr (company exp)))
                                     (VStr (we_startDate exp)))
                     (workExperience data))) in
  (* length > 0 && some(edu => edu.degree && edu.institution) *)
  let educationComplete :=
    and (VBool (nonEmpty (education data)))
        (VBool (some (fun edu => and (VStr (degree edu)) (VStr (institution edu)))
                     (education data))) in
  (* length > 0 && some(skill => skill.name) *)
  let skillsComplete :=
    and (VBool (nonEmpty (skills data)))
        (VBool (some (fun skill => VStr (sk_name skill)) (skills data))) in
  let sections :=
    [ {| name := "Personal Information"; complete := personalComplete |};
      {| name := "Summary"; complete := summaryComplete |};
      {| name := "Work Experience"; complete := workComplete |};
      {| name := "Education"; complete := educationComplete |};
      {| name := "Skills"; complete := skillsComplete |} ] in
  let completedSections :=
    Z.of_nat (List.length (filter (fun s => truthy (complete s)) sections)) in
  let percentage :=
    Math_round ((inject_Z completedSections / inject_Z totalSections) * 100)%Q in
  {| percentage := percentage; sections := sections |}.
End CVProgress.

(* ===================================================================== *)
(** ** [CVBuilder]: preview scale and PDF export *)
(* ===================================================================== *)

Module CVBuilder.
Import JS.

(** *** Scale of the on-screen preview *)

(** The part of the component state the scale computation touches. *)
Record State : Type := {
  previewMode : bool;
  previewScale : Q
}.

Definition setPreviewScale (scale : Q) (st : State) : State :=
  {| previewMode := previewMode st; previewScale := scale |}.

Definition cvWidth : Z := 794%Z.

(** [const scale = Math.min(containerWidth / cvWidth, 1);] *)
Definition scaleFor (containerWidth : Z) : Q :=
  Qmin (inject_Z containerWidth / inject_Z cvWidth)%Q 1%Q.

(** [calculateScale]: [container] is [previewContainerRef.current], given
    by its [clientWidth] when the element is mounted.
    [if (!previewContainerRef.current || previewMode) return;] *)
Definition calculateScale (container : option Z) (st : State) : State :=
  match container with
  | None => st
  | Some containerWidth =>
      if previewMode st then st
      else setPreviewScale (scaleFor containerWidth) st
  end.

(** *** PDF export *)

Record Toast : Type := {
  title : string;
  description : string;
  variant : option string
}.

Definition generating : Toast :=
  {| title := "Generating PDF...";
     description := "Please wait while we create your CV.";
     variant := None |}.

Definition downloaded : Toast :=
  {| title := "PDF Downloaded!";
     description := "Your CV has been successfully downloaded.";
     variant := None |}.

Definition failed : Toast :=
  {| title := "Download Failed";
     description := "There was an error generating your PDF. Please try again.";
     variant := Some "destructive" |}.

(** The options handed to [html2pdf]. The quality 0.98 and the scale
    3.78 are kept in hundredths. *)
Record Options : Type := {
  margin : Z;
  filename : string;
  image_type : string;
  image_quality_hundredths : Z;
  html2canvas_scale_hundredths : Z;
  useCORS : bool;
  unit_ : string;
  format : Z * Z;
  orientation : string;
  pagebreak : option (list string)
}.

Definition opt (pagebreakMode : option (list string)) : Options :=
  {| margin := 0%Z;
     filename := "my-cv.pdf";
     image_type := "jpeg";
     image_quality_hundredths := 98%Z;
     html2canvas_scale_hundredths := 378%Z;
     useCORS := true;
     unit_ := "mm";
     format := (210, 297)%Z;
     orientation := "portrait";
     pagebreak := pagebreakMode |}.

(** How a call ends: it returns, or it throws (an awaited promise
    is fulfilled, or rejected). A call that never settles is outside this
    model. *)
Inductive Outcome (A : Type) : Type :=
| Returned (a : A)
| Thrown (err : value).
Arguments Returned {A} a.
Arguments Thrown {A} err.

Section Pipeline.
(** The state of what lies outside the component (DOM, font loader,
    network, downloads) and the node [exportRef] points to. *)
Variable Outside : Type.
Variable Element : Type.

(** What the component can observe of a run: the toasts shown, the
    calls of [console.error], and the outside. *)
Record World : Type := {
  toasts : list Toast;
  errors : list (string * value);
  outside : Outside
}.

(** An asynchronous computation. *)
Definition M (A : Type) : Type := World -> Outcome A * World.

Definition ret {A : Type} (a : A) : M A := fun w => (Returned a, w).

Definition bind {A B : Type} (m : M A) (k : A -> M B) : M B :=
  fun w =>
    match m w with
    | (Returned a, w') => k a w'
    | (Thrown err, w') => (Thrown err, w')
    end.

(** [try { body } catch (error) { handler }] *)
Definition tryCatch {A : Type} (body : M A) (handler : value -> M A) : M A :=
  fun w =>
    match body w with
    | (Returned a, w') => (Returned a, w')
    | (Thrown err, w') => handler err w'
    end.

(** [toast(...)] and [console.error(...)] record their argument and do
    not throw. *)
Definition toast (t : Toast) : M unit :=
  fun w => (Returned tt, {| toasts := toasts w ++ [t];
                            errors := errors w;
                            outside := outside w |}).

Definition console_error (msg : string) (err : value) : M unit :=
  fun w => (Returned tt, {| toasts := toasts w;
                            errors := errors w ++ [(msg, err)];
                            outside := outside w |}).

(** A collaborator acts on the outside and returns or throws. *)
Definition Collaborator : Type := Outside -> Outcome unit * Outside.

Definition call (c : Collaborator) : M unit :=
  fun w =>
    let (o, x) := c (outside w) in
    (o, {| toasts := toasts w; errors := errors w; outside := x |}).

(** [await html2pdf().set(opt).from(element).save()] *)
Variable html2pdf_save : Options -> Element -> Collaborator.
(** ["fonts" in document] and [await document.fonts.ready] *)
Variable fontsInDocument : bool.
Variable fonts_ready : Collaborator.
(** [await Promise.all(imgs.map(...))] over the images of the node:
    each promise resolves on [load] or [error] and none rejects. The ref
    is taken to keep its node during a run. *)
Variable imagesSettled : Element -> Outside -> Outside.

Definition awaitImages (element : Element) : M unit :=
  call (fun x => (Returned tt, imagesSettled element x)).

(** [selectedTemplate] as a condition: neither [null] nor empty. *)
Definition selected (selectedTemplate : option string) : bool :=
  match selectedTemplate with
  | Some t => nonEmptyStr t
  | None => false
  end.

Definition reportFailure (error : value) : M unit :=
  bind (console_error "Error generating PDF:" error) (fun _ => toast failed).

(** [handleDownloadPDF] of [src/pages/CVBuilder.tsx]: no wait before
    the capture. *)
Definition handleDownloadPDF_direct
    (exportRef : option Element) (selectedTemplate : option string) : M unit :=
  match exportRef with
  | Some element =>
      if selected selectedTemplate then
        tryCatch
          (bind (toast generating) (fun _ =>
           bind (call (html2pdf_save (opt None) element)) (fun _ =>
           toast downloaded)))
          reportFailure
      else ret tt
  | None => ret tt
  end.

(** [handleDownloadPDF] of the later revisions: fonts and images are
    awaited first; [pagebreakMode] is [Some ["css"; "legacy"]] in the
    revision that passes [pagebreak].
    [if ("fonts" in document) { try { await document.fonts.ready; } catch {} }] *)
Definition handleDownloadPDF (pagebreakMode : option (list string))
    (exportRef : option Element) (selectedTemplate : option string) : M unit :=
  match exportRef with
  | Some element =>
      if selected selectedTemplate then
        tryCatch
          (bind (toast generating) (fun _ =>
           bind (if fontsInDocument
                 then tryCatch (call fonts_ready) (fun _ => ret tt)
                 else ret tt) (fun _ =>
           bind (awaitImages element) (fun _ =>
           bind (call (html2pdf_save (opt pagebreakMode) element)) (fun _ =>
           toast downloaded)))))
          reportFailure
      else ret tt
  | None => ret tt
  end.
End Pipeline.

Arguments toasts {Outside} w.
Arguments errors {Outside} w.
Arguments outside {Outside} w.
End CVBuilder.

(* ===================================================================== *)
(** ** [CVEditor]: the edit operations *)
(* ===================================================================== *)

Module CVEditor.
Import JS.

(** *** Strings *)

(** [s.startsWith(p)] *)
Definition startsWith (p s : string) : bool := String.prefix p s.

Fixpoint drop (n : nat) (s : string) : string :=
  match n, s with
  | O, _ => s
  | S n', String _ r => drop n' r
  | S _, EmptyString => ""
  end.

(** [s.replace(pat, rep)] with a string pattern: the first occurrence
    only. *)
Fixpoint replace (pat rep s : string) : string :=
  if String.prefix pat s then (rep ++ drop (String.length pat) s)%string
  else match s with
       | EmptyString => ""
       | String c r => String c (replace pat rep r)
       end.

(** [s.split(sep)] for a one-character separator: the pieces between the
    separators, at least one. *)
Fixpoint split (sep : ascii) (s : string) : list string :=
  match s with
  | EmptyString => [""]
  | String c r =>
      if Ascii.eqb c sep then "" :: split sep r
      else match split sep r with
           | h :: t => String c h :: t
           | [] => [String c ""]
           end
  end.

(** [l.join(sep)] *)
Definition join (sep : string) (l : list string) : string := String.concat sep l.

Definition newline : ascii := "010"%char.
Definition dot : ascii := "."%char.

(** *** Object spread with one property replaced *)

(** [{ ...data, personalInfo: v }] and its like, for each property of
    [CVData]. *)
Definition withPersonalInfo (v : PersonalInfo) (data : CVData) : CVData :=
  {| personalInfo := v; summary := summary data;
     workExperience := workExperience data; education := education data;
     skills := skills data; languages := languages data;
     certifications := certifications data; references := references data |}.

Definition withSummary (v : string) (data : CVData) : CVData :=
  {| personalInfo := personalInfo data; summary := v;
     workExperience := workExperience data; education := education data;
     skills := skills data; languages := languages data;
     certifications := certifications data; references := references data |}.

Definition withWorkExperience (v : list WorkExperience) (data : CVData) : CVData :=
  {| personalInfo := personalInfo data; summary := summary data;
     workExperience := v; education := education data;
     skills := skills data; languages := languages data;
     certifications := certifications data; references := references data |}.

Definition withEducation (v : list Education) (data : CVData) : CVData :=
  {| personalInfo := personalInfo data; summary := summary data;
     workExperience := workExperience data; education := v;
     skills := skills data; languages := languages data;
     certifications := certifications data; references := references data |}.

Definition withSkills (v : list Skill) (data : CVData) : CVData :=
  {| personalInfo := personalInfo data; summary := summary data;
     workExperience := workExperience data; education := education data;
     skills := v; languages := languages data;
     certifications := certifications data; references := references data |}.

Definition withLanguages (v : list Language) (data : CVData) : CVData :=
  {| personalInfo := personalInfo data; summary := summary data;
     workExperience := workExperience data; education := education data;
     skills := skills data; languages := v;
     certifications := certifications data; references := references data |}.

Definition withCertifications (v : list Certification) (data : CVData) : CVData :=
  {| personalInfo := personalInfo data; summary := summary data;
     workExperience := workExperience data; education := education data;
     skills := skills data; languages := languages data;
     certifications := v; references := references data |}.

Definition withReferences (v : list Reference) (data : CVData) : CVData :=
  {| personalInfo := personalInfo data; summary := summary data;
     workExperience := workExperience data; education := education data;
     skills := skills data; languages := languages data;
     certifications := certifications data; references := v |}.

(** [{ ...x, [field]: value }]: the property named by [field] takes
    [value], the others keep theirs. A name that is no property of the
    type adds a property that no code reads; the record has no place for
    it. *)
Definition put (field value name old : string) : string :=
  if field =? name then value else old.

Definition setPersonalField (field value : string) (x : PersonalInfo) : PersonalInfo :=
  {| fullName := put field value "fullName" (fullName x);
     pi_jobTitle := put field value "jobTitle" (pi_jobTitle x);
     email := put field value "email" (email x);
     phone := put field value "phone" (phone x);
     address := put field value "address" (address x);
     website := put field value "website" (website x);
     photoUrl := put field value "photoUrl" (photoUrl x) |}.

Definition setEducationField (field value : string) (x : Education) : Education :=
  {| ed_id := put field value "id" (ed_id x);
     degree := put field value "degree" (degree x);
     fieldOfStudy := put field value "fieldOfStudy" (fieldOfStudy x);
     institution := put field value "institution" (institution x);
     ed_startDate := put field value "startDate" (ed_startDate x);
     ed_endDate := put field value "endDate" (ed_endDate x);
     grade := if field =? "grade" then Some value else grade x |}.

Definition setSkillField (field value : string) (x : Skill) : Skill :=
  {| sk_id := put field value "id" (sk_id x);
     sk_name := put field value "name" (sk_name x);
     level := put field value "level" (level x) |}.

Definition setLanguageField (field value : string) (x : Language) : Language :=
  {| la_id := put field value "id" (la_id x);
     la_name := put field value "name" (la_name x);
     proficiency := put field value "proficiency" (proficiency x) |}.

Definition setCertificationField (field value : string) (x : Certification) : Certification :=
  {| ce_id := put field value "id" (ce_id x);
     ce_name := put field value "name" (ce_name x);
     issuer := put field value "issuer" (issuer x);
     ce_date := put field value "date" (ce_date x);
     expiryDate := if field =? "expiryDate" then Some value else expiryDate x |}.

Definition setReferenceField (field value : string) (x : Reference) : Reference :=
  {| re_id := put field value "id" (re_id x);
     re_name := put field value "name" (re_name x);
     re_email := put field value "email" (re_email x);
     re_phone := put field value "phone" (re_phone x);
     organization := put field value "organization" (organization x) |}.

(** *** Personal information and summary *)

Definition updatePersonalInfo (field value : string) (data : CVData) : CVData :=
  withPersonalInfo (setPersonalField field value (personalInfo data)) data.

Definition updateSummary (value : string) (data : CVData) : CVData :=
  withSummary value data.

(** *** Entries *)

(** [Date.now().toString()], from the clock reading [now]. *)
Definition freshId (now : Z) : string := showZ now.

(** [updateWorkExperience] takes [value: any]: the callers pass a string,
    the state of the check box or the lines of the text area. *)
Inductive FieldValue : Type :=
| FString (s : string)
| FBool (b : bool)
| FStrings (l : list string).

(** [{ ...exp, [field]: value }]. The property [current] takes the state
    of the check box and, on a first focus under a key that names it, the
    empty string. [None] when the record has no place for [value]: a list
    for [current], anything but a string for the five string properties,
    anything but a list for [responsibilities]; the component makes no
    such call. *)
Definition setWorkField (field : string) (value : FieldValue) (x : WorkExperience)
  : option WorkExperience :=
  if field =? "current" then
    match value with
    | FBool b =>
        Some {| we_id := we_id x; we_jobTitle := we_jobTitle x; company := company x;
                we_startDate := we_startDate x; we_endDate := we_endDate x;
                current := VBool b; responsibilities := responsibilities x |}
    | FString s =>
        Some {| we_id := we_id x; we_jobTitle := we_jobTitle x; company := company x;
                we_startDate := we_startDate x; we_endDate := we_endDate x;
                current := VStr s; responsibilities := responsibilities x |}
    | FStrings _ => None
    end
  else if field =? "responsibilities" then
    match value with
    | FStrings l =>
        Some {| we_id := we_id x; we_jobTitle := we_jobTitle x; company := company x;
                we_startDate := we_startDate x; we_endDate := we_endDate x;
                current := current x; responsibilities := l |}
    | _ => None
    end
  else if existsb (String.eqb field) ["id"; "jobTitle"; "company"; "startDate"; "endDate"] then
    match value with
    | FString s =>
        Some {| we_id := put field s "id" (we_id x);
                we_jobTitle := put field s "jobTitle" (we_jobTitle x);
                company := put field s "company" (company x);
                we_startDate := put field s "startDate" (we_startDate x);
                we_endDate := put field s "endDate" (we_endDate x);
                current := current x; responsibilities := responsibilities x |}
    | _ => None
    end
  else Some x.

(** [xs.map(f)] for an [f] that can leave the data model. *)
Fixpoint mapM {A B : Type} (f : A -> option B) (xs : list A) : option (list B) :=
  match xs with
  | [] => Some []
  | x :: rest =>
      match f x, mapM f rest with
      | Some y, Some ys => Some (y :: ys)
      | _, _ => None
      end
  end.

Definition addWorkExperience (now : Z) (data : CVData) : CVData :=
  let newExp :=
    {| we_id := freshId now; we_jobTitle := ""; company := ""; we_startDate := "";
       we_endDate := ""; current := VBool false; responsibilities := [""] |} in
  withWorkExperience (workExperience data ++ [newExp]) data.

Definition updateWorkExperience (id field : string) (value : FieldValue) (data : CVData)
  : option CVData :=
  option_map (fun l => withWorkExperience l data)
    (mapM (fun exp => if we_id exp =? id then setWorkField field value exp else Some exp)
          (workExperience data)).

Definition deleteWorkExperience (id : string) (data : CVData) : CVData :=
  withWorkExperience (filter (fun exp => negb (we_id exp =? id)) (workExperience data)) data.

Definition addEducation (now : Z) (data : CVData) : CVData :=
  let newEdu :=
    {| ed_id := freshId now; degree := ""; fieldOfStudy := ""; institution := "";
       ed_startDate := ""; ed_endDate := ""; grade := None |} in
  withEducation (education data ++ [newEdu]) data.

Definition updateEducation (id field value : string) (data : CVData) : CVData :=
  withEducation
    (map (fun edu => if ed_id edu =? id then setEducationField field value edu else edu)
         (education data)) data.

Definition deleteEducation (id : string) (data : CVData) : CVData :=
  withEducation (filter (fun edu => negb (ed_id edu =? id)) (education data)) data.

Definition addSkill (now : Z) (data : CVData) : CVData :=
  let newSkill := {| sk_id := freshId now; sk_name := ""; level := "Intermediate" |} in
  withSkills (skills data ++ [newSkill]) data.

Definition updateSkill (id field value : string) (data : CVData) : CVData :=
  withSkills
    (map (fun skill => if sk_id skill =? id then setSkillField field value skill else skill)
         (skills data)) data.

Definition deleteSkill (id : string) (data : CVData) : CVData :=
  withSkills (filter (fun skill => negb (sk_id skill =? id)) (skills data)) data.

Definition addLanguage (now : Z) (data : CVData) : CVData :=
  let newLanguage :=
    {| la_id := freshId now; la_name := ""; proficiency := "Conversational" |} in
  withLanguages (languages data ++ [newLanguage]) data.

Definition updateLanguage (id field value : string) (data : CVData) : CVData :=
  withLanguages
    (map (fun lang => if la_id lang =? id then setLanguageField field value lang else lang)
         (languages data)) data.

Definition deleteLanguage (id : string) (data : CVData) : CVData :=
  withLanguages (filter (fun lang => negb (la_id lang =? id)) (languages data)) data.

Definition addCertification (now : Z) (data : CVData) : CVData :=
  let newCertification :=
    {| ce_id := freshId now; ce_name := ""; issuer := ""; ce_date := "";
       expiryDate := Some "" |} in
  withCertifications (certifications data ++ [newCertification]) data.

Definition updateCertification (id field value : string) (data : CVData) : CVData :=
  withCertifications
    (map (fun cert => if ce_id cert =? id then setCertificationField field value cert else cert)
         (certifications data)) data.

Definition deleteCertification (id : string) (data : CVData) : CVData :=
  withCertifications (filter (fun cert => negb (ce_id cert =? id)) (certifications data)) data.

Definition addReference (now : Z) (data : CVData) : CVData :=
  let newReference :=
    {| re_id := freshId now; re_name := ""; re_email := ""; re_phone := "";
       organization := "" |} in
  withReferences (references data ++ [newReference]) data.

Definition updateReference (id field value : string) (data : CVData) : CVData :=
  let updatedReferences :=
    map (fun ref => if re_id ref =? id then setReferenceField field value ref else ref)
        (references data) in
  withReferences updatedReferences data.

Definition deleteReference (id : string) (data : CVData) : CVData :=
  let updatedReferences := filter (fun ref => negb (re_id ref =? id)) (references data) in
  withReferences updatedReferences data.

(** *** First focus *)

(** [editedFields: Record<string, boolean>], kept by the parent together
    with the data; [onChange] and [onFieldEdit] replace the two. *)
Definition EditedFields : Type := list (string * bool).

Record Store : Type := {
  cvData : CVData;
  editedFields : EditedFields
}.

(** [editedFields[key]], read as a condition: an own property, or one the
    plain object inherits. *)
Definition edited (fields : EditedFields) (key : string) : bool :=
  truthy (get (map (fun kv => (fst kv, VBool (snd kv))) fields) key).

(** [{ ...editedFields, [key]: true }] *)
Fixpoint mark (key : string) (fields : EditedFields) : EditedFields :=
  match fields with
  | [] => [(key, true)]
  | (k, b) :: rest =>
      if k =? key then (k, true) :: rest else (k, b) :: mark key rest
  end.

(** The property key an [undefined] computed name becomes. *)
Definition propertyKey (field : option string) : string :=
  match field with
  | Some f => f
  | None => "undefined"
  end.

(** [const [, id, field] = fieldKey.split("."); update(id, field, "")]:
    an [id] that is [undefined] equals the id of no entry. *)
Definition clearEntry (update : string -> string -> string -> CVData -> CVData)
    (fieldKey : string) (data : CVData) : CVData :=
  let parts := split dot fieldKey in
  match nth_error parts 1 with
  | Some id => update id (propertyKey (nth_error parts 2)) "" data
  | None => data
  end.

Definition clearWorkEntry (fieldKey : string) (data : CVData) : option CVData :=
  let parts := split dot fieldKey in
  let field := nth_error parts 2 in
  match nth_error parts 1 with
  | Some id =>
      if match field with Some f => f =? "responsibilities" | None => false end
      then updateWorkExperience id "responsibilities" (FStrings [""]) data
      else updateWorkExperience id (propertyKey field) (FString "") data
  | None => Some data
  end.

Definition handleFieldFocus (fieldKey : string) (st : Store) : option Store :=
  if edited (editedFields st) fieldKey then Some st
  else
    let data := cvData st in
    let changed :=
      if startsWith "personalInfo." fieldKey then
        let field := replace "personalInfo." "" fieldKey in
        Some (updatePersonalInfo field "" data)
      else if fieldKey =? "summary" then Some (updateSummary "" data)
      else if startsWith "workExperience." fieldKey then clearWorkEntry fieldKey data
      else if startsWith "education." fieldKey then
        Some (clearEntry updateEducation fieldKey data)
      else if startsWith "skills." fieldKey then
        Some (clearEntry updateSkill fieldKey data)
      else if startsWith "languages." fieldKey then
        Some (clearEntry updateLanguage fieldKey data)
      else if startsWith "certifications." fieldKey then
        Some (clearEntry updateCertification fieldKey data)
      else if startsWith "references." fieldKey then
        Some (clearEntry updateReference fieldKey data)
      else Some data in
    option_map
      (fun d => {| cvData := d; editedFields := mark fieldKey (editedFields st) |})
      changed.

(** The [value] of each [SelectItem] of the level of a skill. *)
Definition levelOptions : list string :=
  ["Beginner"; "Intermediate"; "Advanced"; "Expert"].

(** *** What the inputs show *)

(** [value={editedFields[key] ? v : ""}] *)
Definition shown (fields : EditedFields) (key v : string) : string :=
  if edited fields key then v else "".

(** The text area of the responsibilities:
    [exp.responsibilities.join('\n')], and on a change
    [e.target.value.split('\n')]. *)
Definition responsibilitiesText (exp : WorkExperience) : string :=
  join (String newline "") (responsibilities exp).

Definition responsibilitiesOf (typed : string) : FieldValue :=
  FStrings (split newline typed).
(** *** The inputs that are cleared on their first focus *)

(** The key of an input, from its parts: the template literal
    [`workExperience.${exp.id}.jobTitle`] joins them with dots. *)
Definition keyOf (parts : list string) : string := join "." parts.

(** One input with an [onFocus] handler:
    [value={editedFields[key] ? stored : ""}],
    [onChange={(e) => update(..., e.target.value)}] with the changed data
    handed to the parent, and [onFocus={() => handleFieldFocus(key)}]. *)
Record Input : Type := {
  keyParts : list string;
  stored : string;
  onChange : string -> option CVData
}.

Definition shownValue (fields : EditedFields) (i : Input) : string :=
  shown fields (keyOf (keyParts i)) (stored i).

Definition onFocus (i : Input) (st : Store) : option Store :=
  handleFieldFocus (keyOf (keyParts i)) st.

Definition personalInputs (data : CVData) : list Input :=
  let info := personalInfo data in
  let field (name v : string) :=
    {| keyParts := ["personalInfo"; name]; stored := v;
       onChange := fun typed => Some (updatePersonalInfo name typed data) |} in
  [ field "fullName" (fullName info); field "jobTitle" (pi_jobTitle info);
    field "email" (email info); field "phone" (phone info);
    field "address" (address info); field "website" (website info) ].

Definition summaryInput (data : CVData) : Input :=
  {| keyParts := ["summary"]; stored := summary data;
     onChange := fun typed => Some (updateSummary typed data) |}.

Definition workInputs (data : CVData) (exp : WorkExperience) : list Input :=
  let field (name v : string) :=
    {| keyParts := ["workExperience"; we_id exp; name]; stored := v;
       onChange := fun typed =>
                     updateWorkExperience (we_id exp) name (FString typed) data |} in
  [ field "jobTitle" (we_jobTitle exp); field "company" (company exp);
    {| keyParts := ["workExperience"; we_id exp; "responsibilities"];
       stored := responsibilitiesText exp;
       onChange := fun typed =>
                     updateWorkExperience (we_id exp) "responsibilities"
                       (responsibilitiesOf typed) data |} ].

(** [edu.grade || ""] *)
Definition gradeText (edu : Education) : string :=
  match grade edu with
  | Some g => g
  | None => ""
  end.

Definition educationInputs (data : CVData) (edu : Education) : list Input :=
  let field (name v : string) :=
    {| keyParts := ["education"; ed_id edu; name]; stored := v;
       onChange := fun typed => Some (updateEducation (ed_id edu) name typed data) |} in
  [ field "degree" (degree edu); field "fieldOfStudy" (fieldOfStudy edu);
    field "institution" (institution edu); field "grade" (gradeText edu) ].

Definition skillInputs (data : CVData) (skill : Skill) : list Input :=
  [ {| keyParts := ["skills"; sk_id skill; "name"]; stored := sk_name skill;
       onChange := fun typed => Some (updateSkill (sk_id skill) "name" typed data) |} ].

Definition languageInputs (data : CVData) (language : Language) : list Input :=
  [ {| keyParts := ["languages"; la_id language; "name"]; stored := la_name language;
       onChange := fun typed =>
                     Some (updateLanguage (la_id language) "name" typed data) |} ].

Definition certificationInputs (data : CVData) (cert : Certification) : list Input :=
  let field (name v : string) :=
    {| keyParts := ["certifications"; ce_id cert; name]; stored := v;
       onChange := fun typed =>
                     Some (updateCertification (ce_id cert) name typed data) |} in
  [ field "name" (ce_name cert); field "issuer" (issuer cert) ].

Definition referenceInputs (data : CVData) (reference : Reference) : list Input :=
  let field (name v : string) :=
    {| keyParts := ["references"; re_id reference; name]; stored := v;
       onChange := fun typed =>
                     Some (updateReference (re_id reference) name typed data) |} in
  [ field "name" (re_name reference); field "organization" (organization reference);
    field "email" (re_email reference); field "phone" (re_phone reference) ].

(** The inputs of all the tabs of the editor, in the order of the JSX. *)
Definition inputs (data : CVData) : list Input :=
  personalInputs data
  ++ [summaryInput data]
  ++ flat_map (workInputs data) (workExperience data)
  ++ flat_map (educationInputs data) (education data)
  ++ flat_map (skillInputs data) (skills data)
  ++ flat_map (languageInputs data) (languages data)
  ++ flat_map (certificationInputs data) (certifications data)
  ++ flat_map (referenceInputs data) (references data).
End CVEditor.

(* ===================================================================== *)
(** ** [CVBuilder]: template chooser and the three places of the preview *)
(* ===================================================================== *)

Module CVBuilderPage.
Import JS.

(** The templates, with the properties the preview reads. *)
Definition templates : list CVTemplate :=
  [ {| id := "professional"; hasPhoto := true; columns := 2; color := "blue" |};
    {| id := "creative"; hasPhoto := true; columns := 1; color := "purple" |};
    {| id := "executive"; hasPhoto := true; columns := 2; color := "green" |};
    {| id := "minimal"; hasPhoto := false; columns := 1; color := "gray" |} ].

(** The [value] of each entry of [colorOptions]. *)
Definition colorOptions : list string :=
  ["slate"; "rose"; "emerald"; "amber"; "blue"; "orange"].

(** [templates.find(t => t.id === templateId)] *)
Definition findTemplate (templateId : string) : option CVTemplate :=
  find (fun t => id t =? templateId) templates.

(** [{ ...template, color: c }] *)
Definition withColor (c : string) (template : CVTemplate) : CVTemplate :=
  {| id := id template; hasPhoto := hasPhoto template;
     columns := columns template; color := c |}.

(** *** Sample data of the thumbnails *)

Section SampleData.
Variables professionalSampleData creativeSampleData : CVData.
Variables executiveSampleData minimalSampleData : CVData.

Definition sampleDataMap : list (string * CVData) :=
  [ ("professional", professionalSampleData);
    ("creative", creativeSampleData);
    ("executive", executiveSampleData);
    ("minimal", minimalSampleData) ].

(** [return sampleDataMap[templateId] || professionalSampleData;]
    An own property is a data object, which is truthy; a name the object
    literal inherits yields a value that is no [CVData]. *)
Definition getSampleDataForTemplate (templateId : string) : CVData + value :=
  match assoc templateId sampleDataMap with
  | Some sample => inl sample
  | None =>
      let found := get [] templateId in
      if truthy found then inr found else inl professionalSampleData
  end.
End SampleData.

(** *** Choosing a template *)

Section Chooser.
Variable placeholderData : CVData.

Record Session : Type := {
  selectedTemplate : option string;
  cvData : CVData;
  editedFields : CVEditor.EditedFields;
  templateColor : value;
  thumbColors : list (string * string)
}.

(** [thumbColors[k]] *)
Definition thumbColor (colors : list (string * string)) (k : string) : value :=
  get (map (fun kv => (fst kv, VStr (snd kv))) colors) k.

(** [const chosenColor = thumbColors[template.id] ?? template.color;] *)
Definition chosenColor (colors : list (string * string)) (template : CVTemplate) : value :=
  nullish (thumbColor colors (id template)) (VStr (color template)).

(** [setThumbColors(prev => ({ ...prev, [template.id]: opt.value }))] *)
Fixpoint setThumbColor (k c : string) (colors : list (string * string))
  : list (string * string) :=
  match colors with
  | [] => [(k, c)]
  | (k', c') :: rest =>
      if k' =? k then (k', c) :: rest else (k', c') :: setThumbColor k c rest
  end.

(** [handleTemplateSelect(templateId, chosenColor?)]; [chosen] is
    [VUndefined] when the argument is left out. *)
Definition handleTemplateSelect (templateId : string) (chosen : value) (s : Session)
  : Session :=
  let default :=
    match findTemplate templateId with
    | Some t => VStr (color t)
    | None => VUndefined
    end in
  {| selectedTemplate := Some templateId;
     cvData := placeholderData;
     editedFields := [];
     templateColor :=
       or (or chosen (thumbColor (thumbColors s) templateId))
          (nullish default (VStr "blue"));
     thumbColors := thumbColors s |}.
End Chooser.

(** *** The preview on the page *)

(** The full-width preview, the scaled preview beside the editor, and the
    hidden node the export reads. *)
Definition fullWidthPreview (cvData : CVData) (currentTemplate : CVTemplate)
    (templateColor : string) : Current.Props :=
  {| Current.data := cvData;
     Current.template := withColor templateColor currentTemplate;
     Current.isPreview := false; Current.isPDF := true;
     Current.isFullPagePDF := false; Current.unbounded := true |}.

Definition livePreview (cvData : CVData) (currentTemplate : CVTemplate)
    (templateColor : string) : Current.Props :=
  {| Current.data := cvData;
     Current.template := withColor templateColor currentTemplate;
     Current.isPreview := true; Current.isPDF := false;
     Current.isFullPagePDF := false; Current.unbounded := true |}.

Definition exportNode (cvData : CVData) (currentTemplate : CVTemplate)
    (templateColor : string) : Current.Props :=
  {| Current.data := cvData;
     Current.template := withColor templateColor currentTemplate;
     Current.isPreview := false; Current.isPDF := true;
     Current.isFullPagePDF := false; Current.unbounded := true |}.
End CVBuilderPage.

(* ===================================================================== *)
(** ** Notions used in the statements *)
(* ===================================================================== *)

(** Induction on trees, with the hypothesis on every child. *)
Section VNodeInd.
Variable P : VNode -> Prop.
Hypothesis HText : forall s, P (Text s).
Hypothesis HElem : forall t a cs, Forall P cs -> P (Elem t a cs).

Fixpoint VNode_induction (n : VNode) : P n :=
  match n with
  | Text s => HText s
  | Elem t a cs =>
      HElem t a cs
        ((fix all (l : list VNode) : Forall P l :=
            match l with
            | [] => Forall_nil P
            | c :: rest => Forall_cons c (VNode_induction c) (all rest)
            end) cs)
  end.
End VNodeInd.

(** The tags of the titles, and those no list entry but a dated one
    holds. *)
Definition titleTag (t : tag) : bool :=
  match t with h1 | h3 => true | _ => false end.

Definition quietTag (t : tag) : bool :=
  match t with h1 | h3 | Calendar => true | _ => false end.

(** A title, when its section is rendered. *)
Definition titled (c : bool) (title : string) : list string :=
  if c then [title] else [].

(** The section titles the two layouts show for data [d], in document
    order. *)
Definition sectionsTwoColumn (d : CVData) : list string :=
  "Contact"
  :: titled (nonEmpty (skills d)) "Skills"
  ++ titled (nonEmpty (languages d)) "Languages"
  ++ titled (nonEmpty (certifications d)) "Certifications"
  ++ titled (nonEmpty (references d)) "References"
  ++ titled (nonEmptyStr (summary d)) "Professional Summary"
  ++ titled (nonEmpty (workExperience d)) "Work Experience"
  ++ titled (nonEmpty (education d)) "Education".

Definition sectionsSingleColumn (d : CVData) : list string :=
  titled (nonEmptyStr (summary d)) "Professional Summary"
  ++ titled (nonEmpty (workExperience d)) "Work Experience"
  ++ titled (nonEmpty (education d)) "Education"
  ++ titled (nonEmpty (skills d)) "Skills"
  ++ titled (nonEmpty (languages d)) "Languages"
  ++ titled (nonEmpty (certifications d)) "Certifications"
  ++ titled (nonEmpty (references d)) "References".

(** Each of the seven sections behind a data test is in tree [t] exactly
    when its data is not empty. *)
Definition sectionsFollowData (d : CVData) (t : VNode) : Prop :=
  hasSection "Professional Summary" t = nonEmptyStr (summary d)
  /\ hasSection "Work Experience" t = nonEmpty (workExperience d)
  /\ hasSection "Education" t = nonEmpty (education d)
  /\ hasSection "Skills" t = nonEmpty (skills d)
  /\ hasSection "Languages" t = nonEmpty (languages d)
  /\ hasSection "Certifications" t = nonEmpty (certifications d)
  /\ hasSection "References" t = nonEmpty (references d).

(** What the header is to show for the name and the job title. *)
Definition shownName (info : PersonalInfo) : string :=
  if fullName info =? "" then "Your Name" else fullName info.

Definition shownTitle (info : PersonalInfo) : string :=
  if pi_jobTitle info =? "" then "Your Job Title" else pi_jobTitle info.

(** The header of tree [t] shows [name] in its only [h1] and [title] in
    the paragraph next to it. *)
Definition headerShows (name title : string) (t : VNode) : Prop :=
  textsOf h1 t = [name] /\ following h1 p t = [[Text title]].

(** [exp] with another stored end date. *)
Definition withEndDate (x : string) (exp : WorkExperience) : WorkExperience :=
  {| we_id := we_id exp; we_jobTitle := we_jobTitle exp; company := company exp;
     we_startDate := we_startDate exp; we_endDate := x; current := current exp;
     responsibilities := responsibilities exp |}.

(** The data with the stored end date of every current job replaced by
    what [f] gives. *)
Definition rewriteCurrentEndDates (f : WorkExperience -> string) (d : CVData) : CVData :=
  {| personalInfo := personalInfo d; summary := summary d;
     workExperience :=
       map (fun exp => if JS.truthy (current exp) then withEndDate (f exp) exp else exp)
           (workExperience d);
     education := education d; skills := skills d; languages := languages d;
     certifications := certifications d; references := references d |}.

Definition withDataLegacy (d : CVData) (props : Legacy.Props) : Legacy.Props :=
  {| Legacy.data := d; Legacy.template := Legacy.template props;
     Legacy.isPreview := Legacy.isPreview props; Legacy.isPDF := Legacy.isPDF props |}.

Definition withDataCurrent (d : CVData) (props : Current.Props) : Current.Props :=
  {| Current.data := d; Current.template := Current.template props;
     Current.isPreview := Current.isPreview props; Current.isPDF := Current.isPDF props;
     Current.isFullPagePDF := Current.isFullPagePDF props;
     Current.unbounded := Current.unbounded props |}.

(** The names of the five counted sections, in order. *)
Definition sectionNames : list string :=
  ["Personal Information"; "Summary"; "Work Experience"; "Education"; "Skills"].

(** The number of sections whose flag holds. *)
Definition completed (r : CVProgress.Completeness) : Z :=
  Z.of_nat (List.length (filter (fun s => JS.truthy (CVProgress.complete s))
                                (CVProgress.sections r))).

(** [d'] differs from [d] at most in its references, languages and
    certifications. *)
Definition sameCountedFields (d d' : CVData) : Prop :=
  personalInfo d' = personalInfo d /\ summary d' = summary d
  /\ workExperience d' = workExperience d /\ education d' = education d
  /\ skills d' = skills d.

Section ExportOutcome.
Import CVBuilder.
Variables (Outside Element : Type).
Variable fontsInDocument : bool.
Variable fonts_ready : Collaborator Outside.
Variable imagesSettled : Element -> Outside -> Outside.

(** The outside at the moment the capture starts: after the wait for the
    fonts, however it ended, and the wait for the images. *)
Definition atCapture (element : Element) (x : Outside) : Outside :=
  imagesSettled element (if fontsInDocument then snd (fonts_ready x) else x).

(** The world an export that reached the capture ends in. *)
Definition settled (w : World Outside) (capture : Outcome unit * Outside)
  : World Outside :=
  match capture with
  | (Returned _, x) =>
      {| toasts := toasts w ++ [generating; downloaded];
         errors := errors w; outside := x |}
  | (Thrown err, x) =>
      {| toasts := toasts w ++ [generating; failed];
         errors := errors w ++ [("Error generating PDF:", err)]; outside := x |}
  end.
End ExportOutcome.

(** [c] occurs in [s]. *)
Fixpoint mentions (c : ascii) (s : string) : bool :=
  match s with
  | EmptyString => false
  | String a r => Ascii.eqb a c || mentions c r
  end.

(** The key of an input of an entry:
    [`${collection}.${id}.${field}`]. *)
Definition entryKey (collection id field : string) : string :=
  Preview.tpl [collection; "."; id; "."; field].

(** The [src] of the images of a tree, in document order. *)
Definition srcOf (attrs : list attr) : list string :=
  flat_map (fun a => match a with src u => [u] | _ => [] end) attrs.

Fixpoint images (n : VNode) : list string :=
  match n with
  | Text _ => []
  | Elem t attrs cs =>
      (if tag_eqb img t then srcOf attrs else []) ++ flat_map images cs
  end.

(** The children of the root of a tree. *)
Definition childrenOf (n : VNode) : list VNode :=
  match n with
  | Text _ => []
  | Elem _ _ cs => cs
  end.

(** Some entry of [l] carries the id. *)
Definition carries {A : Type} (idOf : A -> string) (id : string) (l : list A) : bool :=
  existsb (fun e => idOf e =? id) l.

(** From [before] to [after] the ids and their order are kept, and so is
    every entry that does not carry the id. *)
Definition onlyTouches {A : Type} (idOf : A -> string) (id : string)
    (before after : list A) : Prop :=
  map idOf after = map idOf before
  /\ forall i e, nth_error before i = Some e -> idOf e <> id -> nth_error after i = Some e.

(** [t] is none of [tags]. *)
Definition outside (tags : list tag) (t : tag) : bool :=
  negb (existsb (tag_eqb t) tags).

(** The texts of each row that starts with the icon [ic]. *)
Definition shownAfter (ic : tag) (n : VNode) : list (list string) :=
  map (flat_map allTexts) (rowsAfter ic n).

(** The strings of [l] that are rendered: the non-empty ones. *)
Definition rendered (l : list string) : list string := filter nonEmptyStr l.

(** A contact line: the value, when there is one. *)
Definition line (v : string) : list (list string) :=
  if nonEmptyStr v then [[v]] else [].

(** The contact lines a tree shows for the personal information [info]:
    one row for each of e-mail, phone and address that is not empty, and
    one for the website when [withWebsite] holds. *)
Definition contactShown (withWebsite : bool) (info : PersonalInfo) (n : VNode) : Prop :=
  shownAfter Mail n = line (email info)
  /\ shownAfter Phone n = line (phone info)
  /\ shownAfter MapPin n = line (address info)
  /\ shownAfter Globe n = if withWebsite then line (website info) else [].

(** Some entry of [l] carries another id than [id]. *)
Definition remains {A : Type} (idOf : A -> string) (id : string) (l : list A) : bool :=
  existsb (fun e => negb (idOf e =? id)) l.

(** The sections of the preview after the Add and the Delete button of
    the editor, [shows d'] being the tree for the data [d']: the section
    of a collection is there after an entry was added to it, and after a
    deletion exactly when an entry with another id remains. *)
Definition sectionsFollowEditor (now : Z) (id : string) (d : CVData)
    (shows : CVData -> VNode) : Prop :=
  (hasSection "Work Experience" (shows (CVEditor.addWorkExperience now d)) = true
   /\ hasSection "Education" (shows (CVEditor.addEducation now d)) = true
   /\ hasSection "Skills" (shows (CVEditor.addSkill now d)) = true
   /\ hasSection "Languages" (shows (CVEditor.addLanguage now d)) = true
   /\ hasSection "Certifications" (shows (CVEditor.addCertification now d)) = true
   /\ hasSection "References" (shows (CVEditor.addReference now d)) = true)
  /\ (hasSection "Work Experience" (shows (CVEditor.deleteWorkExperience id d))
      = remains we_id id (workExperience d)
      /\ hasSection "Education" (shows (CVEditor.deleteEducation id d))
         = remains ed_id id (education d)
      /\ hasSection "Skills" (shows (CVEditor.deleteSkill id d))
         = remains sk_id id (skills d)
      /\ hasSection "Languages" (shows (CVEditor.deleteLanguage id d))
         = remains la_id id (languages d)
      /\ hasSection "Certifications" (shows (CVEditor.deleteCertification id d))
         = remains ce_id id (certifications d)
      /\ hasSection "References" (shows (CVEditor.deleteReference id d))
         = remains re_id id (references d)).

(** No id of an entry of [d] holds a dot. *)
Definition dotFreeIds (d : CVData) : bool :=
  forallb (fun s => negb (mentions CVEditor.dot s))
    (map we_id (workExperience d) ++ map ed_id (education d)
     ++ map sk_id (skills d) ++ map la_id (languages d)
     ++ map ce_id (certifications d) ++ map re_id (references d)).

(** What the editor shows in its inputs, in the order of the JSX. *)
Definition display (st : CVEditor.Store) : list string :=
  map (CVEditor.shownValue (CVEditor.editedFields st))
      (CVEditor.inputs (CVEditor.cvData st)).

(** The keys of the inputs of the editor. *)
Definition keys (d : CVData) : list string :=
  map (fun i => CVEditor.keyOf (CVEditor.keyParts i)) (CVEditor.inputs d).

(** A key with its stored text, and the replacement of the text stored
    under a key. *)
Definition view (i : CVEditor.Input) : list string * string :=
  (CVEditor.keyParts i, CVEditor.stored i).

Definition setAt (parts : list string) (v : string) (pv : list string * string)
  : list string * string :=
  if list_eq_dec string_dec (fst pv) parts then (fst pv, v) else pv.

(** The parts of a key: at least one, none with a dot in it. *)
Definition plainParts (p : list string) : Prop :=
  p <> [] /\ Forall (fun s => mentions CVEditor.dot s = false) p.

(** The keys and stored texts of the inputs of the entries [l] of the
    collection [c], [fieldsOf] giving the names and the texts of the
    inputs of one entry. *)
Definition entryViews {A : Type} (c : string) (idOf : A -> string)
    (fieldsOf : A -> list (string * string)) (l : list A) : list (list string * string) :=
  flat_map (fun e => map (fun fv => ([c; idOf e; fst fv], snd fv)) (fieldsOf e)) l.

(** *** The texts of the preview *)

(** The texts of a section with a title: the title and the texts of its
    entries, when there is an entry. *)
Definition sectionTexts {A : Type} (title : string) (texts : A -> list string)
    (l : list A) : list string :=
  if nonEmpty l then title :: flat_map texts l else [].

Definition summaryTexts (d : CVData) : list string :=
  if nonEmptyStr (summary d) then ["Professional Summary"; summary d] else [].

Definition workTexts (e : Platform.Engine) (exp : WorkExperience) : list string :=
  rendered [we_jobTitle exp; company exp;
            Preview.formatDate e (we_startDate exp); " - ";
            if JS.truthy (current exp) then "Present" else Preview.formatDate e (we_endDate exp)]
  ++ filter (fun r => negb (JS.blank r)) (responsibilities exp).

Definition gradeTexts (edu : Education) : list string :=
  match grade edu with
  | Some g => if nonEmptyStr g then ["Grade: "; g] else []
  | None => []
  end.

Definition educationTexts (e : Platform.Engine) (edu : Education) : list string :=
  rendered [degree edu; fieldOfStudy edu; institution edu;
            Preview.formatDate e (ed_startDate edu); " - ";
            Preview.formatDate e (ed_endDate edu)]
  ++ gradeTexts edu.

Definition skillTexts (skill : Skill) : list string :=
  rendered [sk_name skill; level skill].

Definition languageTexts (lang : Language) : list string :=
  rendered [la_name lang; proficiency lang].

Definition certificationTexts (e : Platform.Engine) (cert : Certification) : list string :=
  rendered [ce_name cert; issuer cert; Preview.formatDate e (ce_date cert)].

Definition referenceTexts (r : Reference) : list string :=
  rendered [re_name r; organization r; re_email r; re_phone r].

(** All the texts of the two layouts after the style sheet, in document
    order. *)
Definition textsTwoColumn (e : Platform.Engine) (d : CVData) : list string :=
  let info := personalInfo d in
  "Contact" :: rendered [email info; phone info; address info; website info]
  ++ sectionTexts "Skills" skillTexts (skills d)
  ++ sectionTexts "Languages" languageTexts (languages d)
  ++ sectionTexts "Certifications" (certificationTexts e) (certifications d)
  ++ sectionTexts "References" referenceTexts (references d)
  ++ [shownName info; shownTitle info]
  ++ summaryTexts d
  ++ sectionTexts "Work Experience" (workTexts e) (workExperience d)
  ++ sectionTexts "Education" (educationTexts e) (education d).

Definition textsSingleColumn (e : Platform.Engine) (d : CVData) : list string :=
  let info := personalInfo d in
  [shownName info; shownTitle info]
  ++ rendered [email info; phone info; address info]
  ++ summaryTexts d
  ++ sectionTexts "Work Experience" (workTexts e) (workExperience d)
  ++ sectionTexts "Education" (educationTexts e) (education d)
  ++ sectionTexts "Skills" skillTexts (skills d)
  ++ sectionTexts "Languages" languageTexts (languages d)
  ++ sectionTexts "Certifications" (certificationTexts e) (certifications d)
  ++ sectionTexts "References" referenceTexts (references d).

(** The calendar behind the dates. [daysFromCivil] and
    [yearMonthFromDays] work on eras of 400 years that start on the first
    of March; these are their parts. *)
Section Calendar.
Import Platform.
Local Open Scope Z_scope.



(** The index of a month counted from March. *)
Definition marchMonth (m : Z) : Z := if m <=? 2 then m + 9 else m - 3.

(** The day of the era on which the year [yoe] of the era starts. *)
Definition yearStart (yoe : Z) : Z := yoe * 365 + yoe / 4 - yoe / 100.

(** The day of the era of a date, as [daysFromCivil] computes it. *)
Definition dayOfEra (yoe m d : Z) : Z :=
  yearStart yoe + ((153 * marchMonth m + 2) / 5 + d - 1).





End Calendar.

(** Concrete inputs. *)
Module Samples.
Import Platform CVBuilder.

Definition blankInfo : PersonalInfo :=
  {| fullName := ""; pi_jobTitle := ""; email := ""; phone := ""; address := "";
     website := ""; photoUrl := "" |}.

(** [initialCVData] of [CVBuilder] *)
Definition initialCVData : CVData :=
  {| personalInfo := blankInfo; summary := ""; workExperience := []; education := [];
     skills := []; languages := []; certifications := []; references := [] |}.

(** The first two entries of [templates] in [CVBuilder]. *)
Definition professional : CVTemplate :=
  {| id := "professional"; hasPhoto := true; columns := 2; color := "blue" |}.

Definition creative : CVTemplate :=
  {| id := "creative"; hasPhoto := true; columns := 1; color := "purple" |}.

(** The first template once the user has picked the colour rose. *)
Definition professionalRose : CVTemplate :=
  {| id := "professional"; hasPhoto := true; columns := 2; color := "rose" |}.

Definition legacyProps (d : CVData) (t : CVTemplate) : Legacy.Props :=
  {| Legacy.data := d; Legacy.template := t;
     Legacy.isPreview := false; Legacy.isPDF := false |}.

Definition currentProps (d : CVData) (t : CVTemplate) : Current.Props :=
  {| Current.data := d; Current.template := t;
     Current.isPreview := false; Current.isPDF := false;
     Current.isFullPagePDF := false; Current.unbounded := false |}.

(** A job still held, stored with an end date. *)
Definition presentJob : WorkExperience :=
  {| we_id := "1"; we_jobTitle := "Senior Software Engineer"; company := "TechCorp Inc.";
     we_startDate := "2022-01-01"; we_endDate := "2023-05-01"; current := JS.VBool true;
     responsibilities := ["Lead development"] |}.

(** The scenario of the specification: Jane Doe, one expert skill, no
    certifications and no references. *)
Definition janeDoe : CVData :=
  {| personalInfo :=
       {| fullName := "Jane Doe"; pi_jobTitle := ""; email := ""; phone := "";
          address := ""; website := ""; photoUrl := "" |};
     summary := ""; workExperience := [presentJob]; education := [];
     skills := [ {| sk_id := "s1"; sk_name := "Go"; level := "Expert" |} ];
     languages := []; certifications := []; references := [] |}.

(** No data but a summary of three spaces. *)
Definition blankSummary : CVData :=
  {| personalInfo := blankInfo; summary := "   "; workExperience := []; education := [];
     skills := []; languages := []; certifications := []; references := [] |}.

(** Data whose three required personal fields are filled in. *)
Definition contactFilled : CVData :=
  {| personalInfo :=
       {| fullName := "Jane Doe"; pi_jobTitle := ""; email := "jane@example.com";
          phone := "555"; address := ""; website := ""; photoUrl := "" |};
     summary := ""; workExperience := []; education := []; skills := [];
     languages := []; certifications := []; references := [] |}.

(** The same with a reference added. *)
Definition contactFilledWithReference : CVData :=
  {| personalInfo := personalInfo contactFilled; summary := ""; workExperience := [];
     education := []; skills := []; languages := []; certifications := [];
     references := [ {| re_id := "r1"; re_name := "A"; re_email := "a@b.c";
                        re_phone := "1"; organization := "Org" |} ] |}.

(** A skill whose level is the name of a property every object inherits. *)
Definition oddSkill : Skill :=
  {| sk_id := "s9"; sk_name := "X"; level := "constructor" |}.

(** An outside with nothing to observe, and collaborators on it. *)
Definition world0 : World unit := {| toasts := []; errors := []; outside := tt |}.

Definition succeeds : Collaborator unit := fun x => (Returned tt, x).

Definition throws (msg : string) : Collaborator unit :=
  fun x => (Thrown (JS.VStr msg), x).
End Samples.

(** Concrete inputs of the editor. *)
Module EditorSamples.
Import CVEditor.

(** Jane Doe's data before any input was focused. *)
Definition janeStore : Store :=
  {| cvData := Samples.janeDoe; editedFields := [] |}.

(** The same after the first focus on the name of her skill. *)
Definition janeFocused : Store :=
  {| cvData := updateSkill "s1" "name" "" Samples.janeDoe;
     editedFields := [("skills.s1.name", true)] |}.

(** A job with two responsibilities. *)
Definition twoLines : WorkExperience :=
  {| we_id := "2"; we_jobTitle := "Software Engineer"; company := "StartupXYZ";
     we_startDate := "2019-06-01"; we_endDate := "2021-12-01"; current := JS.VBool false;
     responsibilities := ["Developed web applications"; "Implemented APIs"] |}.

(** The input of the name of Jane Doe's skill, before and after its
    first focus. *)
Definition janeSkillInput : Input :=
  {| keyParts := ["skills"; "s1"; "name"]; stored := "Go";
     onChange := fun typed => Some (updateSkill "s1" "name" typed Samples.janeDoe) |}.

Definition janeSkillInputFocused : Input :=
  {| keyParts := ["skills"; "s1"; "name"]; stored := "";
     onChange := fun typed =>
                   Some (updateSkill "s1" "name" typed (cvData janeFocused)) |}.
End EditorSamples.

(* ===================================================================== *)
(** * Properties *)
(* ===================================================================== *)

(** ** Tags that a subtree does not use *)

Lemma flat_map_nil {A B} (f : A -> list B) l :
  Forall (fun x => f x = []) l -> flat_map f l = [].
Proof. induction 1; simpl; [reflexivity|]. rewrite H, IHForall. reflexivity. Qed.

Lemma Forall_unused (Q : VNode -> Prop) t cs :
  Forall (fun n => uses t n = false -> Q n) cs ->
  existsb (uses t) cs = false -> Forall Q cs.
Proof.
  induction 1 as [| c rest Hc _ IH]; intros H; constructor;
    simpl in H; apply orb_false_iff in H; [apply Hc | apply IH]; tauto.
Qed.

Lemma textsOf_unused t n : uses t n = false -> textsOf t n = [].
Proof.
  induction n as [s | t' a cs IH] using VNode_induction; simpl; [reflexivity|].
  intros H. apply orb_false_iff in H as [-> H]. simpl.
  apply flat_map_nil. exact (Forall_unused _ t cs IH H).
Qed.

Lemma adjacent_unused t0 t cs : existsb (uses t0) cs = false -> adjacent t0 t cs = [].
Proof.
  induction cs as [| c rest IH]; simpl; [reflexivity|].
  intros H. apply orb_false_iff in H as [Hc H]. specialize (IH H).
  destruct c as [s | a at_ acs]; [exact IH|].
  destruct rest as [| [s | b bt bcs] rest']; [reflexivity | exact IH |].
  simpl in Hc. apply orb_false_iff in Hc as [-> _]. simpl. exact IH.
Qed.

Lemma following_unused t0 t n : uses t0 n = false -> following t0 t n = [].
Proof.
  induction n as [s | t' a cs IH] using VNode_induction; simpl; [reflexivity|].
  intros H. apply orb_false_iff in H as [_ H].
  rewrite (adjacent_unused _ _ _ H). simpl.
  apply flat_map_nil. exact (Forall_unused _ t0 cs IH H).
Qed.

Lemma textsOf_list_unused t cs :
  existsb (uses t) cs = false -> flat_map (textsOf t) cs = [].
Proof.
  intros H. apply flat_map_nil.
  apply (Forall_unused _ t cs); [|exact H].
  apply Forall_forall. intros n _. apply textsOf_unused.
Qed.

Lemma following_list_unused t0 t cs :
  existsb (uses t0) cs = false -> flat_map (following t0 t) cs = [].
Proof.
  intros H. apply flat_map_nil.
  apply (Forall_unused _ t0 cs); [|exact H].
  apply Forall_forall. intros n _. apply following_unused.
Qed.

Lemma textsOf_map_unused {A} t (f : A -> VNode) l :
  (forall x, uses t (f x) = false) -> flat_map (textsOf t) (map f l) = [].
Proof.
  intros H. apply flat_map_nil. apply Forall_forall. intros n Hn.
  apply in_map_iff in Hn as [x [<- _]]. apply textsOf_unused, H.
Qed.

Lemma adjacent_skip t0 t a attrs cs rest :
  tag_eqb t0 a = false ->
  adjacent t0 t (Elem a attrs cs :: rest) = adjacent t0 t rest.
Proof.
  intros H. simpl. rewrite H. destruct rest as [| [s | b bt bs] rest']; reflexivity.
Qed.

Lemma following_Elem t0 t a attrs cs :
  following t0 t (Elem a attrs cs) = adjacent t0 t cs ++ flat_map (following t0 t) cs.
Proof. reflexivity. Qed.

Lemma existsb_text t s : existsb (uses t) (text s) = false.
Proof. unfold text. destruct (s =? ""); reflexivity. Qed.

Lemma existsb_when (f : VNode -> bool) c l : existsb f (when c l) = c && existsb f l.
Proof. destruct c; reflexivity. Qed.

Lemma existsb_map_false {A B} (f : B -> bool) (g : A -> B) l :
  (forall x, f (g x) = false) -> existsb f (map g l) = false.
Proof. intros H. induction l; simpl; [reflexivity|]. rewrite H, IHl. reflexivity. Qed.

Lemma existsb_items t i rs :
  tag_eqb t li = false -> existsb (uses t) (Preview.items i rs) = false.
Proof.
  intros Ht. revert i. induction rs as [| r rest IH]; intros i; simpl; [reflexivity|].
  rewrite Ht, existsb_text, IH. reflexivity.
Qed.

Lemma flat_map_when {B} (f : VNode -> list B) c l :
  flat_map f (when c l) = if c then flat_map f l else [].
Proof. destruct c; reflexivity. Qed.

Lemma append_empty_r (s : string) : (s ++ "")%string = s.
Proof. induction s as [| c s IH]; simpl; [reflexivity | now rewrite IH]. Qed.

Lemma ownText_text s : ownText (text s) = s.
Proof.
  unfold text. destruct (s =? "") eqn:E; simpl.
  - apply String.eqb_eq in E. congruence.
  - apply append_empty_r.
Qed.

Create Rewrite HintDb tree.
#[local] Hint Rewrite @existsb_app existsb_text existsb_when andb_false_r orb_false_r : tree.

Ltac tag_cases t H := destruct t; try discriminate H; clear H.

Ltac absent :=
  repeat (simpl; autorewrite with tree);
  rewrite ?existsb_items by reflexivity;
  repeat (simpl; autorewrite with tree);
  try reflexivity.

(** ** What the entries of the lists do not hold *)

Section Entries.
Import Preview.
Variable cl : Closure.
Variable t : tag.

Lemma uses_workEntry sz icon cls exp :
  titleTag t = true -> uses t (workEntry cl sz icon cls exp) = false.
Proof.
  intros Ht. unfold workEntry, accentBar, workDates, responsibilityItems.
  destruct (JS.truthy (current exp)); tag_cases t Ht; absent.
Qed.

Lemma uses_gradeLine edu : quietTag t = true -> existsb (uses t) (gradeLine edu) = false.
Proof. intros Ht. unfold gradeLine. destruct (grade edu); tag_cases t Ht; absent. Qed.

Lemma uses_educationEntryTwoColumn edu :
  titleTag t = true -> uses t (educationEntryTwoColumn cl edu) = false.
Proof.
  intros Ht. unfold educationEntryTwoColumn, accentBar, educationDates.
  assert (Hg : existsb (uses t) (gradeLine edu) = false)
    by (apply uses_gradeLine; now destruct t).
  tag_cases t Ht; absent; rewrite Hg; absent.
Qed.

Lemma uses_educationEntrySingleColumn edu :
  quietTag t = true -> uses t (educationEntrySingleColumn cl edu) = false.
Proof.
  intros Ht. unfold educationEntrySingleColumn, educationDates.
  pose proof (uses_gradeLine edu Ht) as Hg.
  tag_cases t Ht; absent; rewrite Hg; absent.
Qed.

Lemma uses_skillEntry sz skill :
  quietTag t = true -> uses t (skillEntry cl sz skill) = false.
Proof. intros Ht. unfold skillEntry. tag_cases t Ht; absent. Qed.

Lemma uses_languageEntry sz lang :
  quietTag t = true -> uses t (languageEntry sz lang) = false.
Proof. intros Ht. unfold languageEntry. tag_cases t Ht; absent. Qed.

Lemma uses_certificationEntry icon sz cert :
  quietTag t = true -> uses t (certificationEntry cl icon sz cert) = false.
Proof. intros Ht. unfold certificationEntry, iconEntry. tag_cases t Ht; absent. Qed.

Lemma uses_referenceEntry icon sz r :
  quietTag t = true -> uses t (referenceEntry cl icon sz r) = false.
Proof. intros Ht. unfold referenceEntry, iconEntry. tag_cases t Ht; absent. Qed.
End Entries.

(** ** Rows that start with an icon *)

Lemma rowsAfter_unused t n : uses t n = false -> rowsAfter t n = [].
Proof.
  induction n as [s | t' a cs IH] using VNode_induction; simpl; [reflexivity|].
  intros H. apply orb_false_iff in H as [_ H].
  replace (rowOf t cs) with (@nil (list VNode)).
  - apply flat_map_nil. exact (Forall_unused _ t cs IH H).
  - destruct cs as [| [s | b bt bcs] rest]; try reflexivity.
    simpl in H. apply orb_false_iff in H as [H _]. apply orb_false_iff in H as [H _].
    simpl. now rewrite H.
Qed.

Lemma rowsAfter_list_unused t cs :
  existsb (uses t) cs = false -> flat_map (rowsAfter t) cs = [].
Proof.
  intros H. apply flat_map_nil.
  apply (Forall_unused _ t cs); [|exact H].
  apply Forall_forall. intros n _. apply rowsAfter_unused.
Qed.

Lemma rowsAfter_Elem t a attrs cs :
  rowsAfter t (Elem a attrs cs) = rowOf t cs ++ flat_map (rowsAfter t) cs.
Proof. reflexivity. Qed.

Lemma rowsAfter_text t s : flat_map (rowsAfter t) (text s) = [].
Proof. unfold text. destruct (s =? ""); reflexivity. Qed.

(** ** The sections of the two layouts *)

(** A section made of a title and a list of entries without headings
    shows its title exactly when it is rendered. *)
Lemma headings_titled_list {A} c cls title listCls (f : A -> VNode) l :
  (forall x, uses h3 (f x) = false) ->
  flat_map (textsOf h3)
    (when c [Elem div [] [Preview.sectionTitle cls title;
                          Elem div [className listCls] (map f l)]])
  = titled c title.
Proof.
  intros H. rewrite flat_map_when. destruct c; [|reflexivity].
  simpl. rewrite (textsOf_map_unused h3 f l H).
  simpl. rewrite append_empty_r. reflexivity.
Qed.

Lemma uses_titled_list {A} c cls title listCls (f : A -> VNode) l :
  (forall x, uses h1 (f x) = false) ->
  existsb (uses h1)
    (when c [Elem div [] [Preview.sectionTitle cls title;
                          Elem div [className listCls] (map f l)]])
  = false.
Proof.
  intros H. rewrite existsb_when. destruct c; [|reflexivity].
  simpl. rewrite (existsb_map_false _ f l H). reflexivity.
Qed.

Section Sections.
Import Preview.
Variable cl : Closure.
Let d : CVData := cl_data cl.
Let info : PersonalInfo := personalInfo d.

(** *** No section but the header holds an [h1] *)

Lemma h1_summarySection cls : existsb (uses h1) (summarySection cl cls) = false.
Proof. unfold summarySection. absent. Qed.

Lemma h1_workSection cls sz icon listCls :
  existsb (uses h1) (workSection cl cls sz icon listCls) = false.
Proof. apply uses_titled_list. intros x. now apply uses_workEntry. Qed.

Lemma h1_skillsSection cls sz : existsb (uses h1) (skillsSection cl cls sz) = false.
Proof. apply uses_titled_list. intros x. now apply uses_skillEntry. Qed.

Lemma h1_languagesSection cls sz :
  existsb (uses h1) (languagesSection cl cls sz) = false.
Proof. apply uses_titled_list. intros x. now apply uses_languageEntry. Qed.

Lemma h1_certificationsSection cls sp icon sz :
  existsb (uses h1) (certificationsSection cl cls sp icon sz) = false.
Proof. apply uses_titled_list. intros x. now apply uses_certificationEntry. Qed.

Lemma h1_referencesSection cls sp icon sz :
  existsb (uses h1) (referencesSection cl cls sp icon sz) = false.
Proof. apply uses_titled_list. intros x. now apply uses_referenceEntry. Qed.

Lemma h1_educationSectionTwoColumn :
  existsb (uses h1) (educationSectionTwoColumn cl) = false.
Proof. apply uses_titled_list. intros x. now apply uses_educationEntryTwoColumn. Qed.

Lemma h1_educationSectionSingleColumn :
  existsb (uses h1) (educationSectionSingleColumn cl) = false.
Proof. apply uses_titled_list. intros x. now apply uses_educationEntrySingleColumn. Qed.

Lemma h1_sidebar : uses h1 (sidebar cl) = false.
Proof.
  unfold sidebar, contactSection, contactLine, photo.
  absent.
  rewrite h1_skillsSection, h1_languagesSection, h1_certificationsSection,
    h1_referencesSection.
  absent.
Qed.

Lemma h1_inlineContacts cls : uses h1 (inlineContacts cl cls) = false.
Proof. unfold inlineContacts, inlineContact. absent. Qed.

(** *** The headings of each section *)

Lemma headings_summarySection cls :
  flat_map (textsOf h3) (summarySection cl cls)
  = titled (nonEmptyStr (summary d)) "Professional Summary".
Proof.
  unfold summarySection. rewrite flat_map_when. fold d.
  destruct (nonEmptyStr (summary d)); [|reflexivity].
  simpl. fold d. unfold text. destruct (summary d =? ""); reflexivity.
Qed.

Lemma headings_workSection cls sz icon listCls :
  flat_map (textsOf h3) (workSection cl cls sz icon listCls)
  = titled (nonEmpty (workExperience d)) "Work Experience".
Proof. apply headings_titled_list. intros x. now apply uses_workEntry. Qed.

Lemma headings_skillsSection cls sz :
  flat_map (textsOf h3) (skillsSection cl cls sz)
  = titled (nonEmpty (skills d)) "Skills".
Proof. apply headings_titled_list. intros x. now apply uses_skillEntry. Qed.

Lemma headings_languagesSection cls sz :
  flat_map (textsOf h3) (languagesSection cl cls sz)
  = titled (nonEmpty (languages d)) "Languages".
Proof. apply headings_titled_list. intros x. now apply uses_languageEntry. Qed.

Lemma headings_certificationsSection cls sp icon sz :
  flat_map (textsOf h3) (certificationsSection cl cls sp icon sz)
  = titled (nonEmpty (certifications d)) "Certifications".
Proof. apply headings_titled_list. intros x. now apply uses_certificationEntry. Qed.

Lemma headings_referencesSection cls sp icon sz :
  flat_map (textsOf h3) (referencesSection cl cls sp icon sz)
  = titled (nonEmpty (references d)) "References".
Proof. apply headings_titled_list. intros x. now apply uses_referenceEntry. Qed.

Lemma headings_educationSectionTwoColumn :
  flat_map (textsOf h3) (educationSectionTwoColumn cl)
  = titled (nonEmpty (education d)) "Education".
Proof. apply headings_titled_list. intros x. now apply uses_educationEntryTwoColumn. Qed.

Lemma headings_educationSectionSingleColumn :
  flat_map (textsOf h3) (educationSectionSingleColumn cl)
  = titled (nonEmpty (education d)) "Education".
Proof.
  apply headings_titled_list. intros x. now apply uses_educationEntrySingleColumn.
Qed.

Lemma h3_headerTwoColumn : uses h3 (headerTwoColumn cl) = false.
Proof. unfold headerTwoColumn. absent. Qed.

Lemma h3_headerSingleColumn : uses h3 (headerSingleColumn cl) = false.
Proof. unfold headerSingleColumn, inlineContacts, inlineContact, photo. absent. Qed.

Lemma headings_contactSection : textsOf h3 (contactSection cl) = ["Contact"].
Proof.
  unfold contactSection, contactLine. simpl.
  rewrite textsOf_list_unused; [reflexivity|]. absent.
Qed.

Lemma headings_twoColumnBody :
  flat_map (textsOf h3) (twoColumnBody cl) = sectionsTwoColumn d.
Proof.
  unfold twoColumnBody, sidebar, content, sectionsTwoColumn.
  cbn [flat_map textsOf tag_eqb app].
  rewrite !flat_map_app. cbn [flat_map]. rewrite !flat_map_app.
  rewrite headings_contactSection, headings_skillsSection, headings_languagesSection,
    headings_certificationsSection, headings_referencesSection,
    headings_summarySection, headings_workSection, headings_educationSectionTwoColumn.
  rewrite (textsOf_unused _ _ h3_headerTwoColumn).
  rewrite textsOf_list_unused by (unfold photo; absent).
  rewrite !app_nil_r. simpl. rewrite <- !app_assoc. reflexivity.
Qed.

Lemma headings_singleColumnBody :
  flat_map (textsOf h3) (singleColumnBody cl) = sectionsSingleColumn d.
Proof.
  unfold singleColumnBody, sectionsSingleColumn.
  rewrite !flat_map_app.
  cbn [flat_map textsOf tag_eqb app].
  rewrite !flat_map_app.
  rewrite headings_skillsSection, headings_languagesSection,
    headings_certificationsSection, headings_referencesSection,
    headings_summarySection, headings_workSection, headings_educationSectionSingleColumn.
  rewrite (textsOf_unused _ _ h3_headerSingleColumn).
  rewrite !app_nil_r. simpl. rewrite <- !app_assoc. reflexivity.
Qed.

(** *** The header *)

Lemma text_displayName : text (displayName cl) = [Text (shownName info)].
Proof.
  unfold displayName, shownName, orStr, text. fold d. fold info.
  destruct (fullName info =? "") eqn:E; [reflexivity|]. now rewrite E.
Qed.

Lemma text_displayTitle : text (displayTitle cl) = [Text (shownTitle info)].
Proof.
  unfold displayTitle, shownTitle, orStr, text. fold d. fold info.
  destruct (pi_jobTitle info =? "") eqn:E; [reflexivity|]. now rewrite E.
Qed.

Lemma shown_headerTwoColumn :
  headerShows (shownName info) (shownTitle info) (headerTwoColumn cl).
Proof.
  unfold headerShows, headerTwoColumn. rewrite text_displayName, text_displayTitle.
  destruct (id (cl_template cl) =? "minimal"); simpl;
    rewrite append_empty_r; split; reflexivity.
Qed.

Lemma shown_headerSingleColumn :
  headerShows (shownName info) (shownTitle info) (headerSingleColumn cl).
Proof.
  unfold headerShows, headerSingleColumn, photo.
  rewrite text_displayName, text_displayTitle.
  pose proof (textsOf_unused _ _ (h1_inlineContacts
    "flex flex-wrap justify-center gap-4 text-sm text-white/80")) as T1.
  pose proof (textsOf_unused _ _ (h1_inlineContacts
    "flex flex-wrap justify-center gap-4 text-sm text-muted-foreground")) as T2.
  pose proof (following_unused _ p _ (h1_inlineContacts
    "flex flex-wrap justify-center gap-4 text-sm text-white/80")) as F1.
  pose proof (following_unused _ p _ (h1_inlineContacts
    "flex flex-wrap justify-center gap-4 text-sm text-muted-foreground")) as F2.
  destruct (id (cl_template cl) =? "minimal"), (hasPhoto (cl_template cl));
    cbn [flat_map textsOf following adjacent tag_eqb app andb when negb ownText];
    rewrite ?T1, ?T2, ?F1, ?F2, ?append_empty_r; split; reflexivity.
Qed.

Let restTwoColumn : list VNode :=
  summarySection cl (contentTitleCls cl "mb-3")
  ++ workSection cl (contentTitleCls cl "mb-4") "text-xs" "w-3 h-3"
       "list-disc list-inside text-muted-foreground space-y-1 ml-4"
  ++ educationSectionTwoColumn cl.

Lemma h1_restTwoColumn : existsb (uses h1) restTwoColumn = false.
Proof.
  unfold restTwoColumn.
  rewrite !existsb_app, h1_summarySection, h1_workSection,
    h1_educationSectionTwoColumn. reflexivity.
Qed.

Lemma shown_twoColumnBody :
  flat_map (textsOf h1) (twoColumnBody cl) = [shownName info]
  /\ flat_map (following h1 p) (twoColumnBody cl) = [[Text (shownTitle info)]]
  /\ adjacent h1 p (twoColumnBody cl) = [].
Proof.
  destruct shown_headerTwoColumn as [HT HF].
  pose proof h1_restTwoColumn as Hrest.
  split; [|split; [|reflexivity]].
  - unfold twoColumnBody, content. fold restTwoColumn.
    cbn [flat_map textsOf tag_eqb app].
    rewrite (textsOf_unused _ _ h1_sidebar), (textsOf_list_unused _ _ Hrest), HT.
    reflexivity.
  - unfold twoColumnBody. cbn [flat_map]. rewrite following_Elem. cbn [flat_map].
    rewrite (following_unused _ p _ h1_sidebar).
    replace (adjacent h1 p [sidebar cl; content cl]) with (@nil (list VNode))
      by reflexivity.
    unfold content. fold restTwoColumn. rewrite following_Elem. cbn [app flat_map].
    rewrite (following_list_unused _ p _ Hrest), HF.
    unfold headerTwoColumn. rewrite adjacent_skip by reflexivity.
    rewrite (adjacent_unused _ _ _ Hrest). reflexivity.
Qed.

Let gridsSingleColumn : list VNode :=
  [ Elem div [className "grid md:grid-cols-2 gap-6"]
      (educationSectionSingleColumn cl
       ++ skillsSection cl (stackedTitleCls cl "mb-4") "text-sm");
    Elem div [className "grid md:grid-cols-2 gap-6"]
      (languagesSection cl (stackedTitleCls cl "mb-4") "text-sm"
       ++ certificationsSection cl (stackedTitleCls cl "mb-4") "space-y-4" "w-4 h-4"
            "text-sm"
       ++ referencesSection cl (stackedTitleCls cl "mb-4") "space-y-4" "w-4 h-4"
            "text-sm") ].

Let restSingleColumn : list VNode :=
  summarySection cl (stackedTitleCls cl "mb-3")
  ++ workSection cl (stackedTitleCls cl "mb-4") "text-sm" "w-4 h-4"
       "list-disc list-inside text-muted-foreground space-y-1"
  ++ gridsSingleColumn.

Lemma h1_restSingleColumn : existsb (uses h1) restSingleColumn = false.
Proof.
  unfold restSingleColumn, gridsSingleColumn.
  rewrite !existsb_app, h1_summarySection, h1_workSection.
  cbn [existsb uses tag_eqb orb].
  rewrite !existsb_app, h1_educationSectionSingleColumn, h1_skillsSection,
    h1_languagesSection, h1_certificationsSection, h1_referencesSection.
  reflexivity.
Qed.

Lemma shown_singleColumnBody :
  flat_map (textsOf h1) (singleColumnBody cl) = [shownName info]
  /\ flat_map (following h1 p) (singleColumnBody cl) = [[Text (shownTitle info)]]
  /\ adjacent h1 p (singleColumnBody cl) = [].
Proof.
  destruct shown_headerSingleColumn as [HT HF].
  pose proof h1_restSingleColumn as Hrest.
  change (singleColumnBody cl) with (headerSingleColumn cl :: restSingleColumn).
  cbn [flat_map].
  rewrite (textsOf_list_unused _ _ Hrest), (following_list_unused _ p _ Hrest), HT, HF.
  repeat split; try reflexivity.
  unfold headerSingleColumn. rewrite adjacent_skip by reflexivity.
  apply adjacent_unused, Hrest.
Qed.
End Sections.

(** ** The trees of the two revisions *)

Lemma headings_Current e props :
  headings (tree (Current.CVPreview e props)) =
  if (columns (Current.template props) =? 2)%Z
  then sectionsTwoColumn (Current.data props)
  else sectionsSingleColumn (Current.data props).
Proof.
  unfold headings, Current.CVPreview, Current.cvContent. cbn [tree].
  destruct (columns (Current.template props) =? 2)%Z, (Current.isFullPagePDF props);
    cbn [textsOf flat_map tag_eqb app Preview.styleElem];
    rewrite ?headings_twoColumnBody, ?headings_singleColumnBody, ?app_nil_r;
    reflexivity.
Qed.

Lemma headings_Legacy e props :
  headings (tree (Legacy.CVPreview e props)) =
  if (columns (Legacy.template props) =? 2)%Z
  then sectionsTwoColumn (Legacy.data props)
  else sectionsSingleColumn (Legacy.data props).
Proof.
  unfold headings, Legacy.CVPreview. cbn [tree].
  destruct (columns (Legacy.template props) =? 2)%Z;
    cbn [textsOf flat_map tag_eqb app Preview.styleElem];
    rewrite ?headings_twoColumnBody, ?headings_singleColumnBody, ?app_nil_r;
    reflexivity.
Qed.

Lemma sections_follow (d : CVData) (t : VNode) :
  headings t = sectionsTwoColumn d \/ headings t = sectionsSingleColumn d ->
  sectionsFollowData d t.
Proof.
  unfold sectionsFollowData, hasSection, sectionsTwoColumn, sectionsSingleColumn.
  intros [-> | ->];
    destruct (nonEmptyStr (summary d)), (nonEmpty (workExperience d)),
      (nonEmpty (education d)), (nonEmpty (skills d)), (nonEmpty (languages d)),
      (nonEmpty (certifications d)), (nonEmpty (references d));
    repeat split; reflexivity.
Qed.

Lemma header_Current e props :
  let info := personalInfo (Current.data props) in
  headerShows (shownName info) (shownTitle info) (tree (Current.CVPreview e props)).
Proof.
  unfold headerShows, Current.CVPreview, Current.cvContent. cbn [tree].
  destruct (shown_twoColumnBody (Current.closure e props)) as (T2 & F2 & A2).
  destruct (shown_singleColumnBody (Current.closure e props)) as (T1 & F1 & A1).
  cbn [Preview.cl_data Current.closure] in *.
  destruct (columns (Current.template props) =? 2)%Z, (Current.isFullPagePDF props);
    unfold Preview.styleElem;
    rewrite ?following_Elem; cbn [textsOf flat_map tag_eqb app];
    rewrite ?following_Elem, ?adjacent_skip by reflexivity;
    cbn [adjacent flat_map following app];
    rewrite ?T2, ?F2, ?A2, ?T1, ?F1, ?A1;
    try (rewrite adjacent_skip by reflexivity);
    rewrite ?A2, ?A1; split; reflexivity.
Qed.

Lemma header_Legacy e props :
  let info := personalInfo (Legacy.data props) in
  headerShows (shownName info) (shownTitle info) (tree (Legacy.CVPreview e props)).
Proof.
  unfold headerShows, Legacy.CVPreview. cbn [tree].
  destruct (shown_twoColumnBody (Legacy.closure e props)) as (T2 & F2 & A2).
  destruct (shown_singleColumnBody (Legacy.closure e props)) as (T1 & F1 & A1).
  cbn [Preview.cl_data Legacy.closure] in *.
  destruct (columns (Legacy.template props) =? 2)%Z;
    unfold Preview.styleElem;
    rewrite ?following_Elem; cbn [textsOf flat_map tag_eqb app];
    rewrite ?following_Elem, ?adjacent_skip by reflexivity;
    cbn [adjacent flat_map following app];
    rewrite ?T2, ?F2, ?A2, ?T1, ?F1, ?A1;
    try (rewrite adjacent_skip by reflexivity);
    rewrite ?A2, ?A1; split; reflexivity.
Qed.

(** ** The date rows *)

Lemma quiet_titled_list {A} c cls title listCls (f : A -> VNode) l :
  (forall x, uses Calendar (f x) = false) ->
  existsb (uses Calendar)
    (when c [Elem div [] [Preview.sectionTitle cls title;
                          Elem div [className listCls] (map f l)]])
  = false.
Proof.
  intros H. rewrite existsb_when. destruct c; [|reflexivity].
  simpl. rewrite (existsb_map_false _ f l H). reflexivity.
Qed.

Lemma rowsAfter_map {A} t (f : A -> VNode) (g : A -> list VNode) l :
  (forall x, rowsAfter t (f x) = [g x]) -> flat_map (rowsAfter t) (map f l) = map g l.
Proof.
  intros H. induction l as [| x l IH]; simpl; [reflexivity|].
  rewrite H, IH. reflexivity.
Qed.

Section Dates.
Import Preview.
Variable cl : Closure.
Let d : CVData := cl_data cl.

Lemma rows_workDates exp : flat_map (rowsAfter Calendar) (workDates cl exp) = [].
Proof.
  unfold workDates. rewrite !flat_map_app, rowsAfter_text.
  destruct (JS.truthy (current exp)); [reflexivity|]. cbn [flat_map app rowsAfter].
  now rewrite rowsAfter_text.
Qed.

Lemma rows_educationDates edu :
  flat_map (rowsAfter Calendar) (educationDates cl edu) = [].
Proof.
  unfold educationDates. rewrite !flat_map_app, !rowsAfter_text. reflexivity.
Qed.

Lemma rows_accentBar : flat_map (rowsAfter Calendar) (accentBar cl) = [].
Proof. unfold accentBar. rewrite flat_map_when. now destruct (_ =? _). Qed.

Lemma rowOf_accentBar rest :
  rowOf Calendar (accentBar cl ++ Elem div [className (indent cl)] rest :: []) = [].
Proof. unfold accentBar, when. now destruct (_ =? _). Qed.

Lemma rowOf_text t s : rowOf t (text s) = [].
Proof. unfold text. now destruct (s =? ""). Qed.

Ltac rows :=
  repeat (rewrite ?rowsAfter_Elem, ?rowOf_text, ?rowsAfter_text;
          progress cbn [rowOf tag_eqb app flat_map]).

Lemma rows_workEntry sz icon listCls exp :
  rowsAfter Calendar (workEntry cl sz icon listCls exp) = [workDates cl exp].
Proof.
  unfold workEntry. rewrite rowsAfter_Elem, rowOf_accentBar, flat_map_app, rows_accentBar.
  rows. rewrite rows_workDates.
  rewrite (rowsAfter_list_unused Calendar (when _ _)).
  - reflexivity.
  - rewrite existsb_when. unfold responsibilityItems. simpl.
    rewrite existsb_items by reflexivity. now rewrite andb_false_r.
Qed.

Lemma rows_educationEntryTwoColumn edu :
  rowsAfter Calendar (educationEntryTwoColumn cl edu) = [educationDates cl edu].
Proof.
  unfold educationEntryTwoColumn.
  rewrite rowsAfter_Elem, rowOf_accentBar, flat_map_app, rows_accentBar.
  rows. rewrite rows_educationDates.
  rewrite (rowsAfter_list_unused Calendar (gradeLine edu)) by now apply uses_gradeLine.
  reflexivity.
Qed.

Lemma rows_titled_list {A} c cls title listCls (f : A -> VNode) g l :
  (forall x, rowsAfter Calendar (f x) = [g x]) ->
  (forall x rest, rowOf Calendar (f x :: rest) = []) ->
  flat_map (rowsAfter Calendar)
    (when c [Elem div [] [sectionTitle cls title; Elem div [className listCls] (map f l)]])
  = if c then map g l else [].
Proof.
  intros H H0. rewrite flat_map_when. destruct c; [|reflexivity].
  unfold sectionTitle. rows. rewrite (rowsAfter_map _ f g l H), !app_nil_r.
  destruct l as [| x l]; [reflexivity|]. cbn [map]. now rewrite H0.
Qed.

Lemma nonEmpty_map {A B} (g : A -> B) l : (if nonEmpty l then map g l else []) = map g l.
Proof. now destruct l. Qed.

Lemma rows_workSection cls sz icon listCls :
  flat_map (rowsAfter Calendar) (workSection cl cls sz icon listCls)
  = map (workDates cl) (workExperience d).
Proof.
  unfold workSection. rewrite (rows_titled_list _ _ _ _ _ (workDates cl)).
  - apply nonEmpty_map.
  - intros exp. apply rows_workEntry.
  - reflexivity.
Qed.

Lemma rows_educationSectionTwoColumn :
  flat_map (rowsAfter Calendar) (educationSectionTwoColumn cl)
  = map (educationDates cl) (education d).
Proof.
  unfold educationSectionTwoColumn.
  rewrite (rows_titled_list _ _ _ _ _ (educationDates cl)).
  - apply nonEmpty_map.
  - intros edu. apply rows_educationEntryTwoColumn.
  - reflexivity.
Qed.

Lemma quiet_summarySection cls :
  existsb (uses Calendar) (summarySection cl cls) = false.
Proof. unfold summarySection. absent. Qed.

Lemma quiet_skillsSection cls sz :
  existsb (uses Calendar) (skillsSection cl cls sz) = false.
Proof. apply quiet_titled_list. intros x. now apply uses_skillEntry. Qed.

Lemma quiet_languagesSection cls sz :
  existsb (uses Calendar) (languagesSection cl cls sz) = false.
Proof. apply quiet_titled_list. intros x. now apply uses_languageEntry. Qed.

Lemma quiet_certificationsSection cls sp icon sz :
  existsb (uses Calendar) (certificationsSection cl cls sp icon sz) = false.
Proof. apply quiet_titled_list. intros x. now apply uses_certificationEntry. Qed.

Lemma quiet_referencesSection cls sp icon sz :
  existsb (uses Calendar) (referencesSection cl cls sp icon sz) = false.
Proof. apply quiet_titled_list. intros x. now apply uses_referenceEntry. Qed.

Lemma quiet_educationSectionSingleColumn :
  existsb (uses Calendar) (educationSectionSingleColumn cl) = false.
Proof.
  apply quiet_titled_list. intros x. now apply uses_educationEntrySingleColumn.
Qed.

Lemma quiet_sidebar : uses Calendar (sidebar cl) = false.
Proof.
  unfold sidebar, contactSection, contactLine, photo.
  absent.
  rewrite quiet_skillsSection, quiet_languagesSection, quiet_certificationsSection,
    quiet_referencesSection.
  absent.
Qed.

Lemma quiet_headerTwoColumn : uses Calendar (headerTwoColumn cl) = false.
Proof. unfold headerTwoColumn. absent. Qed.

Lemma quiet_headerSingleColumn : uses Calendar (headerSingleColumn cl) = false.
Proof. unfold headerSingleColumn, inlineContacts, inlineContact, photo. absent. Qed.

Lemma rows_twoColumnBody :
  flat_map (rowsAfter Calendar) (twoColumnBody cl)
  = map (workDates cl) (workExperience d) ++ map (educationDates cl) (education d).
Proof.
  unfold twoColumnBody, content. cbn [flat_map].
  rewrite !rowsAfter_Elem. cbn [flat_map]. rewrite !rowsAfter_Elem.
  rewrite (rowsAfter_unused _ _ quiet_sidebar).
  replace (rowOf Calendar [sidebar cl; content cl]) with (@nil (list VNode)) by reflexivity.
  rewrite !flat_map_app. cbn [flat_map].
  rewrite (rowsAfter_unused _ _ quiet_headerTwoColumn),
    (rowsAfter_list_unused _ _ (quiet_summarySection _)),
    rows_workSection, rows_educationSectionTwoColumn.
  unfold headerTwoColumn. cbn [rowOf tag_eqb app]. now rewrite !app_nil_r.
Qed.

Lemma rows_singleColumnBody :
  flat_map (rowsAfter Calendar) (singleColumnBody cl)
  = map (workDates cl) (workExperience d)
  /\ forall attrs cs, rowOf Calendar (Elem style attrs cs :: singleColumnBody cl) = [].
Proof.
  split; [|reflexivity].
  unfold singleColumnBody. rewrite !flat_map_app. cbn [flat_map].
  rewrite (rowsAfter_unused _ _ quiet_headerSingleColumn),
    (rowsAfter_list_unused _ _ (quiet_summarySection _)), rows_workSection.
  rewrite !(rowsAfter_unused Calendar (Elem div _ _)); [now rewrite !app_nil_r| |].
  - cbn [uses tag_eqb orb]. rewrite !existsb_app, quiet_languagesSection,
      quiet_certificationsSection, quiet_referencesSection. reflexivity.
  - cbn [uses tag_eqb orb]. rewrite !existsb_app, quiet_educationSectionSingleColumn,
      quiet_skillsSection. reflexivity.
Qed.
End Dates.

(** The date rows of a tree: one for each job, in order, then in the
    two-column layout one for each education entry. *)
Lemma rows_Current e props :
  let cl := Current.closure e props in
  rowsAfter Calendar (tree (Current.CVPreview e props))
  = map (Preview.workDates cl) (workExperience (Current.data props))
    ++ (if (columns (Current.template props) =? 2)%Z
        then map (Preview.educationDates cl) (education (Current.data props))
        else []).
Proof.
  cbv zeta. unfold Current.CVPreview, Current.cvContent. cbn [tree].
  pose proof (rows_twoColumnBody (Current.closure e props)) as R2.
  destruct (rows_singleColumnBody (Current.closure e props)) as [R1 _].
  cbn [Preview.cl_data Current.closure] in R1, R2.
  destruct (columns (Current.template props) =? 2)%Z, (Current.isFullPagePDF props);
    unfold Preview.styleElem;
    rewrite !rowsAfter_Elem; cbn [rowOf tag_eqb flat_map app rowsAfter];
    rewrite ?rowsAfter_Elem; cbn [rowOf tag_eqb flat_map app rowsAfter];
    rewrite ?R1, ?R2, ?app_nil_r; reflexivity.
Qed.

Lemma rows_Legacy e props :
  let cl := Legacy.closure e props in
  rowsAfter Calendar (tree (Legacy.CVPreview e props))
  = map (Preview.workDates cl) (workExperience (Legacy.data props))
    ++ (if (columns (Legacy.template props) =? 2)%Z
        then map (Preview.educationDates cl) (education (Legacy.data props))
        else []).
Proof.
  cbv zeta. unfold Legacy.CVPreview. cbn [tree].
  pose proof (rows_twoColumnBody (Legacy.closure e props)) as R2.
  destruct (rows_singleColumnBody (Legacy.closure e props)) as [R1 _].
  cbn [Preview.cl_data Legacy.closure] in R1, R2.
  destruct (columns (Legacy.template props) =? 2)%Z;
    unfold Preview.styleElem;
    rewrite !rowsAfter_Elem; cbn [rowOf tag_eqb flat_map app rowsAfter];
    rewrite ?R1, ?R2, ?app_nil_r; reflexivity.
Qed.

(** ** Stored end dates of current jobs *)

Section CurrentJob.
Import Preview.
Variables (rev : revision) (e : Platform.Engine) (g : string -> JS.value) (t : CVTemplate).
Variable f : WorkExperience -> string.
Variable d : CVData.

Let cl : Closure :=
  {| cl_rev := rev; cl_engine := e; cl_getSkillLevel := g; cl_data := d;
     cl_template := t |}.
Let cl' : Closure :=
  {| cl_rev := rev; cl_engine := e; cl_getSkillLevel := g;
     cl_data := rewriteCurrentEndDates f d; cl_template := t |}.

Lemma workEntry_current sz icon cls x exp :
  JS.truthy (current exp) = true ->
  workEntry cl' sz icon cls (withEndDate x exp) = workEntry cl sz icon cls exp.
Proof.
  intros H. unfold workEntry, workDates, responsibilityItems. cbn. rewrite H. reflexivity.
Qed.

Lemma workSection_rewrite cls sz icon listCls :
  workSection cl' cls sz icon listCls = workSection cl cls sz icon listCls.
Proof.
  unfold workSection. cbn [cl_data cl' cl workExperience rewriteCurrentEndDates].
  rewrite map_map.
  replace (nonEmpty (map _ (workExperience d))) with (nonEmpty (workExperience d))
    by (destruct (workExperience d); reflexivity).
  rewrite (map_ext _ (workEntry cl sz icon listCls)); [reflexivity|].
  intros exp.
  destruct (JS.truthy (current exp)) eqn:H; [now apply workEntry_current | reflexivity].
Qed.

Lemma twoColumnBody_rewrite : twoColumnBody cl' = twoColumnBody cl.
Proof. unfold twoColumnBody, content. rewrite workSection_rewrite. reflexivity. Qed.

Lemma singleColumnBody_rewrite : singleColumnBody cl' = singleColumnBody cl.
Proof. unfold singleColumnBody. rewrite workSection_rewrite. reflexivity. Qed.
End CurrentJob.

Lemma tree_rewrite_Current e f props :
  tree (Current.CVPreview e
          (withDataCurrent (rewriteCurrentEndDates f (Current.data props)) props))
  = tree (Current.CVPreview e props).
Proof.
  unfold Current.CVPreview, Current.cvContent, Current.closure, withDataCurrent.
  cbn [tree Current.data Current.template Current.isPreview Current.isPDF
       Current.isFullPagePDF Current.unbounded Current.outerBase Current.chrome
       Current.overflowClip Current.textSize Current.unboundedStyle].
  rewrite twoColumnBody_rewrite, singleColumnBody_rewrite. reflexivity.
Qed.

Lemma tree_rewrite_Legacy e f props :
  tree (Legacy.CVPreview e
          (withDataLegacy (rewriteCurrentEndDates f (Legacy.data props)) props))
  = tree (Legacy.CVPreview e props).
Proof.
  unfold Legacy.CVPreview, Legacy.closure, withDataLegacy.
  cbn [tree Legacy.data Legacy.template Legacy.isPreview Legacy.isPDF Legacy.rootClass].
  rewrite twoColumnBody_rewrite, singleColumnBody_rewrite. reflexivity.
Qed.

Lemma nth_error_map_app {A B} (h : A -> B) l l' i x :
  nth_error l i = Some x -> nth_error (map h l ++ l') i = Some (h x).
Proof.
  intros H. rewrite nth_error_app1.
  - now apply map_nth_error.
  - rewrite length_map. apply nth_error_Some. congruence.
Qed.

Lemma workDates_current cl exp :
  JS.truthy (current exp) = true ->
  Preview.workDates cl exp
  = text (Preview.formatDate (Preview.cl_engine cl) (we_startDate exp))
    ++ [Text " - "; Text "Present"].
Proof. intros H. unfold Preview.workDates. rewrite H. reflexivity. Qed.

(** C2. In both layouts and in both revisions, the date row of a
    work-experience entry whose [current] holds, as [true] does, reads:
    formatted start date, [" - "], ["Present"]; and the rendered tree is
    the same whatever end dates are stored for the current jobs. *)
Theorem current_job_renders_Present
    (e : Platform.Engine) (i : nat) (exp : WorkExperience) :
  JS.truthy (current exp) = true ->
  (forall props,
      nth_error (workExperience (Current.data props)) i = Some exp ->
      nth_error (rowsAfter Calendar (tree (Current.CVPreview e props))) i
      = Some (text (Preview.formatDate e (we_startDate exp))
              ++ [Text " - "; Text "Present"]))
  /\ (forall props,
      nth_error (workExperience (Legacy.data props)) i = Some exp ->
      nth_error (rowsAfter Calendar (tree (Legacy.CVPreview e props))) i
      = Some (text (Preview.formatDate e (we_startDate exp))
              ++ [Text " - "; Text "Present"]))
  /\ (forall f props,
      tree (Current.CVPreview e
              (withDataCurrent (rewriteCurrentEndDates f (Current.data props)) props))
      = tree (Current.CVPreview e props))
  /\ (forall f props,
      tree (Legacy.CVPreview e
              (withDataLegacy (rewriteCurrentEndDates f (Legacy.data props)) props))
      = tree (Legacy.CVPreview e props)).
Proof.
  intros Hc. repeat split.
  - intros props Hi. rewrite rows_Current.
    rewrite (nth_error_map_app _ _ _ _ _ Hi). now rewrite (workDates_current _ _ Hc).
  - intros props Hi. rewrite rows_Legacy.
    rewrite (nth_error_map_app _ _ _ _ _ Hi). now rewrite (workDates_current _ _ Hc).
  - intros f props. apply tree_rewrite_Current.
  - intros f props. apply tree_rewrite_Legacy.
Qed.

(** A job held since January 2022 and stored with an end date, in the
    two-column layout of both revisions. *)
Lemma current_job_renders_Present_witness :
  JS.truthy (current Samples.presentJob) = true
  /\ nth_error
       (rowsAfter Calendar
          (tree (Current.CVPreview Platform.strictUTC
                   (Samples.currentProps Samples.janeDoe Samples.professional)))) 0
     = Some [Text "Jan 2022"; Text " - "; Text "Present"]
  /\ nth_error
       (rowsAfter Calendar
          (tree (Legacy.CVPreview Platform.strictUTC
                   (Samples.legacyProps Samples.janeDoe Samples.creative)))) 0
     = Some [Text "Jan 2022"; Text " - "; Text "Present"].
Proof.
  split; [reflexivity|]. split.
  - exact (proj1 (current_job_renders_Present Platform.strictUTC 0 Samples.presentJob
                    eq_refl)
             (Samples.currentProps Samples.janeDoe Samples.professional) eq_refl).
  - exact (proj1 (proj2 (current_job_renders_Present Platform.strictUTC 0
                           Samples.presentJob eq_refl))
             (Samples.legacyProps Samples.janeDoe Samples.creative) eq_refl).
Defined.

(** C5, as amended. In both layouts and in both revisions each of the
    sections Professional Summary, Work Experience, Education, Skills,
    Languages, Certifications and References is in the rendered tree
    exactly when its data is not empty: the summary not the empty string,
    the list with an entry; in particular an empty skills list gives a
    tree without a Skills section. The Contact section is in the tree of
    the two-column layout whatever the data, and never in the tree of the
    single-column layout. *)
Theorem guarded_sections_follow_data (e : Platform.Engine) :
  (forall props,
      let t := tree (Current.CVPreview e props) in
      sectionsFollowData (Current.data props) t
      /\ (skills (Current.data props) = [] -> hasSection "Skills" t = false)
      /\ hasSection "Contact" t = (columns (Current.template props) =? 2)%Z)
  /\ (forall props,
      let t := tree (Legacy.CVPreview e props) in
      sectionsFollowData (Legacy.data props) t
      /\ (skills (Legacy.data props) = [] -> hasSection "Skills" t = false)
      /\ hasSection "Contact" t = (columns (Legacy.template props) =? 2)%Z).
Proof.
  assert (C : forall d (two : bool) t,
             headings t = (if two then sectionsTwoColumn d else sectionsSingleColumn d) ->
             sectionsFollowData d t
             /\ (skills d = [] -> hasSection "Skills" t = false)
             /\ hasSection "Contact" t = two).
  { intros d two t H.
    assert (F : sectionsFollowData d t)
      by (apply sections_follow; rewrite H; destruct two; auto).
    split; [exact F|]. split.
    - intros E. destruct F as (_ & _ & _ & -> & _). now rewrite E.
    - unfold hasSection. rewrite H. unfold sectionsTwoColumn, sectionsSingleColumn.
      destruct two, (nonEmptyStr (summary d)), (nonEmpty (workExperience d)),
        (nonEmpty (education d)), (nonEmpty (skills d)), (nonEmpty (languages d)),
        (nonEmpty (certifications d)), (nonEmpty (references d)); reflexivity. }
  split; intros props; cbv zeta; apply C.
  - apply headings_Current.
  - apply headings_Legacy.
Qed.

(** C5, the claim as stated fails twice. With no contact data at all the
    two-column layout still renders its Contact section; and a summary of
    three spaces, which is blank but not empty, has its section rendered,
    in both layouts and both revisions. *)
Lemma contact_and_blank_summary_are_rendered :
  let info := personalInfo Samples.initialCVData in
  let current d t := tree (Current.CVPreview Platform.strictUTC (Samples.currentProps d t)) in
  let legacy d t := tree (Legacy.CVPreview Platform.strictUTC (Samples.legacyProps d t)) in
  (email info = "" /\ phone info = "" /\ address info = "" /\ website info = ""
   /\ hasSection "Contact" (current Samples.initialCVData Samples.professional) = true
   /\ hasSection "Contact" (legacy Samples.initialCVData Samples.professional) = true)
  /\ (JS.blank (summary Samples.blankSummary) = true
      /\ map (hasSection "Professional Summary")
           [ current Samples.blankSummary Samples.professional;
             current Samples.blankSummary Samples.creative;
             legacy Samples.blankSummary Samples.professional;
             legacy Samples.blankSummary Samples.creative ]
         = [true; true; true; true]).
Proof. cbv zeta. repeat split; reflexivity. Qed.

(** C10. In both layouts, in both revisions and for every template, the
    only [h1] of the rendered tree shows the full name, or ["Your Name"]
    when it is empty, and the paragraph next to it shows the job title, or
    ["Your Job Title"] when it is empty. *)
Theorem header_shows_name_and_title (e : Platform.Engine) :
  (forall props,
      let info := personalInfo (Current.data props) in
      headerShows (if fullName info =? "" then "Your Name" else fullName info)
                  (if pi_jobTitle info =? "" then "Your Job Title" else pi_jobTitle info)
                  (tree (Current.CVPreview e props)))
  /\ (forall props,
      let info := personalInfo (Legacy.data props) in
      headerShows (if fullName info =? "" then "Your Name" else fullName info)
                  (if pi_jobTitle info =? "" then "Your Job Title" else pi_jobTitle info)
                  (tree (Legacy.CVPreview e props))).
Proof.
  split; intros props; [apply header_Current | apply header_Legacy].
Qed.

(** The scenario of the specification: a header with the name, one
    skill bar at 100%, no certifications and no references. *)
Example jane_doe_two_column :
  let t := tree (Current.CVPreview Platform.strictUTC
                   (Samples.currentProps Samples.janeDoe Samples.professional)) in
  textsOf h1 t = ["Jane Doe"]
  /\ headings t = ["Contact"; "Skills"; "Work Experience"]
  /\ map (Preview.barWidth
            (Current.closure Platform.strictUTC
               (Samples.currentProps Samples.janeDoe Samples.professional)))
         (skills Samples.janeDoe) = ["100%"].
Proof. repeat split; reflexivity. Qed.

(** ** The effects of the two revisions *)

(** The current revision registers no effect: mounting and unmounting it
    leave every document as it is. *)
Lemma current_preview_leaves_document e props d :
  effects (Current.CVPreview e props) = []
  /\ mount (Current.CVPreview e props) d = d
  /\ unmount (Current.CVPreview e props) d = d.
Proof. repeat split; reflexivity. Qed.

(** A second render with the same props runs no effect again, in either
    revision. *)
Lemma rerender_same_props e d :
  (forall props,
      rerender (Legacy.CVPreview e props) (Legacy.CVPreview e props) d = d)
  /\ (forall props,
      rerender (Current.CVPreview e props) (Current.CVPreview e props) d = d).
Proof.
  split; intros props; [|reflexivity].
  unfold rerender. cbn [Legacy.CVPreview effects combine fold_left].
  destruct (list_eq_dec string_dec _ _) as [_ | N]; [reflexivity|].
  now contradiction N.
Qed.

(** C1, on the legacy revision. Mounting the component on a document
    without custom properties writes the three [--template-*] properties
    on the document root; and with two instances mounted, unmounting the
    second removes the properties from the root, those of the first
    included. *)
Theorem legacy_preview_writes_document_root :
  let blue := Legacy.CVPreview Platform.strictUTC
                (Samples.legacyProps Samples.initialCVData Samples.professional) in
  let rose := Legacy.CVPreview Platform.strictUTC
                (Samples.legacyProps Samples.initialCVData Samples.professionalRose) in
  mount blue []
  = [ ("--template-primary", "217, 91%, 60%");
      ("--template-secondary", "217, 91%, 95%");
      ("--template-accent", "217, 91%, 50%") ]
  /\ mount rose (mount blue [])
     = [ ("--template-primary", "11, 70%, 84%");
         ("--template-secondary", "11, 70%, 95%");
         ("--template-accent", "11, 70%, 74%") ]
  /\ unmount rose (mount rose (mount blue [])) = [].
Proof. repeat split; reflexivity. Qed.

(** ** The skill and colour tables *)

Section TableFacts.
Import JS Tables.

Lemma assoc_levels_unknown level :
  knownLevel level = false -> assoc level levels = None.
Proof.
  unfold knownLevel, levels. simpl.
  repeat (destruct (level =? _); [discriminate|]). reflexivity.
Qed.

Lemma assoc_colorMap_unknown c :
  knownColor c = false -> assoc c colorMap = None.
Proof.
  unfold knownColor, colorMap. simpl.
  repeat (destruct (c =? _); [discriminate|]). reflexivity.
Qed.

Lemma assoc_colorMap_known c :
  knownColor c = true -> exists v, assoc c colorMap = Some v /\ isTriple v = true.
Proof.
  unfold knownColor, colorMap. simpl.
  repeat (destruct (c =? _); [intros _; eexists; split; reflexivity|]). discriminate.
Qed.

Lemma get_undefined {own : list (string * value)} k :
  assoc k own = None -> inherited k = false -> get own k = VUndefined.
Proof.
  unfold get, inherited. intros ->.
  destruct (assoc k Object_prototype); [discriminate | reflexivity].
Qed.

Lemma get_inherited {own : list (string * value)} k :
  assoc k own = None -> inherited k = true ->
  truthy (get own k) = true /\ get own k <> VUndefined
  /\ isNum (get own k) = false /\ isTriple (get own k) = false.
Proof.
  unfold get, inherited, Object_prototype. intros ->. simpl.
  repeat (destruct (k =? _); [intros _; repeat split; discriminate |]).
  discriminate.
Qed.

Lemma inherited_not_level level : inherited level = true -> knownLevel level = false.
Proof.
  intros Hi. destruct (knownLevel level) eqn:Hk; [|reflexivity].
  exfalso. unfold knownLevel in Hk. simpl in Hk.
  repeat (apply orb_true_iff in Hk as [Hk | Hk];
          [apply String.eqb_eq in Hk; subst; discriminate Hi|]).
  discriminate.
Qed.

Lemma inherited_not_color c : inherited c = true -> knownColor c = false.
Proof.
  intros Hi. destruct (knownColor c) eqn:Hk; [|reflexivity].
  exfalso. unfold knownColor in Hk. simpl in Hk.
  repeat (apply orb_true_iff in Hk as [Hk | Hk];
          [apply String.eqb_eq in Hk; subst; discriminate Hi|]).
  discriminate.
Qed.

(** The four levels of the table, in both revisions. *)
Lemma getSkillLevel_table :
  map Current.getSkillLevel ["Beginner"; "Intermediate"; "Advanced"; "Expert"]
  = [VNum 25; VNum 50; VNum 75; VNum 100]
  /\ map Legacy.getSkillLevel ["Beginner"; "Intermediate"; "Advanced"; "Expert"]
     = [VNum 25; VNum 50; VNum 75; VNum 100].
Proof. split; reflexivity. Qed.

(** A level that is neither in the table nor the name of an inherited
    property maps to 50. *)
Lemma getSkillLevel_unknown level :
  knownLevel level = false -> inherited level = false ->
  Current.getSkillLevel level = VNum 50 /\ Legacy.getSkillLevel level = VNum 50.
Proof.
  intros Hk Hi. unfold Current.getSkillLevel, Legacy.getSkillLevel.
  rewrite (get_undefined level (assoc_levels_unknown level Hk) Hi). split; reflexivity.
Qed.

(** A level that names an inherited property does not map to a number. *)
Lemma getSkillLevel_inherited level :
  inherited level = true ->
  isNum (Current.getSkillLevel level) = false
  /\ isNum (Legacy.getSkillLevel level) = false.
Proof.
  intros Hi. pose proof (inherited_not_level level Hi) as Hk.
  destruct (get_inherited (own:=levels) level (assoc_levels_unknown level Hk) Hi)
    as (T & U & N & _).
  unfold Current.getSkillLevel, Legacy.getSkillLevel, or, nullish. rewrite T.
  split; [|exact N]. destruct (get levels level); try exact N. contradiction.
Qed.

(** The two revisions of [getSkillLevel] agree on every level: no value of
    the table is falsy and nothing an object inherits is. *)
Lemma getSkillLevel_revisions_agree level :
  Legacy.getSkillLevel level = Current.getSkillLevel level.
Proof.
  unfold Legacy.getSkillLevel, Current.getSkillLevel, or, nullish.
  destruct (knownLevel level) eqn:Hk.
  - unfold knownLevel in Hk. simpl in Hk.
    repeat (apply orb_true_iff in Hk as [Hk | Hk];
            [apply String.eqb_eq in Hk; subst; reflexivity|]).
    discriminate.
  - destruct (inherited level) eqn:Hi.
    + destruct (get_inherited (own:=levels) level (assoc_levels_unknown level Hk) Hi)
        as (T & U & _). rewrite T. destruct (get levels level); try reflexivity.
      contradiction.
    + rewrite (get_undefined level (assoc_levels_unknown level Hk) Hi). reflexivity.
Qed.

(** The current colour resolver returns a triple for every name, and the
    triple of slate for every name outside the palette. *)
Lemma current_getColorValues_total c :
  isTriple (Current.getColorValues c) = true
  /\ (knownColor c = false -> Current.getColorValues c = Current.getColorValues "slate").
Proof.
  unfold Current.getColorValues, hasOwnProperty.
  destruct (knownColor c) eqn:Hk.
  - destruct (assoc_colorMap_known c Hk) as (v & Hv & Tv). rewrite Hv.
    unfold get. rewrite Hv. split; [exact Tv | discriminate].
  - rewrite (assoc_colorMap_unknown c Hk). split; reflexivity.
Qed.

(** The legacy colour resolver agrees with it on every name that no
    object inherits. *)
Lemma legacy_getColorValues_plain c :
  inherited c = false -> Legacy.getColorValues c = Current.getColorValues c.
Proof.
  intros Hi. unfold Legacy.getColorValues, Current.getColorValues, hasOwnProperty.
  destruct (knownColor c) eqn:Hk.
  - destruct (assoc_colorMap_known c Hk) as (v & Hv & Tv). rewrite Hv.
    unfold get. rewrite Hv. unfold or. destruct v; try discriminate Tv. reflexivity.
  - rewrite (assoc_colorMap_unknown c Hk).
    rewrite (get_undefined c (assoc_colorMap_unknown c Hk) Hi). reflexivity.
Qed.

(** On a name that objects inherit it returns no triple. *)
Lemma legacy_getColorValues_inherited c :
  inherited c = true -> isTriple (Legacy.getColorValues c) = false.
Proof.
  intros Hi. pose proof (inherited_not_color c Hi) as Hk.
  destruct (get_inherited (own:=colorMap) c (assoc_colorMap_unknown c Hk) Hi)
    as (T & _ & _ & N).
  unfold Legacy.getColorValues, or. rewrite T. exact N.
Qed.
End TableFacts.

(** C3, at the level ["constructor"]. Both revisions of [getSkillLevel]
    return the function every object inherits under that name, not 50,
    and the width of the bar becomes the text of that function followed
    by a percent sign. *)
Theorem getSkillLevel_inherited_name :
  Tables.knownLevel "constructor" = false
  /\ Current.getSkillLevel "constructor" = JS.VNative "Object"
  /\ Legacy.getSkillLevel "constructor" = JS.VNative "Object"
  /\ Current.getSkillLevel "constructor" <> JS.VNum 50
  /\ Preview.barWidth
       (Current.closure Platform.strictUTC
          (Samples.currentProps Samples.initialCVData Samples.professional))
       Samples.oddSkill
     = "function Object() { [native code] }%".
Proof. repeat split; try reflexivity. discriminate. Qed.

(** C4, on the legacy revision at the colour ["constructor"]. The name is
    not in the palette, yet [getColorValues] returns the function every
    object inherits under that name: no triple, not the value for slate,
    and its [primary] is [undefined]. *)
Theorem legacy_getColorValues_inherited_name :
  Tables.knownColor "constructor" = false
  /\ Legacy.getColorValues "constructor" = JS.VNative "Object"
  /\ Tables.isTriple (Legacy.getColorValues "constructor") = false
  /\ Legacy.getColorValues "constructor" <> Legacy.getColorValues "slate"
  /\ JS.getV (Legacy.getColorValues "constructor") "primary" = JS.VUndefined
  /\ Current.getColorValues "constructor" = Current.getColorValues "slate".
Proof. repeat split; try reflexivity. discriminate. Qed.

(** ** Dates *)

Section CalendarFacts.
Import JS Platform Preview.
Local Open Scope Z_scope.


(** The two conversions, by era and day of the era. *)
Lemma daysFromCivil_eras y m d :
  let y' := if m <=? 2 then y - 1 else y in
  daysFromCivil y m d
  = y' / 400 * 146097 + dayOfEra (y' - y' / 400 * 400) m d - 719468.
Proof. reflexivity. Qed.





















(** The calendar is counted day by day: the epoch is day 0, the days of
    a month follow each other, and the first day of a month follows the
    last day of the month before. *)
Lemma daysFromCivil_epoch : daysFromCivil 1970 1 1 = 0.
Proof. reflexivity. Qed.

Lemma daysFromCivil_next y m d : daysFromCivil y m (d + 1) = daysFromCivil y m d + 1.
Proof. rewrite !daysFromCivil_eras. unfold dayOfEra. cbv zeta. lia. Qed.









End CalendarFacts.

Section DateFacts.
Import JS Platform Preview.


(** The out-of-bounds month is invalid whatever the engine. *)
Lemma formatDate_month_13 (e : Engine) : formatDate e "2024-13" = "Invalid Date".
Proof. reflexivity. Qed.

Example formatDate_samples :
  map (formatDate strictUTC) [""; "2022-01-01"; "2019-06"; "2024-02-29"]
  = [""; "Jan 2022"; "Jun 2019"; "Feb 2024"]
  /\ formatDate strictEST "2022-01-01" = "Dec 2021".
Proof. split; reflexivity. Qed.
End DateFacts.

(** ** The scale of the preview *)

Section ScaleFacts.
Import CVBuilder.

Lemma ratio_lt_1 (w : Z) : (inject_Z w / inject_Z cvWidth < 1)%Q <-> (w < 794)%Z.
Proof. unfold Qlt, Qdiv, Qmult, Qinv, inject_Z, cvWidth. simpl. lia. Qed.

(** C6. The scale computed for a container of width [w] is
    [min (w / 794) 1]: it is at most 1, it is [w / 794] when that ratio is
    below 1, that is when [w < 794], and it is 1 from 794 on; it is what
    [calculateScale] stores when the container is mounted and the page is
    not in preview mode. *)
Theorem preview_scale_is_clamped_ratio (w : Z) :
  scaleFor w = Qmin (inject_Z w / inject_Z 794)%Q 1%Q
  /\ (scaleFor w <= 1)%Q
  /\ ((inject_Z w / inject_Z 794 < 1)%Q -> scaleFor w = (inject_Z w / inject_Z 794)%Q)
  /\ ((w < 794)%Z -> scaleFor w = (inject_Z w / inject_Z 794)%Q)
  /\ ((794 <= w)%Z -> (scaleFor w == 1)%Q)
  /\ (forall st, previewMode st = false ->
        previewScale (calculateScale (Some w) st) = scaleFor w).
Proof.
  split; [reflexivity|]. split; [apply Q.le_min_r|].
  assert (Hlt : (inject_Z w / inject_Z 794 < 1)%Q ->
                scaleFor w = (inject_Z w / inject_Z 794)%Q).
  { intros H. pose proof (proj1 (Qlt_alt _ _) H) as C.
    unfold scaleFor, Qmin, GenericMinMax.gmin. change cvWidth with 794%Z.
    rewrite C. reflexivity. }
  split; [exact Hlt|]. split; [intros H; apply Hlt, (ratio_lt_1 w), H|].
  split.
  - intros H. apply Q.min_r. apply Qnot_lt_le. intros L.
    apply (ratio_lt_1 w) in L. lia.
  - intros st Hp. unfold calculateScale. rewrite Hp. reflexivity.
Qed.

(** A container half as wide as the page, and one twice as wide. *)
Lemma preview_scale_is_clamped_ratio_witness :
  ((inject_Z 397 / inject_Z 794 < 1)%Q
   /\ scaleFor 397 = (inject_Z 397 / inject_Z 794)%Q)
  /\ ((397 < 794)%Z /\ scaleFor 397 = (inject_Z 397 / inject_Z 794)%Q)
  /\ ((794 <= 1588)%Z /\ (scaleFor 1588 == 1)%Q)
  /\ previewScale (calculateScale (Some 397%Z)
                     {| previewMode := false; previewScale := 1%Q |})
     = scaleFor 397.
Proof.
  split; [split; [reflexivity|]|].
  { apply (proj1 (proj2 (proj2 (preview_scale_is_clamped_ratio 397)))). reflexivity. }
  split; [split; [lia|]|].
  { apply (proj1 (proj2 (proj2 (proj2 (preview_scale_is_clamped_ratio 397))))). lia. }
  split; [split; [lia|]|].
  { apply (proj1 (proj2 (proj2 (proj2 (proj2
             (preview_scale_is_clamped_ratio 1588)))))). lia. }
  apply (proj2 (proj2 (proj2 (proj2 (proj2 (preview_scale_is_clamped_ratio 397)))))).
  reflexivity.
Defined.

(** Without a mounted container, or in preview mode, the stored scale is
    left as it is. *)
Lemma calculateScale_guard (c : option Z) (st : State) :
  c = None \/ previewMode st = true -> calculateScale c st = st.
Proof.
  intros [-> | H]; [reflexivity|].
  unfold calculateScale. rewrite H. now destruct c.
Qed.
End ScaleFacts.

(** ** The completeness evaluator *)

Section ProgressFacts.
Import JS CVProgress.

Lemma completed_bounds d :
  (0 <= completed (calculateCompleteness d) <= 5)%Z
  /\ percentage (calculateCompleteness d)
     = (20 * completed (calculateCompleteness d))%Z.
Proof.
  unfold completed, calculateCompleteness. cbn [percentage sections filter complete].
  repeat match goal with
         | |- context [truthy ?v] => destruct (truthy v)
         end; split; (reflexivity || (cbn; lia)).
Qed.

Lemma truthy_and a b : truthy (and a b) = truthy a && truthy b.
Proof. unfold and. destruct (truthy a) eqn:E; [reflexivity | exact E]. Qed.

Lemma existsb_pointwise {A} (f g : A -> bool) (l : list A) :
  (forall x, f x = g x) -> existsb f l = existsb g l.
Proof. intros H. induction l as [|x l IH]; [reflexivity|]. cbn. now rewrite H, IH. Qed.

Lemma and_some {A} (pred : A -> value) (l : list A) :
  and (VBool (nonEmpty l)) (VBool (some pred l)) = VBool (some pred l).
Proof. destruct l; reflexivity. Qed.

(** C8, as amended. The result lists exactly the five sections Personal
    Information, Summary, Work Experience, Education, Skills, in that
    order. The flag of Personal Information is the value of
    [fullName && email && phone]: the empty string when the name or the
    e-mail address is empty, the phone number otherwise, a string. The
    flag of Summary is the empty string for an empty summary and the
    boolean [summary.length > 20] otherwise. The flags of Work
    Experience, Education and Skills are booleans: some job has a title,
    a company and a start date, some education entry a degree and an
    institution, some skill a name. The percentage is twenty times the
    number of flags that hold, so between 0 and 100; and data that differ
    only in references, languages and certifications give the same
    result. *)
Theorem calculateCompleteness_spec (d : CVData) :
  let r := calculateCompleteness d in
  let info := personalInfo d in
  let work :=
    existsb (fun exp => nonEmptyStr (we_jobTitle exp) && nonEmptyStr (company exp)
                        && nonEmptyStr (we_startDate exp)) (workExperience d) in
  let studies :=
    existsb (fun edu => nonEmptyStr (degree edu) && nonEmptyStr (institution edu))
            (education d) in
  let named := existsb (fun skill => nonEmptyStr (sk_name skill)) (skills d) in
  map name (sections r) = sectionNames
  /\ map complete (sections r)
     = [ VStr (if fullName info =? "" then ""
               else if email info =? "" then "" else phone info);
         (if summary d =? "" then VStr ""
          else VBool (20 <? string_length (summary d))%nat);
         VBool work; VBool studies; VBool named ]
  /\ map (fun s => truthy (complete s)) (sections r)
     = [ nonEmptyStr (fullName info) && nonEmptyStr (email info)
         && nonEmptyStr (phone info);
         nonEmptyStr (summary d) && (20 <? string_length (summary d))%nat;
         work; studies; named ]
  /\ percentage r = (20 * completed r)%Z
  /\ (0 <= percentage r <= 100)%Z
  /\ (forall d', sameCountedFields d d' -> calculateCompleteness d' = r).
Proof.
  cbv zeta.
  assert (W : some (fun exp => and (and (VStr (we_jobTitle exp)) (VStr (company exp)))
                                   (VStr (we_startDate exp))) (workExperience d)
              = existsb (fun exp => nonEmptyStr (we_jobTitle exp)
                                    && nonEmptyStr (company exp)
                                    && nonEmptyStr (we_startDate exp))
                        (workExperience d)).
  { unfold some. apply existsb_pointwise. intros exp. now rewrite !truthy_and. }
  assert (E : some (fun edu => and (VStr (degree edu)) (VStr (institution edu)))
                   (education d)
              = existsb (fun edu => nonEmptyStr (degree edu)
                                    && nonEmptyStr (institution edu)) (education d)).
  { unfold some. apply existsb_pointwise. intros edu. now rewrite truthy_and. }
  assert (F : map complete (sections (calculateCompleteness d))
              = [ VStr (if fullName (personalInfo d) =? "" then ""
                        else if email (personalInfo d) =? "" then ""
                             else phone (personalInfo d));
                  (if summary d =? "" then VStr ""
                   else VBool (20 <? string_length (summary d))%nat);
                  VBool (existsb (fun exp => nonEmptyStr (we_jobTitle exp)
                                             && nonEmptyStr (company exp)
                                             && nonEmptyStr (we_startDate exp))
                                 (workExperience d));
                  VBool (existsb (fun edu => nonEmptyStr (degree edu)
                                             && nonEmptyStr (institution edu))
                                 (education d));
                  VBool (existsb (fun skill => nonEmptyStr (sk_name skill)) (skills d)) ]).
  { unfold calculateCompleteness. cbn [sections map complete].
    rewrite !and_some, W, E. unfold longerThan.
    f_equal; [|f_equal].
    - unfold and. cbn [truthy].
      destruct (fullName (personalInfo d) =? "") eqn:N; cbn [negb].
      + apply String.eqb_eq in N. now rewrite N.
      + cbn [truthy]. destruct (email (personalInfo d) =? "") eqn:M; cbn [negb].
        * apply String.eqb_eq in M. now rewrite M.
        * reflexivity.
    - unfold and. cbn [truthy].
      destruct (summary d =? "") eqn:S; cbn [negb]; [|reflexivity].
      apply String.eqb_eq in S. now rewrite S. }
  destruct (completed_bounds d) as [B P].
  split; [reflexivity|]. split; [exact F|]. split.
  - rewrite <- map_map, F. cbn [map truthy]. unfold nonEmptyStr.
    f_equal; [|f_equal].
    + destruct (fullName (personalInfo d) =? ""); [reflexivity|].
      destruct (email (personalInfo d) =? ""); reflexivity.
    + destruct (summary d =? ""); reflexivity.
  - split; [exact P|]. split; [lia|].
    intros d' (H1 & H2 & H3 & H4 & H5). unfold calculateCompleteness.
    rewrite H1, H2, H3, H4, H5. reflexivity.
Qed.

(** Adding a reference changes nothing. *)
Lemma calculateCompleteness_spec_witness :
  sameCountedFields Samples.contactFilled Samples.contactFilledWithReference
  /\ calculateCompleteness Samples.contactFilledWithReference
     = calculateCompleteness Samples.contactFilled.
Proof.
  assert (H : sameCountedFields Samples.contactFilled Samples.contactFilledWithReference)
    by (repeat split; reflexivity).
  split; [exact H|].
  exact (proj2 (proj2 (proj2 (proj2 (proj2
           (calculateCompleteness_spec Samples.contactFilled)))))
           Samples.contactFilledWithReference H).
Defined.

(** C8, the claim as stated fails: with the three required personal
    fields filled in, the flag of Personal Information is the phone
    number, a string. *)
Lemma completeness_flag_not_boolean :
  ~ (forall d, forallb (fun s => isBool (complete s))
                       (sections (calculateCompleteness d)) = true).
Proof. intros H. specialize (H Samples.contactFilled). discriminate H. Qed.

Example completeness_contactFilled :
  map complete (sections (calculateCompleteness Samples.contactFilled))
  = [VStr "555"; VStr ""; VBool false; VBool false; VBool false]
  /\ percentage (calculateCompleteness Samples.contactFilled) = 20%Z.
Proof. split; reflexivity. Qed.
End ProgressFacts.

(** ** The export pipeline *)

Section ExportFacts.
Import CVBuilder.
Variables (Outside Element : Type).
Variable html2pdf_save : Options -> Element -> Collaborator Outside.
Variable fontsInDocument : bool.
Variable fonts_ready : Collaborator Outside.
Variable imagesSettled : Element -> Outside -> Outside.

Let export := handleDownloadPDF Outside Element html2pdf_save fontsInDocument
                fonts_ready imagesSettled.
Let exportDirect := handleDownloadPDF_direct Outside Element html2pdf_save.
Let capture := atCapture Outside Element fontsInDocument fonts_ready imagesSettled.

Lemma export_noop pb exportRef selectedTemplate w :
  exportRef = None \/ selected selectedTemplate = false ->
  export pb exportRef selectedTemplate w = (Returned tt, w)
  /\ exportDirect exportRef selectedTemplate w = (Returned tt, w).
Proof.
  unfold export, exportDirect, handleDownloadPDF, handleDownloadPDF_direct.
  intros [-> | H]; [split; reflexivity|].
  rewrite H. destruct exportRef; split; reflexivity.
Qed.

Lemma app_two {A} (l : list A) a b : (l ++ [a]) ++ [b] = l ++ [a; b].
Proof. now rewrite <- app_assoc. Qed.

Lemma export_run pb element selectedTemplate w :
  selected selectedTemplate = true ->
  export pb (Some element) selectedTemplate w
  = (Returned tt,
     settled Outside w (html2pdf_save (opt pb) element (capture element (outside w))))
  /\ exportDirect (Some element) selectedTemplate w
     = (Returned tt, settled Outside w (html2pdf_save (opt None) element (outside w))).
Proof.
  intros H.
  unfold export, exportDirect, capture, handleDownloadPDF, handleDownloadPDF_direct,
    atCapture.
  rewrite H. unfold reportFailure, awaitImages, tryCatch, bind, toast, call, ret,
    console_error.
  split.
  - destruct fontsInDocument.
    + simpl. destruct (fonts_ready (outside w)) as [[[] | ferr] x1]; simpl;
        destruct (html2pdf_save (opt pb) element (imagesSettled element x1))
          as [[[] | err] x2]; simpl; rewrite ?app_two; reflexivity.
    + simpl.
      destruct (html2pdf_save (opt pb) element (imagesSettled element (outside w)))
        as [[[] | err] x2]; simpl; rewrite ?app_two; reflexivity.
  - simpl. destruct (html2pdf_save (opt None) element (outside w)) as [[[] | err] x2];
      simpl; rewrite ?app_two; reflexivity.
Qed.
End ExportFacts.

(** C7, as amended. Whatever the collaborators do, [handleDownloadPDF]
    never throws; without an export node or a selected template it
    changes nothing; when the rasterization call throws, the run ends
    with the toast Download Failed after the toast Generating PDF and
    with the error logged; when it returns, the run ends with the toast
    PDF Downloaded, also when the wait for the fonts was rejected. The
    same holds for the revision without the waits. *)
Theorem export_outcomes
    (Outside Element : Type)
    (html2pdf_save : CVBuilder.Options -> Element -> CVBuilder.Collaborator Outside)
    (fontsInDocument : bool) (fonts_ready : CVBuilder.Collaborator Outside)
    (imagesSettled : Element -> Outside -> Outside)
    (pb : option (list string)) (exportRef : option Element)
    (selectedTemplate : option string) (w : CVBuilder.World Outside) :
  let run := CVBuilder.handleDownloadPDF Outside Element html2pdf_save fontsInDocument
               fonts_ready imagesSettled pb exportRef selectedTemplate w in
  let direct := CVBuilder.handleDownloadPDF_direct Outside Element html2pdf_save
                  exportRef selectedTemplate w in
  let x0 := atCapture Outside Element fontsInDocument fonts_ready imagesSettled in
  (fst run = CVBuilder.Returned tt /\ fst direct = CVBuilder.Returned tt)
  /\ (exportRef = None \/ CVBuilder.selected selectedTemplate = false ->
      run = (CVBuilder.Returned tt, w) /\ direct = (CVBuilder.Returned tt, w))
  /\ (forall element err x,
        exportRef = Some element -> CVBuilder.selected selectedTemplate = true ->
        html2pdf_save (CVBuilder.opt pb) element (x0 element (CVBuilder.outside w))
        = (CVBuilder.Thrown err, x) ->
        snd run
        = {| CVBuilder.toasts :=
               CVBuilder.toasts w ++ [CVBuilder.generating; CVBuilder.failed];
             CVBuilder.errors :=
               CVBuilder.errors w ++ [("Error generating PDF:", err)];
             CVBuilder.outside := x |})
  /\ (forall element x,
        exportRef = Some element -> CVBuilder.selected selectedTemplate = true ->
        html2pdf_save (CVBuilder.opt pb) element (x0 element (CVBuilder.outside w))
        = (CVBuilder.Returned tt, x) ->
        snd run
        = {| CVBuilder.toasts :=
               CVBuilder.toasts w ++ [CVBuilder.generating; CVBuilder.downloaded];
             CVBuilder.errors := CVBuilder.errors w;
             CVBuilder.outside := x |})
  /\ (forall element err x,
        exportRef = Some element -> CVBuilder.selected selectedTemplate = true ->
        html2pdf_save (CVBuilder.opt None) element (CVBuilder.outside w)
        = (CVBuilder.Thrown err, x) ->
        snd direct
        = {| CVBuilder.toasts :=
               CVBuilder.toasts w ++ [CVBuilder.generating; CVBuilder.failed];
             CVBuilder.errors :=
               CVBuilder.errors w ++ [("Error generating PDF:", err)];
             CVBuilder.outside := x |}).
Proof.
  cbv zeta. split; [|split; [|split; [|split]]].
  - destruct exportRef as [element|];
      [destruct (CVBuilder.selected selectedTemplate) eqn:H|].
    + destruct (export_run Outside Element html2pdf_save fontsInDocument fonts_ready
                  imagesSettled pb element selectedTemplate w H) as [-> ->].
      split; reflexivity.
    + destruct (export_noop Outside Element html2pdf_save fontsInDocument fonts_ready
                  imagesSettled pb (Some element) selectedTemplate w (or_intror H))
        as [-> ->].
      split; reflexivity.
    + destruct (export_noop Outside Element html2pdf_save fontsInDocument fonts_ready
                  imagesSettled pb None selectedTemplate w (or_introl eq_refl))
        as [-> ->].
      split; reflexivity.
  - apply export_noop.
  - intros element err x -> H Hs.
    destruct (export_run Outside Element html2pdf_save fontsInDocument fonts_ready
                imagesSettled pb element selectedTemplate w H) as [-> _].
    cbn [snd]. rewrite Hs. reflexivity.
  - intros element x -> H Hs.
    destruct (export_run Outside Element html2pdf_save fontsInDocument fonts_ready
                imagesSettled pb element selectedTemplate w H) as [-> _].
    cbn [snd]. rewrite Hs. reflexivity.
  - intros element err x -> H Hs.
    destruct (export_run Outside Element html2pdf_save fontsInDocument fonts_ready
                imagesSettled pb element selectedTemplate w H) as [_ ->].
    cbn [snd]. rewrite Hs. reflexivity.
Qed.

(** A capture that throws, a capture that returns, a run without an
    export node, and a throwing capture without the waits. *)
Lemma export_outcomes_witness :
  let failing : CVBuilder.Options -> unit -> CVBuilder.Collaborator unit :=
    fun _ _ => Samples.throws "canvas is tainted" in
  let working : CVBuilder.Options -> unit -> CVBuilder.Collaborator unit :=
    fun _ _ => Samples.succeeds in
  let export save ref :=
    CVBuilder.handleDownloadPDF unit unit save true Samples.succeeds
      (fun _ x => x) None ref (Some "professional") Samples.world0 in
  let failure :=
    {| CVBuilder.toasts := [CVBuilder.generating; CVBuilder.failed];
       CVBuilder.errors := [("Error generating PDF:", JS.VStr "canvas is tainted")];
       CVBuilder.outside := tt |} in
  CVBuilder.selected (Some "professional") = true
  /\ failing (CVBuilder.opt None) tt tt
     = (CVBuilder.Thrown (JS.VStr "canvas is tainted"), tt)
  /\ snd (export failing (Some tt)) = failure
  /\ snd (export working (Some tt))
     = {| CVBuilder.toasts := [CVBuilder.generating; CVBuilder.downloaded];
          CVBuilder.errors := [];
          CVBuilder.outside := tt |}
  /\ export working None = (CVBuilder.Returned tt, Samples.world0)
  /\ snd (CVBuilder.handleDownloadPDF_direct unit unit failing (Some tt)
             (Some "professional") Samples.world0) = failure.
Proof.
  cbv zeta. split; [reflexivity|]. split; [reflexivity|].
  split.
  { exact (proj1 (proj2 (proj2
             (export_outcomes unit unit (fun _ _ => Samples.throws "canvas is tainted")
                true Samples.succeeds (fun _ x => x) None (Some tt)
                (Some "professional") Samples.world0)))
             tt (JS.VStr "canvas is tainted") tt eq_refl eq_refl eq_refl). }
  split.
  { exact (proj1 (proj2 (proj2 (proj2
             (export_outcomes unit unit (fun _ _ => Samples.succeeds)
                true Samples.succeeds (fun _ x => x) None (Some tt)
                (Some "professional") Samples.world0))))
             tt tt eq_refl eq_refl eq_refl). }
  split.
  { exact (proj1 (proj1 (proj2
             (export_outcomes unit unit (fun _ _ => Samples.succeeds)
                true Samples.succeeds (fun _ x => x) None None
                (Some "professional") Samples.world0))
             (or_introl eq_refl))). }
  exact (proj2 (proj2 (proj2 (proj2
           (export_outcomes unit unit (fun _ _ => Samples.throws "canvas is tainted")
              true Samples.succeeds (fun _ x => x) None (Some tt)
              (Some "professional") Samples.world0))))
           tt (JS.VStr "canvas is tainted") tt eq_refl eq_refl eq_refl).
Defined.

(** C7, the claim as stated fails: the wait for the fonts is a step of
    the export and it throws, yet the run ends with the toast PDF
    Downloaded and without the failure toast. *)
Lemma rejected_font_wait_is_not_a_failure :
  let run := CVBuilder.handleDownloadPDF unit unit
               (fun _ _ => Samples.succeeds) true
               (Samples.throws "font loading failed") (fun _ x => x)
               (Some ["css"; "legacy"]) (Some tt) (Some "professional")
               Samples.world0 in
  fst (Samples.throws "font loading failed" tt)
  = CVBuilder.Thrown (JS.VStr "font loading failed")
  /\ run = (CVBuilder.Returned tt,
            {| CVBuilder.toasts := [CVBuilder.generating; CVBuilder.downloaded];
               CVBuilder.errors := [];
               CVBuilder.outside := tt |})
  /\ ~ In CVBuilder.failed (CVBuilder.toasts (snd run)).
Proof.
  cbv zeta. split; [reflexivity|]. split; [reflexivity|].
  simpl. intros [H | [H | []]]; discriminate H.
Qed.

(* ===================================================================== *)
(** * The editor *)
(* ===================================================================== *)

Section StringFacts.
Import CVEditor.

Lemma split_cons sep s : exists h t, split sep s = h :: t.
Proof.
  induction s as [|c r IH]; simpl; [eauto|].
  destruct (Ascii.eqb c sep); [eauto|].
  destruct IH as (h & t & ->). eauto.
Qed.

Lemma join_split sep s : join (String sep "") (split sep s) = s.
Proof.
  unfold join. induction s as [|c r IH]; simpl; [reflexivity|].
  destruct (Ascii.eqb c sep) eqn:E.
  - apply Ascii.eqb_eq in E. subst c.
    destruct (split_cons sep r) as (h & t & Hs). rewrite Hs in *.
    change (String.concat (String sep "") ("" :: h :: t))
      with (String sep (String.concat (String sep "") (h :: t))).
    now rewrite IH.
  - destruct (split_cons sep r) as (h & t & Hs). rewrite Hs in *.
    destruct t; simpl in *; now rewrite <- IH.
Qed.

Lemma split_plain sep s : mentions sep s = false -> split sep s = [s].
Proof.
  induction s as [|c r IH]; simpl; [reflexivity|].
  intros H. apply orb_false_iff in H as [-> H]. now rewrite IH.
Qed.

Lemma split_app sep a b :
  mentions sep a = false ->
  split sep (a ++ String sep b) = a :: split sep b.
Proof.
  induction a as [|c r IH]; simpl; intros H.
  - now rewrite Ascii.eqb_refl.
  - apply orb_false_iff in H as [-> H]. now rewrite IH.
Qed.

Lemma split_join sep x l :
  Forall (fun s => mentions sep s = false) (x :: l) ->
  split sep (join (String sep "") (x :: l)) = x :: l.
Proof.
  unfold join. revert x. induction l as [|y l IH]; intros x H.
  - simpl. apply split_plain. now inversion H.
  - inversion H; subst. cbn [String.concat].
    change (String sep "" ++ ?s)%string with (String sep s).
    rewrite split_app by assumption. f_equal. now apply IH.
Qed.

Lemma prefix_app p s : String.prefix p (p ++ s) = true.
Proof.
  induction p as [|c p IH]; simpl; [now destruct s|].
  destruct (ascii_dec c c); [assumption | congruence].
Qed.

Lemma prefix_split p s : String.prefix p s = true -> exists r, s = (p ++ r)%string.
Proof.
  revert s. induction p as [|c p IH]; intros s H; [now exists s|].
  destruct s as [|c' s]; [discriminate|]. simpl in H.
  destruct (ascii_dec c c') as [E|]; [subst c'|discriminate].
  destruct (IH _ H) as [r ->]. now exists r.
Qed.

Lemma drop_app p s : drop (String.length p) (p ++ s) = s.
Proof. induction p; simpl; [now destruct s | assumption]. Qed.

Lemma replace_unfold pat rep s :
  replace pat rep s =
  if String.prefix pat s then (rep ++ drop (String.length pat) s)%string
  else match s with
       | EmptyString => ""
       | String c r => String c (replace pat rep r)
       end.
Proof. now destruct s. Qed.

Lemma replace_prefix p s : replace p "" (p ++ s) = s.
Proof. rewrite replace_unfold, prefix_app. simpl. apply drop_app. Qed.

Lemma entryKey_app c id field :
  entryKey c id field = (c ++ String dot (id ++ String dot field))%string.
Proof. reflexivity. Qed.

Lemma split_entryKey c id field :
  mentions dot c = false -> mentions dot id = false -> mentions dot field = false ->
  split dot (entryKey c id field) = [c; id; field].
Proof.
  intros Hc Hi Hf. rewrite entryKey_app, !split_app by assumption.
  now rewrite split_plain.
Qed.
End StringFacts.

Section FocusFacts.
Import JS CVEditor.

Lemma assoc_mark k k' fields :
  assoc k' (map (fun kv => (fst kv, VBool (snd kv))) (mark k fields)) =
  if k' =? k then Some (VBool true)
  else assoc k' (map (fun kv => (fst kv, VBool (snd kv))) fields).
Proof.
  induction fields as [|[k0 b] rest IH]; simpl.
  - now destruct (k' =? k).
  - destruct (k0 =? k) eqn:E0; simpl.
    + apply String.eqb_eq in E0. subst k0.
      now destruct (k' =? k).
    + rewrite IH. destruct (k' =? k0) eqn:E1; [|reflexivity].
      apply String.eqb_eq in E1. subst k0. now rewrite E0.
Qed.

Lemma edited_mark k fields : edited (mark k fields) k = true.
Proof. unfold edited, get. now rewrite assoc_mark, String.eqb_refl. Qed.

Lemma edited_mark_other k k' fields :
  k' <> k -> edited (mark k fields) k' = edited fields k'.
Proof.
  intros H. unfold edited, get. rewrite assoc_mark.
  apply String.eqb_neq in H. now rewrite H.
Qed.

Lemma clearEntry_entryKey update c id field d :
  mentions dot c = false -> mentions dot id = false -> mentions dot field = false ->
  clearEntry update (entryKey c id field) d = update id field "" d.
Proof.
  intros Hc Hi Hf. unfold clearEntry. now rewrite split_entryKey.
Qed.

Lemma clearWorkEntry_entryKey id field d :
  mentions dot id = false -> mentions dot field = false ->
  clearWorkEntry (entryKey "workExperience" id field) d =
  updateWorkExperience id field
    (if field =? "responsibilities" then FStrings [""] else FString "") d.
Proof.
  intros Hi Hf. unfold clearWorkEntry.
  rewrite split_entryKey by (assumption || reflexivity).
  cbn [nth_error propertyKey].
  destruct (field =? "responsibilities") eqn:E; [|reflexivity].
  apply String.eqb_eq in E. now subst field.
Qed.
End FocusFacts.

Section FocusTheorems.
Import JS CVEditor.





(** The first focus under the key of the check box of a job: the empty
    string goes into [current], which the preview reads as a job that is
    over. *)
Example first_focus_current_key :
  let job := Samples.presentJob in
  let st := {| cvData := withWorkExperience [job] Samples.initialCVData;
               editedFields := [] |} in
  exists st',
    handleFieldFocus "workExperience.1.current" st = Some st'
    /\ map current (workExperience (cvData st')) = [VStr ""]
    /\ map (fun exp => truthy (current exp)) (workExperience (cvData st')) = [false].
Proof. cbv zeta. eexists. split; [reflexivity|]. split; reflexivity. Qed.

End FocusTheorems.

Section FirstFocus.
Import JS CVEditor.

(** Settle the tests of the dispatch of [handleFieldFocus] for a key that
    starts with the text [p]. *)
Ltac dispatch p rest :=
  unfold handleFieldFocus;
  match goal with
  | H : edited _ _ = false |- _ => rewrite H
  end;
  repeat match goal with
  | |- context [startsWith ?q ?k] =>
      first [ replace (startsWith q k) with false by reflexivity
            | replace (startsWith q k) with true
                by (symmetry; exact (prefix_app p rest)) ]
  | |- context [?k =? "summary"] =>
      replace (k =? "summary") with false by reflexivity
  end.

(** The first focus on the key of a field of an entry, for an id and a
    field name without a dot: the key is marked as edited and the field
    is emptied in every entry of the collection that carries the id (for
    the responsibilities: set to one empty line). *)
Lemma focus_on_entry_key (id field : string) (st : Store) :
  mentions dot id = false ->
  mentions dot field = false ->
  let focused (collection : string) (changed : option CVData) :=
    edited (editedFields st) (entryKey collection id field) = false ->
    handleFieldFocus (entryKey collection id field) st =
    option_map
      (fun d => {| cvData := d;
                   editedFields := mark (entryKey collection id field) (editedFields st) |})
      changed in
  focused "workExperience"
    (updateWorkExperience id field
       (if field =? "responsibilities" then FStrings [""] else FString "") (cvData st))
  /\ focused "education" (Some (updateEducation id field "" (cvData st)))
  /\ focused "skills" (Some (updateSkill id field "" (cvData st)))
  /\ focused "languages" (Some (updateLanguage id field "" (cvData st)))
  /\ focused "certifications" (Some (updateCertification id field "" (cvData st)))
  /\ focused "references" (Some (updateReference id field "" (cvData st))).
Proof.
  intros Hi Hf focused. subst focused. cbv beta.
  repeat split; intros Hfresh.
  - dispatch "workExperience." (id ++ String dot field)%string.
    now rewrite clearWorkEntry_entryKey.
  - dispatch "education." (id ++ String dot field)%string.
    now rewrite clearEntry_entryKey.
  - dispatch "skills." (id ++ String dot field)%string.
    now rewrite clearEntry_entryKey.
  - dispatch "languages." (id ++ String dot field)%string.
    now rewrite clearEntry_entryKey.
  - dispatch "certifications." (id ++ String dot field)%string.
    now rewrite clearEntry_entryKey.
  - dispatch "references." (id ++ String dot field)%string.
    now rewrite clearEntry_entryKey.
Qed.

(** An id with a dot in it is cut at the dot: the first focus marks the
    key and clears nothing of the entry. *)
Example first_focus_dotted_id :
  let skill := {| sk_id := "1.5"; sk_name := "Go"; level := "Expert" |} in
  let data := withSkills [skill] Samples.initialCVData in
  handleFieldFocus (entryKey "skills" "1.5" "name") {| cvData := data; editedFields := [] |}
  = Some {| cvData := data; editedFields := [("skills.1.5.name", true)] |}.
Proof. reflexivity. Qed.

(** The first focus on a key of the personal information or on the key
    of the summary: the key is marked and the field emptied. *)
Lemma focus_on_personal_key (field : string) (st : Store) :
  let focused (key : string) (changed : CVData) :=
    edited (editedFields st) key = false ->
    handleFieldFocus key st =
    Some {| cvData := changed; editedFields := mark key (editedFields st) |} in
  focused ("personalInfo." ++ field)%string (updatePersonalInfo field "" (cvData st))
  /\ focused "summary" (updateSummary "" (cvData st)).
Proof.
  cbv zeta beta. split; intros Hfresh.
  - unfold handleFieldFocus. rewrite Hfresh.
    unfold startsWith. rewrite prefix_app, replace_prefix. reflexivity.
  - unfold handleFieldFocus. rewrite Hfresh. reflexivity.
Qed.
End FirstFocus.

Section EntryFacts.
Import JS CVEditor.

Lemma filter_absent {A} (idOf : A -> string) id (l : list A) :
  carries idOf id l = false -> filter (fun e => negb (idOf e =? id)) l = l.
Proof.
  unfold carries. induction l as [|x l IH]; simpl; [reflexivity|].
  intros H. apply orb_false_iff in H as [-> H]. simpl. now rewrite IH.
Qed.

Lemma carries_filter {A} (idOf : A -> string) id (l : list A) :
  carries idOf id (filter (fun e => negb (idOf e =? id)) l) = false.
Proof.
  unfold carries. induction l as [|x l IH]; simpl; [reflexivity|].
  destruct (idOf x =? id) eqn:E; simpl; [assumption|]. now rewrite E.
Qed.

Lemma filter_app_one {A} (idOf : A -> string) id (l : list A) x :
  idOf x = id ->
  filter (fun e => negb (idOf e =? id)) (l ++ [x]) = filter (fun e => negb (idOf e =? id)) l.
Proof.
  intros H. rewrite filter_app. simpl. rewrite H, String.eqb_refl. simpl.
  apply app_nil_r.
Qed.

Lemma map_absent {A} (idOf : A -> string) id (f : A -> A) (l : list A) :
  carries idOf id l = false -> map (fun e => if idOf e =? id then f e else e) l = l.
Proof.
  unfold carries. induction l as [|x l IH]; simpl; [reflexivity|].
  intros H. apply orb_false_iff in H as [-> H]. now rewrite IH.
Qed.

Lemma mapM_absent {A} (idOf : A -> string) id (f : A -> option A) (l : list A) :
  carries idOf id l = false ->
  mapM (fun e => if idOf e =? id then f e else Some e) l = Some l.
Proof.
  unfold carries. induction l as [|x l IH]; simpl; [reflexivity|].
  intros H. apply orb_false_iff in H as [-> H]. now rewrite IH.
Qed.

Lemma mapM_total {A} (f : A -> option A) (g : A -> A) (l : list A) :
  (forall e, f e = Some (g e)) -> mapM f l = Some (map g l).
Proof.
  intros H. induction l as [|x l IH]; simpl; [reflexivity|]. now rewrite H, IH.
Qed.
End EntryFacts.

Section EntryTheorems.
Import JS CVEditor.

Ltac same_data d := destruct d; cbn; f_equal.

(** X2. An id that no entry of the collection carries: deleting it and
    updating a field under it both hand the data back unchanged, in each
    of the six collections. *)
Theorem absent_id_changes_nothing (id field value : string) (v : FieldValue) (d : CVData) :
  (carries we_id id (workExperience d) = false ->
   deleteWorkExperience id d = d /\ updateWorkExperience id field v d = Some d)
  /\ (carries ed_id id (education d) = false ->
      deleteEducation id d = d /\ updateEducation id field value d = d)
  /\ (carries sk_id id (skills d) = false ->
      deleteSkill id d = d /\ updateSkill id field value d = d)
  /\ (carries la_id id (languages d) = false ->
      deleteLanguage id d = d /\ updateLanguage id field value d = d)
  /\ (carries ce_id id (certifications d) = false ->
      deleteCertification id d = d /\ updateCertification id field value d = d)
  /\ (carries re_id id (references d) = false ->
      deleteReference id d = d /\ updateReference id field value d = d).
Proof.
  repeat match goal with |- _ /\ _ => split end; intros H; split.
  - unfold deleteWorkExperience. rewrite filter_absent by assumption. now destruct d.
  - unfold updateWorkExperience. rewrite mapM_absent by assumption. now destruct d.
  - unfold deleteEducation. rewrite filter_absent by assumption. now destruct d.
  - unfold updateEducation. rewrite map_absent by assumption. now destruct d.
  - unfold deleteSkill. rewrite filter_absent by assumption. now destruct d.
  - unfold updateSkill. rewrite map_absent by assumption. now destruct d.
  - unfold deleteLanguage. rewrite filter_absent by assumption. now destruct d.
  - unfold updateLanguage. rewrite map_absent by assumption. now destruct d.
  - unfold deleteCertification. rewrite filter_absent by assumption. now destruct d.
  - unfold updateCertification. rewrite map_absent by assumption. now destruct d.
  - unfold deleteReference. cbv zeta. rewrite filter_absent by assumption. now destruct d.
  - unfold updateReference. cbv zeta. rewrite map_absent by assumption. now destruct d.
Qed.

Lemma absent_id_changes_nothing_witness :
  carries sk_id "s2" (skills Samples.janeDoe) = false
  /\ deleteSkill "s2" Samples.janeDoe = Samples.janeDoe
  /\ updateSkill "s2" "name" "Rust" Samples.janeDoe = Samples.janeDoe.
Proof.
  split; [reflexivity|].
  exact (proj1 (proj2 (proj2
           (absent_id_changes_nothing "s2" "name" "Rust" (FString "Rust")
              Samples.janeDoe))) eq_refl).
Defined.

(** X3. Deleting the id of an entry just added removes the new entry
    together with every older entry of that id: the result is what the
    deletion gives without the addition, and no entry carries the id
    afterwards. Two entries added at the same clock reading share their
    id. *)
Theorem delete_undoes_add (now : Z) (d : CVData) :
  let id := freshId now in
  (deleteWorkExperience id (addWorkExperience now d) = deleteWorkExperience id d
   /\ carries we_id id (workExperience (deleteWorkExperience id d)) = false)
  /\ (deleteEducation id (addEducation now d) = deleteEducation id d
      /\ carries ed_id id (education (deleteEducation id d)) = false)
  /\ (deleteSkill id (addSkill now d) = deleteSkill id d
      /\ carries sk_id id (skills (deleteSkill id d)) = false)
  /\ (deleteLanguage id (addLanguage now d) = deleteLanguage id d
      /\ carries la_id id (languages (deleteLanguage id d)) = false)
  /\ (deleteCertification id (addCertification now d) = deleteCertification id d
      /\ carries ce_id id (certifications (deleteCertification id d)) = false)
  /\ (deleteReference id (addReference now d) = deleteReference id d
      /\ carries re_id id (references (deleteReference id d)) = false).
Proof.
  cbv zeta.
  unfold deleteWorkExperience, addWorkExperience, deleteEducation, addEducation,
    deleteSkill, addSkill, deleteLanguage, addLanguage, deleteCertification,
    addCertification, deleteReference, addReference.
  cbn [workExperience education skills languages certifications references
       withWorkExperience withEducation withSkills withLanguages
       withCertifications withReferences personalInfo summary].
  rewrite !filter_app_one by reflexivity.
  repeat split; apply carries_filter.
Qed.
End EntryTheorems.

Section UpdateTheorems.
Import JS CVEditor.

Lemma onlyTouches_map {A} (idOf : A -> string) id (f : A -> A) l :
  (forall e, idOf (f e) = idOf e) ->
  onlyTouches idOf id l (map (fun e => if idOf e =? id then f e else e) l).
Proof.
  intros Hid. split.
  - rewrite map_map. apply map_ext. intros e.
    destruct (idOf e =? id); [apply Hid | reflexivity].
  - intros i e He Hne. rewrite nth_error_map, He. cbn.
    apply String.eqb_neq in Hne. now rewrite Hne.
Qed.

Lemma onlyTouches_mapM {A} (idOf : A -> string) id (f : A -> option A) l l' :
  (forall e e', f e = Some e' -> idOf e' = idOf e) ->
  mapM (fun e => if idOf e =? id then f e else Some e) l = Some l' ->
  onlyTouches idOf id l l'.
Proof.
  intros Hid. revert l'. induction l as [|x l IH]; intros l' H; simpl in H.
  - injection H as <-. split; [reflexivity|]. intros [|i] e; discriminate.
  - destruct (if idOf x =? id then f x else Some x) as [y|] eqn:Ey; [|discriminate].
    destruct (mapM _ l) as [ys|]; [|discriminate]. injection H as <-.
    destruct (IH ys eq_refl) as [Hm Hn]. split.
    + cbn. f_equal; [|assumption].
      destruct (idOf x =? id); [now apply Hid | now injection Ey as <-].
    + intros [|i] e He Hne; cbn in *.
      * injection He as ->. apply String.eqb_neq in Hne. rewrite Hne in Ey. now symmetry.
      * now apply Hn.
Qed.

Lemma put_other field value name old : field <> name -> put field value name old = old.
Proof. intros H. unfold put. apply String.eqb_neq in H. now rewrite H. Qed.

Lemma setWorkField_id field v e e' :
  field <> "id" -> setWorkField field v e = Some e' -> we_id e' = we_id e.
Proof.
  intros Hf. unfold setWorkField.
  destruct (field =? "current"); [destruct v; intros [= <-] || discriminate; reflexivity|].
  destruct (field =? "responsibilities");
    [destruct v; intros [= <-] || discriminate; reflexivity|].
  destruct (existsb _ _); [|now intros [= <-]].
  destruct v; intros [= <-] || discriminate. cbn. now apply put_other.
Qed.

(** X4. Updating a field other than the id, in any of the six
    collections: the ids of the collection and their order stay as they
    are, every entry that does not carry the id stays as it is, and the
    rest of the data is untouched. *)
Theorem update_keeps_ids_and_other_entries (id field value : string) (d : CVData) :
  field <> "id" ->
  (forall v d', updateWorkExperience id field v d = Some d' ->
     onlyTouches we_id id (workExperience d) (workExperience d')
     /\ withWorkExperience (workExperience d) d' = d)
  /\ (onlyTouches ed_id id (education d) (education (updateEducation id field value d))
      /\ withEducation (education d) (updateEducation id field value d) = d)
  /\ (onlyTouches sk_id id (skills d) (skills (updateSkill id field value d))
      /\ withSkills (skills d) (updateSkill id field value d) = d)
  /\ (onlyTouches la_id id (languages d) (languages (updateLanguage id field value d))
      /\ withLanguages (languages d) (updateLanguage id field value d) = d)
  /\ (onlyTouches ce_id id (certifications d)
        (certifications (updateCertification id field value d))
      /\ withCertifications (certifications d) (updateCertification id field value d) = d)
  /\ (onlyTouches re_id id (references d) (references (updateReference id field value d))
      /\ withReferences (references d) (updateReference id field value d) = d).
Proof.
  intros Hf. split.
  - intros v d' H. unfold updateWorkExperience in H.
    destruct (mapM _ _) as [l|] eqn:El; [|discriminate]. injection H as <-.
    split; [|now destruct d].
    cbn. eapply onlyTouches_mapM; [|exact El].
    intros e e'. now apply setWorkField_id.
  - repeat match goal with |- _ /\ _ => split end;
      try (now destruct d);
      apply onlyTouches_map; intros e; cbn; now apply put_other.
Qed.

Lemma update_keeps_ids_and_other_entries_witness :
  "name" <> "id"
  /\ onlyTouches sk_id "s1" (skills Samples.janeDoe)
       (skills (updateSkill "s1" "name" "Rust" Samples.janeDoe)).
Proof.
  assert (H : "name" <> "id") by discriminate.
  split; [exact H|].
  exact (proj1 (proj1 (proj2 (proj2
           (update_keeps_ids_and_other_entries "s1" "name" "Rust" Samples.janeDoe H))))).
Defined.
End UpdateTheorems.

Section TextArea.
Import JS CVEditor.

(** X5. The text typed into the text area of the responsibilities of a
    job is stored as its lines, and the text area of every job with that
    id then shows the typed text again, character for character; the ids
    and the other jobs are as before. *)
Theorem typed_responsibilities_are_shown (typed id : string) (d : CVData) :
  exists d',
    updateWorkExperience id "responsibilities" (responsibilitiesOf typed) d = Some d'
    /\ onlyTouches we_id id (workExperience d) (workExperience d')
    /\ forall exp, In exp (workExperience d') -> we_id exp = id ->
         responsibilitiesText exp = typed.
Proof.
  set (g := fun exp : WorkExperience =>
              if we_id exp =? id
              then {| we_id := we_id exp; we_jobTitle := we_jobTitle exp;
                      company := company exp; we_startDate := we_startDate exp;
                      we_endDate := we_endDate exp; current := current exp;
                      responsibilities := split newline typed |}
              else exp).
  assert (E : updateWorkExperience id "responsibilities" (responsibilitiesOf typed) d
              = Some (withWorkExperience (map g (workExperience d)) d)).
  { unfold updateWorkExperience. erewrite mapM_total; [reflexivity|].
    intros e. unfold g. now destruct (we_id e =? id). }
  eexists. split; [exact E|]. split.
  - eapply onlyTouches_mapM with (f := setWorkField "responsibilities"
                                          (responsibilitiesOf typed)).
    + intros e e'. apply setWorkField_id. discriminate.
    + unfold updateWorkExperience in E.
      destruct (mapM _ _) as [l|]; [|discriminate]. now injection E as ->.
  - cbn. intros exp Hin Hid. apply in_map_iff in Hin as (e & <- & _).
    unfold g in *. destruct (we_id e =? id) eqn:Ee.
    + unfold responsibilitiesText. cbn. apply join_split.
    + apply String.eqb_neq in Ee. contradiction.
Qed.

(** X6. The stored responsibilities of a job, none of which holds a line
    break, come back unchanged from the text area: splitting the text the
    text area shows gives the stored list again. An empty list comes back
    as one empty line. *)
Theorem stored_responsibilities_survive_the_text_area (exp : WorkExperience) :
  Forall (fun r => mentions newline r = false) (responsibilities exp) ->
  responsibilitiesOf (responsibilitiesText exp) =
  FStrings (if nonEmpty (responsibilities exp) then responsibilities exp else [""]).
Proof.
  unfold responsibilitiesOf, responsibilitiesText.
  destruct (responsibilities exp) as [|r l]; intros H; cbn [nonEmpty].
  - reflexivity.
  - now rewrite split_join.
Qed.

Lemma stored_responsibilities_survive_the_text_area_witness :
  Forall (fun r => mentions newline r = false) (responsibilities EditorSamples.twoLines)
  /\ responsibilitiesOf (responsibilitiesText EditorSamples.twoLines)
     = FStrings ["Developed web applications"; "Implemented APIs"].
Proof.
  assert (H : Forall (fun r => mentions newline r = false)
                (responsibilities EditorSamples.twoLines))
    by (repeat constructor).
  split; [exact H|].
  exact (stored_responsibilities_survive_the_text_area EditorSamples.twoLines H).
Defined.
End TextArea.

Section EditorAndProgress.
Import JS CVEditor CVProgress.

Lemma flag_add {A} (pred : A -> value) (l : list A) x :
  truthy (pred x) = false ->
  and (VBool (nonEmpty (l ++ [x]))) (VBool (some pred (l ++ [x])))
  = and (VBool (nonEmpty l)) (VBool (some pred l)).
Proof.
  intros H. unfold some. rewrite existsb_app. cbn [existsb]. rewrite H, !orb_false_r.
  destruct l; reflexivity.
Qed.

(** X7. Adding an entry with the Add button of any of the six
    collections leaves the result of the progress evaluator as it is: the
    new entry is blank, so it completes no section. *)
Theorem added_entries_keep_the_completeness (now : Z) (d : CVData) :
  calculateCompleteness (addWorkExperience now d) = calculateCompleteness d
  /\ calculateCompleteness (addEducation now d) = calculateCompleteness d
  /\ calculateCompleteness (addSkill now d) = calculateCompleteness d
  /\ calculateCompleteness (addLanguage now d) = calculateCompleteness d
  /\ calculateCompleteness (addCertification now d) = calculateCompleteness d
  /\ calculateCompleteness (addReference now d) = calculateCompleteness d.
Proof.
  unfold calculateCompleteness.
  cbn [addWorkExperience addEducation addSkill addLanguage addCertification addReference
       withWorkExperience withEducation withSkills withLanguages withCertifications
       withReferences personalInfo summary workExperience education skills].
  rewrite !flag_add by reflexivity. repeat split.
Qed.

Lemma flag_truthy {A} (pred : A -> value) (l : list A) :
  truthy (and (VBool (nonEmpty l)) (VBool (some pred l))) = some pred l.
Proof. destruct l; reflexivity. Qed.

Lemma flag_delete {A} (pred : A -> value) (keep : A -> bool) (l : list A) :
  truthy (and (VBool (nonEmpty (filter keep l))) (VBool (some pred (filter keep l)))) = true ->
  truthy (and (VBool (nonEmpty l)) (VBool (some pred l))) = true.
Proof.
  rewrite !flag_truthy. unfold some. rewrite !existsb_exists.
  intros (x & Hin & Hx). exists x. apply filter_In in Hin. now split.
Qed.

Lemma count_le (a b c d e a' b' c' d' e' : bool) :
  (a' = true -> a = true) -> (b' = true -> b = true) -> (c' = true -> c = true) ->
  (d' = true -> d = true) -> (e' = true -> e = true) ->
  (Z.b2z a' + Z.b2z b' + Z.b2z c' + Z.b2z d' + Z.b2z e'
   <= Z.b2z a + Z.b2z b + Z.b2z c + Z.b2z d + Z.b2z e)%Z.
Proof.
  destruct a', b', c', d', e'; intros Ha Hb Hc Hd He;
    rewrite ?Ha, ?Hb, ?Hc, ?Hd, ?He by reflexivity;
    destruct a, b, c, d, e; cbn; lia.
Qed.

Lemma completed_flags d :
  completed (calculateCompleteness d)
  = let flag i := Z.b2z (truthy (nth i (map complete (sections (calculateCompleteness d)))
                                     VUndefined)) in
    (flag 0%nat + flag 1%nat + flag 2%nat + flag 3%nat + flag 4%nat)%Z.
Proof.
  unfold completed, calculateCompleteness. cbn [percentage sections filter complete map nth].
  repeat match goal with
         | |- context [truthy ?v] => destruct (truthy v)
         end; reflexivity.
Qed.

(** X8. Deleting an entry never raises the percentage of the progress
    evaluator, in any of the six collections. *)
Theorem deleting_never_raises_the_percentage (id : string) (d : CVData) :
  let below d' :=
    (percentage (calculateCompleteness d') <= percentage (calculateCompleteness d))%Z in
  below (deleteWorkExperience id d) /\ below (deleteEducation id d)
  /\ below (deleteSkill id d) /\ below (deleteLanguage id d)
  /\ below (deleteCertification id d) /\ below (deleteReference id d).
Proof.
  cbv zeta.
  repeat match goal with |- _ /\ _ => split end;
    match goal with
    | |- (percentage (calculateCompleteness ?d') <= _)%Z =>
        rewrite (proj2 (completed_bounds d')), (proj2 (completed_bounds d)),
          (completed_flags d'), (completed_flags d)
    end;
    cbv zeta; apply Z.mul_le_mono_nonneg_l; try lia;
    unfold calculateCompleteness; cbn [sections map complete nth];
    apply count_le; try (intros H; exact H);
    cbn [deleteWorkExperience deleteEducation deleteSkill withWorkExperience
         withEducation withSkills workExperience education skills];
    apply flag_delete.
Qed.
End EditorAndProgress.

(* ===================================================================== *)
(** * More of the rendered tree *)
(* ===================================================================== *)

(** ** The tags of each part *)

Ltac outside_cases t H :=
  unfold outside in H; destruct t; try discriminate H; clear H.

Lemma outside_titled_list {A} t c cls title listCls (f : A -> VNode) l :
  outside [div; h3] t = true ->
  (forall x, uses t (f x) = false) ->
  existsb (uses t)
    (when c [Elem div [] [Preview.sectionTitle cls title;
                          Elem div [className listCls] (map f l)]])
  = false.
Proof.
  intros Ht H. rewrite existsb_when. destruct c; [|reflexivity].
  cbn [existsb uses andb Preview.sectionTitle]. rewrite (existsb_map_false _ f l H).
  outside_cases t Ht; reflexivity.
Qed.

Section Tags.
Import Preview.
Variable cl : Closure.
Variable t : tag.

Lemma tags_workEntry sz icon cls exp :
  outside [div; h4; p; Calendar; ul; li] t = true ->
  uses t (workEntry cl sz icon cls exp) = false.
Proof.
  intros Ht. unfold workEntry, accentBar, workDates, responsibilityItems.
  destruct (JS.truthy (current exp)); outside_cases t Ht; absent.
Qed.

Lemma tags_gradeLine edu :
  outside [div] t = true -> existsb (uses t) (gradeLine edu) = false.
Proof. intros Ht. unfold gradeLine. destruct (grade edu); outside_cases t Ht; absent. Qed.

Lemma tags_educationEntryTwoColumn edu :
  outside [div; h4; p; Calendar] t = true ->
  uses t (educationEntryTwoColumn cl edu) = false.
Proof.
  intros Ht. unfold educationEntryTwoColumn, accentBar, educationDates.
  assert (Hg : existsb (uses t) (gradeLine edu) = false)
    by (apply tags_gradeLine; now outside_cases t Ht).
  outside_cases t Ht; absent; rewrite Hg; absent.
Qed.

Lemma tags_educationEntrySingleColumn edu :
  outside [div; h4; p] t = true ->
  uses t (educationEntrySingleColumn cl edu) = false.
Proof.
  intros Ht. unfold educationEntrySingleColumn, educationDates.
  assert (Hg : existsb (uses t) (gradeLine edu) = false)
    by (apply tags_gradeLine; now outside_cases t Ht).
  outside_cases t Ht; absent; rewrite Hg; absent.
Qed.

Lemma tags_skillEntry sz skill :
  outside [div; span] t = true -> uses t (skillEntry cl sz skill) = false.
Proof. intros Ht. unfold skillEntry. outside_cases t Ht; absent. Qed.

Lemma tags_languageEntry sz lang :
  outside [div; span] t = true -> uses t (languageEntry sz lang) = false.
Proof. intros Ht. unfold languageEntry. outside_cases t Ht; absent. Qed.

Lemma tags_certificationEntry icon sz cert :
  outside [div; Award] t = true -> uses t (certificationEntry cl icon sz cert) = false.
Proof. intros Ht. unfold certificationEntry, iconEntry. outside_cases t Ht; absent. Qed.

Lemma tags_referenceEntry icon sz r :
  outside [div; Users] t = true -> uses t (referenceEntry cl icon sz r) = false.
Proof. intros Ht. unfold referenceEntry, iconEntry. outside_cases t Ht; absent. Qed.

Lemma tags_summarySection cls :
  outside [div; h3; p] t = true -> existsb (uses t) (summarySection cl cls) = false.
Proof. intros Ht. unfold summarySection, sectionTitle. outside_cases t Ht; absent. Qed.

Lemma tags_workSection cls sz icon listCls :
  outside [div; h3; h4; p; Calendar; ul; li] t = true ->
  existsb (uses t) (workSection cl cls sz icon listCls) = false.
Proof.
  intros Ht. apply outside_titled_list; [|intros x; apply tags_workEntry];
    now outside_cases t Ht.
Qed.

Lemma tags_educationSectionTwoColumn :
  outside [div; h3; h4; p; Calendar] t = true ->
  existsb (uses t) (educationSectionTwoColumn cl) = false.
Proof.
  intros Ht. apply outside_titled_list; [|intros x; apply tags_educationEntryTwoColumn];
    now outside_cases t Ht.
Qed.

Lemma tags_educationSectionSingleColumn :
  outside [div; h3; h4; p] t = true ->
  existsb (uses t) (educationSectionSingleColumn cl) = false.
Proof.
  intros Ht. apply outside_titled_list; [|intros x; apply tags_educationEntrySingleColumn];
    now outside_cases t Ht.
Qed.

Lemma tags_skillsSection cls sz :
  outside [div; h3; span] t = true ->
  existsb (uses t) (skillsSection cl cls sz) = false.
Proof.
  intros Ht. apply outside_titled_list; [|intros x; apply tags_skillEntry];
    now outside_cases t Ht.
Qed.

Lemma tags_languagesSection cls sz :
  outside [div; h3; span] t = true ->
  existsb (uses t) (languagesSection cl cls sz) = false.
Proof.
  intros Ht. apply outside_titled_list; [|intros x; apply tags_languageEntry];
    now outside_cases t Ht.
Qed.

Lemma tags_certificationsSection cls sp icon sz :
  outside [div; h3; Award] t = true ->
  existsb (uses t) (certificationsSection cl cls sp icon sz) = false.
Proof.
  intros Ht. apply outside_titled_list; [|intros x; apply tags_certificationEntry];
    now outside_cases t Ht.
Qed.

Lemma tags_referencesSection cls sp icon sz :
  outside [div; h3; Users] t = true ->
  existsb (uses t) (referencesSection cl cls sp icon sz) = false.
Proof.
  intros Ht. apply outside_titled_list; [|intros x; apply tags_referenceEntry];
    now outside_cases t Ht.
Qed.

Lemma tags_contactSection :
  outside [div; h3; span; Mail; Phone; MapPin; Globe] t = true ->
  uses t (contactSection cl) = false.
Proof.
  intros Ht. unfold contactSection, contactLine, sectionTitle.
  outside_cases t Ht; absent.
Qed.

Lemma tags_inlineContacts cls :
  outside [div; Mail; Phone; MapPin] t = true ->
  uses t (inlineContacts cl cls) = false.
Proof.
  intros Ht. unfold inlineContacts, inlineContact. outside_cases t Ht; absent.
Qed.

Lemma tags_headerTwoColumn :
  outside [div; h1; p] t = true -> uses t (headerTwoColumn cl) = false.
Proof.
  intros Ht. unfold headerTwoColumn.
  destruct (id (cl_template cl) =? "minimal"); outside_cases t Ht; absent.
Qed.
End Tags.

(** ** The images *)

Lemma images_unused n : uses img n = false -> images n = [].
Proof.
  induction n as [s | t' a cs IH] using VNode_induction; simpl; [reflexivity|].
  intros H. apply orb_false_iff in H as [-> H]. simpl.
  apply flat_map_nil. exact (Forall_unused _ img cs IH H).
Qed.

Lemma images_list_unused cs : existsb (uses img) cs = false -> flat_map images cs = [].
Proof.
  intros H. apply flat_map_nil.
  apply (Forall_unused _ img cs); [|exact H].
  apply Forall_forall. intros n _. apply images_unused.
Qed.

Section Images.
Import Preview.
Variable cl : Closure.

Lemma images_photo cls label : images (photo cl cls label) = [photoSrc cl].
Proof. unfold photo, imgHandlers. destruct (cl_rev cl); reflexivity. Qed.

Lemma images_sidebar :
  images (sidebar cl) = if hasPhoto (cl_template cl) then [photoSrc cl] else [].
Proof.
  unfold sidebar. cbn [images tag_eqb app].
  repeat (rewrite ?flat_map_app, ?flat_map_when; cbn [flat_map images tag_eqb app]).
  rewrite images_photo, (images_unused (contactSection cl)) by now apply tags_contactSection.
  rewrite !images_list_unused
    by (first [ apply tags_skillsSection | apply tags_languagesSection
              | apply tags_certificationsSection | apply tags_referencesSection ];
        reflexivity).
  destruct (hasPhoto (cl_template cl)); reflexivity.
Qed.

Lemma images_content : images (content cl) = [].
Proof.
  unfold content. cbn [images tag_eqb app].
  repeat (rewrite ?flat_map_app; cbn [flat_map app]).
  rewrite (images_unused (headerTwoColumn cl)) by now apply tags_headerTwoColumn.
  rewrite !images_list_unused
    by (first [ apply tags_summarySection | apply tags_workSection
              | apply tags_educationSectionTwoColumn ]; reflexivity).
  reflexivity.
Qed.

Lemma images_twoColumnBody :
  flat_map images (twoColumnBody cl)
  = if hasPhoto (cl_template cl) then [photoSrc cl] else [].
Proof.
  unfold twoColumnBody. cbn [flat_map images tag_eqb app].
  rewrite images_sidebar, images_content, !app_nil_r. reflexivity.
Qed.

Lemma images_inlineContacts cls : images (inlineContacts cl cls) = [].
Proof. apply images_unused. now apply tags_inlineContacts. Qed.

Lemma images_headerSingleColumn :
  images (headerSingleColumn cl)
  = if hasPhoto (cl_template cl) then [photoSrc cl] else [].
Proof.
  unfold headerSingleColumn. cbn [images tag_eqb app].
  destruct (id (cl_template cl) =? "minimal"); cbn [negb when app];
    repeat (rewrite ?flat_map_app, ?flat_map_when; cbn [flat_map images tag_eqb app]);
    rewrite ?images_photo, ?images_inlineContacts;
    rewrite ?images_list_unused by apply existsb_text;
    destruct (hasPhoto (cl_template cl)); reflexivity.
Qed.

Lemma images_singleColumnBody :
  flat_map images (singleColumnBody cl)
  = if hasPhoto (cl_template cl) then [photoSrc cl] else [].
Proof.
  unfold singleColumnBody.
  repeat (rewrite ?flat_map_app; cbn [flat_map images tag_eqb app]).
  rewrite images_headerSingleColumn.
  rewrite !images_list_unused
    by (first [ apply tags_summarySection | apply tags_workSection
              | apply tags_educationSectionSingleColumn | apply tags_skillsSection
              | apply tags_languagesSection | apply tags_certificationsSection
              | apply tags_referencesSection ]; reflexivity).
  now rewrite !app_nil_r.
Qed.
End Images.

(** X9. The tree holds one image exactly when the template has a photo,
    in both layouts and both revisions; its source is the photo of the
    data, or the default avatar when the data has none. *)
Theorem one_image_when_the_template_has_a_photo (e : Platform.Engine) :
  (forall props,
     images (tree (Current.CVPreview e props))
     = if hasPhoto (Current.template props)
       then [orStr (photoUrl (personalInfo (Current.data props)))
               Preview.DEFAULT_AVATAR_URL]
       else [])
  /\ (forall props,
        images (tree (Legacy.CVPreview e props))
        = if hasPhoto (Legacy.template props)
          then [orStr (photoUrl (personalInfo (Legacy.data props)))
                  Preview.DEFAULT_AVATAR_URL]
          else []).
Proof.
  split; intros props.
  - unfold Current.CVPreview, Current.cvContent. cbn [tree].
    pose proof (images_twoColumnBody (Current.closure e props)) as H2.
    pose proof (images_singleColumnBody (Current.closure e props)) as H1.
    destruct (columns (Current.template props) =? 2)%Z, (Current.isFullPagePDF props);
      cbn [images flat_map tag_eqb app Preview.styleElem];
      rewrite ?H2, ?H1, ?app_nil_r; reflexivity.
  - unfold Legacy.CVPreview. cbn [tree].
    pose proof (images_twoColumnBody (Legacy.closure e props)) as H2.
    pose proof (images_singleColumnBody (Legacy.closure e props)) as H1.
    destruct (columns (Legacy.template props) =? 2)%Z;
      cbn [images flat_map tag_eqb app Preview.styleElem];
      rewrite ?H2, ?H1, ?app_nil_r; reflexivity.
Qed.

(** ** The tags of the headers and of the sidebar *)

Section MoreTags.
Import Preview.
Variable cl : Closure.
Variable t : tag.

Lemma tags_photo cls label : outside [img] t = true -> uses t (photo cl cls label) = false.
Proof. intros Ht. unfold photo. outside_cases t Ht; reflexivity. Qed.

Lemma tags_headerSingleColumn :
  outside [div; h1; p; img; Mail; Phone; MapPin] t = true ->
  uses t (headerSingleColumn cl) = false.
Proof.
  intros Ht. unfold headerSingleColumn.
  assert (Hc : forall cls, uses t (inlineContacts cl cls) = false)
    by (intros cls; apply tags_inlineContacts; now outside_cases t Ht).
  assert (Hp : forall cls label, uses t (photo cl cls label) = false)
    by (intros cls label; apply tags_photo; now outside_cases t Ht).
  assert (Ht' : tag_eqb t div = false /\ tag_eqb t h1 = false /\ tag_eqb t p = false)
    by (now outside_cases t Ht).
  destruct Ht' as (Hd & H1 & H2).
  destruct (id (cl_template cl) =? "minimal"), (hasPhoto (cl_template cl));
    cbn [negb when app uses existsb];
    rewrite ?Hc, ?Hp, ?Hd, ?H1, ?H2, ?existsb_text; reflexivity.
Qed.

Lemma tags_sidebar :
  outside [div; img; h3; span; Mail; Phone; MapPin; Globe; Award; Users] t = true ->
  uses t (sidebar cl) = false.
Proof.
  intros Ht. unfold sidebar. cbn [uses]. rewrite !existsb_app, existsb_when.
  cbn [existsb uses].
  rewrite tags_photo, tags_contactSection, tags_skillsSection, tags_languagesSection,
    tags_certificationsSection, tags_referencesSection
    by now outside_cases t Ht.
  outside_cases t Ht; cbn; now rewrite ?andb_false_r.
Qed.

Lemma tags_content :
  outside [div; h1; h3; h4; p; Calendar; ul; li] t = true -> uses t (content cl) = false.
Proof.
  intros Ht. unfold content. cbn [uses]. rewrite !existsb_app.
  cbn [existsb].
  rewrite tags_headerTwoColumn, tags_summarySection, tags_workSection,
    tags_educationSectionTwoColumn by now outside_cases t Ht.
  now outside_cases t Ht.
Qed.
End MoreTags.

(** ** The responsibilities *)

Lemma textsOf_titled_list {A} t c cls title listCls (f : A -> VNode) l :
  outside [div; h3] t = true ->
  flat_map (textsOf t)
    (when c [Elem div [] [Preview.sectionTitle cls title;
                          Elem div [className listCls] (map f l)]])
  = if c then flat_map (fun x => textsOf t (f x)) l else [].
Proof.
  intros Ht. rewrite flat_map_when. destruct c; [|reflexivity].
  cbn [flat_map textsOf Preview.sectionTitle].
  replace (tag_eqb t div) with false by now outside_cases t Ht.
  replace (tag_eqb t h3) with false by now outside_cases t Ht.
  cbn [app]. rewrite !app_nil_r. now rewrite flat_map_concat_map, map_map, <- flat_map_concat_map.
Qed.

Section Responsibilities.
Import Preview.
Variable cl : Closure.

Lemma blank_nonEmpty r : JS.blank r = false -> (r =? "") = false.
Proof. now destruct r. Qed.

Lemma textsOf_items i rs :
  forallb (fun r => negb (r =? "")) rs = true ->
  flat_map (textsOf li) (items i rs) = rs.
Proof.
  revert i. induction rs as [|r rs IH]; intros i H; [reflexivity|].
  cbn in H. apply andb_true_iff in H as [Hr H].
  cbn [items flat_map textsOf tag_eqb app]. rewrite ownText_text, IH by assumption.
  rewrite textsOf_list_unused by apply existsb_text. reflexivity.
Qed.

Lemma textsOf_responsibilityItems exp :
  flat_map (textsOf li) (responsibilityItems exp)
  = filter (fun r => negb (JS.blank r)) (responsibilities exp).
Proof.
  unfold responsibilityItems. apply textsOf_items.
  apply forallb_forall. intros r Hr. apply filter_In in Hr as [_ Hr].
  apply negb_true_iff in Hr. now rewrite blank_nonEmpty.
Qed.

Lemma textsOf_workEntry sz icon cls exp :
  textsOf li (workEntry cl sz icon cls exp)
  = filter (fun r => negb (JS.blank r)) (responsibilities exp).
Proof.
  unfold workEntry. cbn [textsOf tag_eqb app].
  repeat (rewrite ?flat_map_app, ?flat_map_when; cbn [flat_map textsOf tag_eqb app]).
  rewrite textsOf_responsibilityItems.
  rewrite !textsOf_list_unused
    by (unfold accentBar, workDates; destruct (JS.truthy (current exp)); absent).
  rewrite !app_nil_r.
  destruct (responsibilities exp); reflexivity.
Qed.

Lemma textsOf_workSection cls sz icon listCls :
  flat_map (textsOf li) (workSection cl cls sz icon listCls)
  = flat_map (fun exp => filter (fun r => negb (JS.blank r)) (responsibilities exp))
      (workExperience (cl_data cl)).
Proof.
  unfold workSection. rewrite textsOf_titled_list by reflexivity.
  destruct (workExperience (cl_data cl)) as [|x l]; [reflexivity|]. cbn [nonEmpty].
  apply flat_map_ext. intros exp. apply textsOf_workEntry.
Qed.

Lemma textsOf_li_twoColumnBody :
  flat_map (textsOf li) (twoColumnBody cl)
  = flat_map (fun exp => filter (fun r => negb (JS.blank r)) (responsibilities exp))
      (workExperience (cl_data cl)).
Proof.
  unfold twoColumnBody. cbn [flat_map textsOf tag_eqb app].
  rewrite (textsOf_unused li (sidebar cl)) by now apply tags_sidebar.
  unfold content. cbn [textsOf tag_eqb app].
  repeat (rewrite ?flat_map_app; cbn [flat_map app]).
  rewrite (textsOf_unused li (headerTwoColumn cl)) by now apply tags_headerTwoColumn.
  rewrite textsOf_workSection.
  rewrite !textsOf_list_unused
    by (first [ apply tags_summarySection | apply tags_educationSectionTwoColumn ];
        reflexivity).
  now rewrite !app_nil_r.
Qed.

Lemma textsOf_li_singleColumnBody :
  flat_map (textsOf li) (singleColumnBody cl)
  = flat_map (fun exp => filter (fun r => negb (JS.blank r)) (responsibilities exp))
      (workExperience (cl_data cl)).
Proof.
  unfold singleColumnBody.
  repeat (rewrite ?flat_map_app; cbn [flat_map textsOf tag_eqb app]).
  rewrite (textsOf_unused li (headerSingleColumn cl)) by now apply tags_headerSingleColumn.
  rewrite textsOf_workSection.
  rewrite !textsOf_list_unused
    by (first [ apply tags_summarySection
              | apply tags_educationSectionSingleColumn | apply tags_skillsSection
              | apply tags_languagesSection | apply tags_certificationsSection
              | apply tags_referencesSection ]; reflexivity).
  now rewrite !app_nil_r.
Qed.
End Responsibilities.

(** X10. The list items of the tree are the responsibilities of the
    jobs, job after job and in their order, without those that are empty
    or hold white space only; in both layouts and both revisions. *)
Theorem list_items_are_the_responsibilities_that_are_not_blank (e : Platform.Engine) :
  let listed (d : CVData) :=
    flat_map (fun exp => filter (fun r => negb (JS.blank r)) (responsibilities exp))
      (workExperience d) in
  (forall props,
     textsOf li (tree (Current.CVPreview e props)) = listed (Current.data props))
  /\ (forall props,
        textsOf li (tree (Legacy.CVPreview e props)) = listed (Legacy.data props)).
Proof.
  cbv zeta. split; intros props.
  - unfold Current.CVPreview, Current.cvContent. cbn [tree].
    pose proof (textsOf_li_twoColumnBody (Current.closure e props)) as H2.
    pose proof (textsOf_li_singleColumnBody (Current.closure e props)) as H1.
    destruct (columns (Current.template props) =? 2)%Z, (Current.isFullPagePDF props);
      cbn [textsOf flat_map tag_eqb app Preview.styleElem];
      rewrite ?H2, ?H1, ?app_nil_r; reflexivity.
  - unfold Legacy.CVPreview. cbn [tree].
    pose proof (textsOf_li_twoColumnBody (Legacy.closure e props)) as H2.
    pose proof (textsOf_li_singleColumnBody (Legacy.closure e props)) as H1.
    destruct (columns (Legacy.template props) =? 2)%Z;
      cbn [textsOf flat_map tag_eqb app Preview.styleElem];
      rewrite ?H2, ?H1, ?app_nil_r; reflexivity.
Qed.

(** ** The contact lines *)

Lemma shownAfter_Elem ic a attrs cs :
  shownAfter ic (Elem a attrs cs)
  = map (flat_map allTexts) (rowOf ic cs) ++ flat_map (shownAfter ic) cs.
Proof.
  unfold shownAfter. rewrite rowsAfter_Elem, map_app. f_equal.
  induction cs as [|c cs IH]; [reflexivity|].
  cbn [flat_map]. now rewrite map_app, IH.
Qed.

Lemma shownAfter_unused ic n : uses ic n = false -> shownAfter ic n = [].
Proof. intros H. unfold shownAfter. now rewrite rowsAfter_unused. Qed.

Lemma shownAfter_list_unused ic cs :
  existsb (uses ic) cs = false -> flat_map (shownAfter ic) cs = [].
Proof.
  induction cs as [|c cs IH]; [reflexivity|]. cbn. intros H.
  apply orb_false_iff in H as [Hc H]. now rewrite shownAfter_unused, IH.
Qed.

Lemma allTexts_text v : nonEmptyStr v = true -> flat_map allTexts (text v) = [v].
Proof.
  unfold nonEmptyStr, text. intros H. apply negb_true_iff in H. now rewrite H.
Qed.

Section ContactLines.
Import Preview.
Variable cl : Closure.
Variable ic : tag.
Hypothesis icon : existsb (tag_eqb ic) [Mail; Phone; MapPin; Globe] = true.

Let info : PersonalInfo := personalInfo (cl_data cl).

Ltac icon_cases := destruct ic; try discriminate icon.

Lemma contacts_contactLine ic' cls v :
  flat_map (shownAfter ic) (contactLine cl ic' cls v)
  = if tag_eqb ic ic' then line v else [].
Proof.
  unfold contactLine, line. rewrite flat_map_when.
  destruct (nonEmptyStr v) eqn:Hv; [|now destruct (tag_eqb ic ic')].
  cbn [flat_map]. rewrite !shownAfter_Elem. cbn [rowOf map flat_map allTexts].
  rewrite !shownAfter_Elem, rowOf_text. cbn [rowOf map flat_map app].
  rewrite shownAfter_list_unused by apply existsb_text.
  destruct (tag_eqb ic ic'); [|reflexivity].
  cbn [map flat_map allTexts]. now rewrite allTexts_text, !app_nil_r.
Qed.

Lemma contacts_inlineContact ic' v :
  flat_map (shownAfter ic) (inlineContact ic' v)
  = if tag_eqb ic ic' then line v else [].
Proof.
  unfold inlineContact, line. rewrite flat_map_when.
  destruct (nonEmptyStr v) eqn:Hv; [|now destruct (tag_eqb ic ic')].
  cbn [flat_map]. rewrite !shownAfter_Elem. cbn [rowOf map flat_map].
  rewrite !shownAfter_Elem. cbn [rowOf map flat_map app].
  rewrite shownAfter_list_unused by apply existsb_text.
  destruct (tag_eqb ic ic'); [|reflexivity].
  cbn [map]. now rewrite allTexts_text.
Qed.

Lemma contacts_contactSection :
  shownAfter ic (contactSection cl)
  = (if tag_eqb ic Mail then line (email info) else [])
    ++ (if tag_eqb ic Phone then line (phone info) else [])
    ++ (if tag_eqb ic MapPin then line (address info) else [])
    ++ (if tag_eqb ic Globe then line (website info) else []).
Proof.
  unfold contactSection. rewrite shownAfter_Elem.
  cbn [rowOf sectionTitle flat_map].
  replace (tag_eqb ic h3) with false by now icon_cases.
  rewrite !shownAfter_Elem. cbn [map app rowOf flat_map].
  rewrite !flat_map_app, !contacts_contactLine, !app_nil_r.
  replace (rowOf ic _) with (@nil (list VNode)); [reflexivity|].
  unfold contactLine.
  destruct (nonEmptyStr (email (personalInfo (cl_data cl)))),
    (nonEmptyStr (phone (personalInfo (cl_data cl)))),
    (nonEmptyStr (address (personalInfo (cl_data cl)))),
    (nonEmptyStr (website (personalInfo (cl_data cl)))); cbn; now icon_cases.
Qed.

Lemma contacts_inlineContacts cls :
  shownAfter ic (inlineContacts cl cls)
  = (if tag_eqb ic Mail then line (email info) else [])
    ++ (if tag_eqb ic Phone then line (phone info) else [])
    ++ (if tag_eqb ic MapPin then line (address info) else []).
Proof.
  unfold inlineContacts. rewrite shownAfter_Elem.
  rewrite !flat_map_app, !contacts_inlineContact.
  replace (rowOf ic _) with (@nil (list VNode)); [reflexivity|].
  unfold inlineContact.
  destruct (nonEmptyStr (email (personalInfo (cl_data cl)))),
    (nonEmptyStr (phone (personalInfo (cl_data cl)))),
    (nonEmptyStr (address (personalInfo (cl_data cl)))); cbn; now icon_cases.
Qed.
End ContactLines.

Section ContactLinesOfTheLayouts.
Import Preview.
Variable cl : Closure.
Variable ic : tag.
Hypothesis icon : existsb (tag_eqb ic) [Mail; Phone; MapPin; Globe] = true.

Let info : PersonalInfo := personalInfo (cl_data cl).

Ltac icon_cases := destruct ic; try discriminate icon.

Lemma contacts_sidebar : shownAfter ic (sidebar cl) = shownAfter ic (contactSection cl).
Proof.
  unfold sidebar. rewrite shownAfter_Elem.
  replace (rowOf ic _) with (@nil (list VNode))
    by (unfold contactSection; destruct (hasPhoto (cl_template cl)); cbn; now icon_cases).
  repeat (rewrite ?flat_map_app, ?flat_map_when; cbn [flat_map app map]).
  rewrite !shownAfter_list_unused
    by (first [ apply tags_skillsSection | apply tags_languagesSection
              | apply tags_certificationsSection | apply tags_referencesSection ];
        now icon_cases).
  rewrite !app_nil_r.
  destruct (hasPhoto (cl_template cl)); [|reflexivity].
  rewrite shownAfter_unused; [reflexivity|].
  cbn [uses existsb]. rewrite tags_photo by now icon_cases. now icon_cases.
Qed.

Lemma contacts_twoColumnBody :
  flat_map (shownAfter ic) (twoColumnBody cl) = shownAfter ic (contactSection cl).
Proof.
  unfold twoColumnBody. cbn [flat_map]. rewrite shownAfter_Elem.
  cbn [flat_map]. rewrite contacts_sidebar.
  rewrite (shownAfter_unused ic (content cl)) by (apply tags_content; now icon_cases).
  replace (rowOf ic _) with (@nil (list VNode))
    by (unfold sidebar; cbn; now icon_cases).
  now rewrite !app_nil_r.
Qed.

Lemma rowOf_photo cls label rest : rowOf ic (photo cl cls label :: rest) = [].
Proof. unfold photo. cbn. now icon_cases. Qed.

Lemma contacts_headerSingleColumn :
  shownAfter ic (headerSingleColumn cl) = shownAfter ic (inlineContacts cl "").
Proof.
  assert (Hc : forall cls cls', shownAfter ic (inlineContacts cl cls)
                                = shownAfter ic (inlineContacts cl cls'))
    by (intros; now rewrite !contacts_inlineContacts).
  assert (Hp : forall cls label, shownAfter ic (photo cl cls label) = [])
    by (intros; apply shownAfter_unused, tags_photo; now icon_cases).
  unfold headerSingleColumn. rewrite shownAfter_Elem.
  destruct (id (cl_template cl) =? "minimal"), (hasPhoto (cl_template cl));
    cbn [negb when app flat_map];
    rewrite ?rowOf_photo, ?shownAfter_Elem; cbn [app flat_map];
    rewrite ?rowOf_photo, ?Hp, ?shownAfter_Elem, ?rowOf_text;
    rewrite ?shownAfter_list_unused by apply existsb_text;
    cbn [rowOf map app];
    replace (tag_eqb ic div) with false by (now icon_cases);
    replace (tag_eqb ic h1) with false by (now icon_cases);
    cbn [map app]; rewrite ?app_nil_r; rewrite <- ?shownAfter_Elem; apply Hc.
Qed.

Lemma contacts_singleColumnBody :
  flat_map (shownAfter ic) (singleColumnBody cl) = shownAfter ic (inlineContacts cl "").
Proof.
  unfold singleColumnBody.
  repeat (rewrite ?flat_map_app; cbn [flat_map app]).
  rewrite contacts_headerSingleColumn, !shownAfter_Elem.
  rewrite !flat_map_app.
  rewrite !shownAfter_list_unused
    by (first [ apply tags_summarySection | apply tags_workSection
              | apply tags_educationSectionSingleColumn | apply tags_skillsSection
              | apply tags_languagesSection | apply tags_certificationsSection
              | apply tags_referencesSection ]; now icon_cases).
  replace (rowOf ic (educationSectionSingleColumn cl ++ _)) with (@nil (list VNode)).
  2:{ unfold educationSectionSingleColumn, skillsSection.
      destruct (nonEmpty (education (cl_data cl))), (nonEmpty (skills (cl_data cl)));
        cbn; now icon_cases. }
  replace (rowOf ic (languagesSection cl _ _ ++ _)) with (@nil (list VNode)).
  2:{ unfold languagesSection, certificationsSection, referencesSection.
      destruct (nonEmpty (languages (cl_data cl))),
        (nonEmpty (certifications (cl_data cl))),
        (nonEmpty (references (cl_data cl))); cbn; now icon_cases. }
  rewrite ?shownAfter_Elem. now rewrite !app_nil_r.
Qed.
End ContactLinesOfTheLayouts.

(** ** Certifications and references *)

Lemma flat_map_of_map {A B C} (g : B -> list C) (f : A -> B) l :
  flat_map g (map f l) = flat_map (fun x => g (f x)) l.
Proof. induction l as [|x l IH]; [reflexivity|]. cbn. now rewrite IH. Qed.

Lemma shownAfter_titled_list {A} ic c cls title listCls (f : A -> VNode) l :
  outside [div; h3] ic = true ->
  (forall x rest, rowOf ic (f x :: rest) = []) ->
  flat_map (shownAfter ic)
    (when c [Elem div [] [Preview.sectionTitle cls title;
                          Elem div [className listCls] (map f l)]])
  = if c then flat_map (fun x => shownAfter ic (f x)) l else [].
Proof.
  intros Ht Hrow. rewrite flat_map_when. destruct c; [|reflexivity].
  unfold Preview.sectionTitle. cbn [flat_map]. rewrite !shownAfter_Elem.
  cbn [rowOf flat_map map app allTexts]. rewrite !shownAfter_Elem.
  cbn [rowOf flat_map map app allTexts].
  replace (tag_eqb ic h3) with false by now outside_cases ic Ht.
  replace (rowOf ic (map f l)) with (@nil (list VNode))
    by (destruct l; [reflexivity | cbn [map]; now rewrite Hrow]).
  cbn [map app]. rewrite !app_nil_r. apply flat_map_of_map.
Qed.

Lemma allTexts_lines cls cls' first others :
  flat_map allTexts
    (Elem div [className cls] (text first)
     :: map (fun s => Elem div [className cls'] (text s)) others)
  = rendered (first :: others).
Proof.
  assert (H : forall s l, (flat_map allTexts (text s) ++ rendered l) = rendered (s :: l))
    by (intros s l; unfold text, rendered, nonEmptyStr; cbn; now destruct (s =? "")).
  cbn [flat_map allTexts]. rewrite <- H. f_equal.
  induction others as [|s l IH]; [reflexivity|].
  cbn [map flat_map allTexts]. now rewrite IH, H.
Qed.

Lemma allTexts_wrapped a attrs l : flat_map allTexts [Elem a attrs l] = flat_map allTexts l.
Proof. cbn. apply app_nil_r. Qed.

Lemma flat_map_single {A B} (f : A -> B) (b : bool) l :
  flat_map (fun x => if b then [f x] else []) l = if b then map f l else [].
Proof.
  induction l as [|x l IH]; [now destruct b|]. cbn. rewrite IH. now destruct b.
Qed.

Lemma nonEmpty_flat_map {A B} (g : A -> list B) l :
  (if nonEmpty l then flat_map g l else []) = flat_map g l.
Proof. now destruct l. Qed.

Section IconEntries.
Import Preview.
Variable cl : Closure.
Variable ic : tag.
Hypothesis icon : existsb (tag_eqb ic) [Award; Users] = true.

Ltac icon_cases := destruct ic; try discriminate icon.

Lemma shown_iconEntry k ic' icn sz first others :
  shownAfter ic (iconEntry cl k ic' icn sz first others)
  = if tag_eqb ic ic' then [rendered (first :: others)] else [].
Proof.
  unfold iconEntry. rewrite !shownAfter_Elem. cbn [rowOf flat_map map app].
  rewrite !shownAfter_Elem. cbn [rowOf flat_map map app].
  rewrite (shownAfter_Elem ic ic'). cbn [rowOf flat_map map app].
  rewrite (shownAfter_unused ic (Elem div [] _)).
  2:{ cbn [uses existsb]. rewrite existsb_text, existsb_map_false; [now icon_cases|].
      intros s. cbn. rewrite existsb_text. now icon_cases. }
  replace (tag_eqb ic div) with false by now icon_cases.
  cbn [map app]. rewrite !app_nil_r.
  destruct (tag_eqb ic ic'); [|reflexivity].
  cbn [map]. now rewrite allTexts_wrapped, allTexts_lines.
Qed.

Let certs : list (list string) :=
  map (fun c => rendered [ce_name c; issuer c; formatDate (cl_engine cl) (ce_date c)])
      (certifications (cl_data cl)).
Let refs : list (list string) :=
  map (fun r => rendered [re_name r; organization r; re_email r; re_phone r])
      (references (cl_data cl)).

Lemma shown_certificationsSection cls sp icn sz :
  flat_map (shownAfter ic) (certificationsSection cl cls sp icn sz)
  = if tag_eqb ic Award then certs else [].
Proof.
  unfold certificationsSection. rewrite shownAfter_titled_list;
    [ | now icon_cases | intros x rest; cbn; now icon_cases ].
  rewrite nonEmpty_flat_map. unfold certs, certificationEntry.
  rewrite <- flat_map_single. apply flat_map_ext. intros c. apply shown_iconEntry.
Qed.

Lemma shown_referencesSection cls sp icn sz :
  flat_map (shownAfter ic) (referencesSection cl cls sp icn sz)
  = if tag_eqb ic Users then refs else [].
Proof.
  unfold referencesSection. rewrite shownAfter_titled_list;
    [ | now icon_cases | intros x rest; cbn; now icon_cases ].
  rewrite nonEmpty_flat_map. unfold refs, referenceEntry.
  rewrite <- flat_map_single. apply flat_map_ext. intros r. apply shown_iconEntry.
Qed.

Lemma icons_twoColumnBody :
  flat_map (shownAfter ic) (twoColumnBody cl)
  = (if tag_eqb ic Award then certs else []) ++ (if tag_eqb ic Users then refs else []).
Proof.
  unfold twoColumnBody. cbn [flat_map]. rewrite shownAfter_Elem. cbn [flat_map].
  rewrite (shownAfter_unused ic (content cl)) by (apply tags_content; now icon_cases).
  replace (rowOf ic _) with (@nil (list VNode)) by (unfold sidebar; cbn; now icon_cases).
  unfold sidebar. rewrite shownAfter_Elem.
  replace (rowOf ic _) with (@nil (list VNode))
    by (unfold contactSection; destruct (hasPhoto (cl_template cl)); cbn; now icon_cases).
  repeat (rewrite ?flat_map_app, ?flat_map_when; cbn [flat_map app map]).
  rewrite shown_certificationsSection, shown_referencesSection.
  rewrite !shownAfter_list_unused
    by (first [ apply tags_skillsSection | apply tags_languagesSection ];
        now icon_cases).
  rewrite (shownAfter_unused ic (contactSection cl))
    by (apply tags_contactSection; now icon_cases).
  rewrite !app_nil_r. cbn [app].
  destruct (hasPhoto (cl_template cl)); [|reflexivity].
  rewrite shownAfter_unused; [reflexivity|].
  cbn [uses existsb]. rewrite tags_photo by now icon_cases. now icon_cases.
Qed.

Lemma icons_singleColumnBody :
  flat_map (shownAfter ic) (singleColumnBody cl)
  = (if tag_eqb ic Award then certs else []) ++ (if tag_eqb ic Users then refs else []).
Proof.
  unfold singleColumnBody.
  repeat (rewrite ?flat_map_app; cbn [flat_map app]).
  rewrite (shownAfter_unused ic (headerSingleColumn cl))
    by (apply tags_headerSingleColumn; now icon_cases).
  rewrite !shownAfter_Elem, !flat_map_app.
  rewrite shown_certificationsSection, shown_referencesSection.
  rewrite !shownAfter_list_unused
    by (first [ apply tags_summarySection | apply tags_workSection
              | apply tags_educationSectionSingleColumn | apply tags_skillsSection
              | apply tags_languagesSection ]; now icon_cases).
  replace (rowOf ic (educationSectionSingleColumn cl ++ _)) with (@nil (list VNode)).
  2:{ unfold educationSectionSingleColumn, skillsSection.
      destruct (nonEmpty (education (cl_data cl))), (nonEmpty (skills (cl_data cl)));
        cbn; now icon_cases. }
  replace (rowOf ic (languagesSection cl _ _ ++ _)) with (@nil (list VNode)).
  2:{ unfold languagesSection, certificationsSection, referencesSection.
      destruct (nonEmpty (languages (cl_data cl))),
        (nonEmpty (certifications (cl_data cl))),
        (nonEmpty (references (cl_data cl))); cbn; now icon_cases. }
  now rewrite !app_nil_r.
Qed.
End IconEntries.

(** ** Rows of the whole tree *)

Lemma shownAfter_root ic attrs rules body :
  outside [div; style] ic = true ->
  shownAfter ic (Elem div attrs (Preview.styleElem rules :: body))
  = flat_map (shownAfter ic) body.
Proof.
  intros Ht. rewrite shownAfter_Elem. unfold Preview.styleElem.
  cbn [rowOf flat_map]. rewrite shownAfter_Elem. cbn [rowOf flat_map map app].
  outside_cases ic Ht; reflexivity.
Qed.

Lemma shownAfter_Current e props ic :
  outside [div; style] ic = true ->
  shownAfter ic (tree (Current.CVPreview e props))
  = flat_map (shownAfter ic)
      (if (columns (Current.template props) =? 2)%Z
       then Preview.twoColumnBody (Current.closure e props)
       else Preview.singleColumnBody (Current.closure e props)).
Proof.
  intros Ht. unfold Current.CVPreview, Current.cvContent. cbn [tree].
  destruct (columns (Current.template props) =? 2)%Z, (Current.isFullPagePDF props);
    rewrite ?(shownAfter_Elem _ div [className "cv-page"]);
    cbn [rowOf flat_map map app];
    replace (tag_eqb ic div) with false by (now outside_cases ic Ht);
    cbn [map app]; rewrite ?app_nil_r; now apply shownAfter_root.
Qed.

Lemma shownAfter_Legacy e props ic :
  outside [div; style] ic = true ->
  shownAfter ic (tree (Legacy.CVPreview e props))
  = flat_map (shownAfter ic)
      (if (columns (Legacy.template props) =? 2)%Z
       then Preview.twoColumnBody (Legacy.closure e props)
       else Preview.singleColumnBody (Legacy.closure e props)).
Proof.
  intros Ht. unfold Legacy.CVPreview. cbn [tree].
  destruct (columns (Legacy.template props) =? 2)%Z; now apply shownAfter_root.
Qed.

Lemma contactShown_layouts (cl : Preview.Closure) (twoColumns : bool) :
  let shown ic :=
    flat_map (shownAfter ic)
      (if twoColumns then Preview.twoColumnBody cl else Preview.singleColumnBody cl) in
  let info := personalInfo (Preview.cl_data cl) in
  shown Mail = line (email info)
  /\ shown Phone = line (phone info)
  /\ shown MapPin = line (address info)
  /\ shown Globe = if twoColumns then line (website info) else [].
Proof.
  cbv zeta. destruct twoColumns;
    rewrite ?contacts_twoColumnBody, ?contacts_singleColumnBody,
      ?contacts_contactSection, ?contacts_inlineContacts by reflexivity;
    cbn [tag_eqb app]; now rewrite ?app_nil_r.
Qed.

(** X11. The contact lines of the tree, in both revisions: a row with
    the mail icon shows the e-mail address, one with the phone icon the
    phone number, one with the pin the address, each exactly when the
    field is not empty; the website has a row with the globe only in the
    two-column layout, the single-column layout never shows it. *)
Theorem contact_lines_follow_the_personal_information (e : Platform.Engine) :
  (forall props,
     contactShown (columns (Current.template props) =? 2)%Z
       (personalInfo (Current.data props)) (tree (Current.CVPreview e props)))
  /\ (forall props,
        contactShown (columns (Legacy.template props) =? 2)%Z
          (personalInfo (Legacy.data props)) (tree (Legacy.CVPreview e props))).
Proof.
  split; intros props; unfold contactShown.
  - rewrite !shownAfter_Current by reflexivity.
    apply (contactShown_layouts (Current.closure e props)).
  - rewrite !shownAfter_Legacy by reflexivity.
    apply (contactShown_layouts (Legacy.closure e props)).
Qed.

(** X12. The certifications and the references of the tree, in both
    layouts and both revisions: each certification has one row after an
    award icon with its name, its issuer and its formatted date, each
    reference one row after a users icon with its name, organization,
    e-mail address and phone number; empty fields are left out, and the
    rows are in the order of the data. The expiry date of a certification
    is in no row. *)
Theorem certifications_and_references_are_listed (e : Platform.Engine) :
  let certs (d : CVData) :=
    map (fun c => rendered [ce_name c; issuer c; Preview.formatDate e (ce_date c)])
        (certifications d) in
  let refs (d : CVData) :=
    map (fun r => rendered [re_name r; organization r; re_email r; re_phone r])
        (references d) in
  (forall props,
     shownAfter Award (tree (Current.CVPreview e props)) = certs (Current.data props)
     /\ shownAfter Users (tree (Current.CVPreview e props)) = refs (Current.data props))
  /\ (forall props,
        shownAfter Award (tree (Legacy.CVPreview e props)) = certs (Legacy.data props)
        /\ shownAfter Users (tree (Legacy.CVPreview e props)) = refs (Legacy.data props)).
Proof.
  cbv zeta. split; intros props.
  - rewrite !shownAfter_Current by reflexivity.
    destruct (columns (Current.template props) =? 2)%Z;
      rewrite ?icons_twoColumnBody, ?icons_singleColumnBody by reflexivity;
      cbn [tag_eqb app]; rewrite ?app_nil_r; split; reflexivity.
  - rewrite !shownAfter_Legacy by reflexivity.
    destruct (columns (Legacy.template props) =? 2)%Z;
      rewrite ?icons_twoColumnBody, ?icons_singleColumnBody by reflexivity;
      cbn [tag_eqb app]; rewrite ?app_nil_r; split; reflexivity.
Qed.

(** ** What the preview leaves out *)

Section LeftOut.
Import Preview CVEditor.
Variables (rev : revision) (e : Platform.Engine) (g : string -> JS.value) (t : CVTemplate).
Variable d : CVData.
Variables id v : string.

Let at_ (d' : CVData) : Closure :=
  {| cl_rev := rev; cl_engine := e; cl_getSkillLevel := g; cl_data := d';
     cl_template := t |}.

Lemma certificationsSection_expiryDate cls sp icn sz :
  certificationsSection (at_ (updateCertification id "expiryDate" v d)) cls sp icn sz
  = certificationsSection (at_ d) cls sp icn sz.
Proof.
  unfold certificationsSection.
  cbn [cl_data at_ certifications updateCertification withCertifications].
  rewrite map_map.
  replace (nonEmpty (map _ (certifications d))) with (nonEmpty (certifications d))
    by (destruct (certifications d); reflexivity).
  rewrite (map_ext _ (certificationEntry (at_ d) icn sz)); [reflexivity|].
  intros c. now destruct (ce_id c =? id).
Qed.

Lemma twoColumnBody_expiryDate :
  twoColumnBody (at_ (updateCertification id "expiryDate" v d)) = twoColumnBody (at_ d).
Proof.
  unfold twoColumnBody, sidebar. rewrite certificationsSection_expiryDate. reflexivity.
Qed.

Lemma singleColumnBody_expiryDate :
  singleColumnBody (at_ (updateCertification id "expiryDate" v d))
  = singleColumnBody (at_ d).
Proof.
  unfold singleColumnBody. rewrite certificationsSection_expiryDate. reflexivity.
Qed.

Lemma singleColumnBody_website :
  singleColumnBody (at_ (updatePersonalInfo "website" v d)) = singleColumnBody (at_ d).
Proof. reflexivity. Qed.

Lemma bodies_photoUrl :
  hasPhoto t = false ->
  twoColumnBody (at_ (updatePersonalInfo "photoUrl" v d)) = twoColumnBody (at_ d)
  /\ singleColumnBody (at_ (updatePersonalInfo "photoUrl" v d)) = singleColumnBody (at_ d).
Proof.
  intros H. unfold twoColumnBody, singleColumnBody, sidebar, headerSingleColumn.
  cbn [cl_template at_]. rewrite H. split; reflexivity.
Qed.
End LeftOut.

(** X13. Fields the editor stores and the preview leaves out, in both
    revisions: the expiry date of a certification is in no layout; the
    website is not in the single-column layout; the photo is not in the
    tree of a template without photo. Writing such a field leaves the
    whole tree as it is. *)
Theorem fields_that_never_reach_the_preview (e : Platform.Engine) (id v : string) :
  (forall props,
     let d := Current.data props in
     let shows d' := tree (Current.CVPreview e (withDataCurrent d' props)) in
     shows (CVEditor.updateCertification id "expiryDate" v d)
     = tree (Current.CVPreview e props)
     /\ ((columns (Current.template props) =? 2)%Z = false ->
         shows (CVEditor.updatePersonalInfo "website" v d)
         = tree (Current.CVPreview e props))
     /\ (hasPhoto (Current.template props) = false ->
         shows (CVEditor.updatePersonalInfo "photoUrl" v d)
         = tree (Current.CVPreview e props)))
  /\ (forall props,
        let d := Legacy.data props in
        let shows d' := tree (Legacy.CVPreview e (withDataLegacy d' props)) in
        shows (CVEditor.updateCertification id "expiryDate" v d)
        = tree (Legacy.CVPreview e props)
        /\ ((columns (Legacy.template props) =? 2)%Z = false ->
            shows (CVEditor.updatePersonalInfo "website" v d)
            = tree (Legacy.CVPreview e props))
        /\ (hasPhoto (Legacy.template props) = false ->
            shows (CVEditor.updatePersonalInfo "photoUrl" v d)
            = tree (Legacy.CVPreview e props))).
Proof.
  split; intros props; cbv zeta.
  - unfold Current.CVPreview, Current.cvContent, Current.closure, withDataCurrent.
    cbn [tree Current.data Current.template Current.isPreview Current.isPDF
         Current.isFullPagePDF Current.unbounded Current.outerBase Current.chrome
         Current.overflowClip Current.textSize Current.unboundedStyle].
    repeat split.
    + now rewrite twoColumnBody_expiryDate, singleColumnBody_expiryDate.
    + intros ->. now rewrite singleColumnBody_website.
    + intros H.
      destruct (bodies_photoUrl Preview.revCurrent e Current.getSkillLevel
                  (Current.template props) (Current.data props) v H) as [-> ->].
      reflexivity.
  - unfold Legacy.CVPreview, Legacy.closure, withDataLegacy.
    cbn [tree Legacy.data Legacy.template Legacy.isPreview Legacy.isPDF Legacy.rootClass].
    repeat split.
    + now rewrite twoColumnBody_expiryDate, singleColumnBody_expiryDate.
    + intros ->. now rewrite singleColumnBody_website.
    + intros H.
      destruct (bodies_photoUrl Preview.revLegacy e Legacy.getSkillLevel
                  (Legacy.template props) (Legacy.data props) v H) as [-> ->].
      reflexivity.
Qed.

Lemma fields_that_never_reach_the_preview_witness :
  (columns Samples.creative =? 2)%Z = false
  /\ tree (Current.CVPreview Platform.strictUTC
             (Samples.currentProps
                (CVEditor.updatePersonalInfo "website" "jane.example" Samples.janeDoe)
                Samples.creative))
     = tree (Current.CVPreview Platform.strictUTC
               (Samples.currentProps Samples.janeDoe Samples.creative)).
Proof.
  split; [reflexivity|].
  exact (proj1 (proj2 (proj1 (fields_that_never_reach_the_preview Platform.strictUTC
                                "" "jane.example")
                         (Samples.currentProps Samples.janeDoe Samples.creative)))
           eq_refl).
Defined.

(** ** Titles and date rows *)

(** X14. The section titles of the tree, in both revisions: in the
    two-column layout Contact, Skills, Languages, Certifications,
    References (the sidebar) and then Professional Summary, Work
    Experience, Education; in the single-column layout Professional
    Summary, Work Experience, Education, Skills, Languages,
    Certifications, References; each title but Contact only when its data
    is not empty, none twice, and no other title. *)
Theorem section_titles_in_order (e : Platform.Engine) :
  (forall props,
     headings (tree (Current.CVPreview e props))
     = if (columns (Current.template props) =? 2)%Z
       then sectionsTwoColumn (Current.data props)
       else sectionsSingleColumn (Current.data props))
  /\ (forall props,
        headings (tree (Legacy.CVPreview e props))
        = if (columns (Legacy.template props) =? 2)%Z
          then sectionsTwoColumn (Legacy.data props)
          else sectionsSingleColumn (Legacy.data props)).
Proof. split; intros props; [apply headings_Current | apply headings_Legacy]. Qed.

Lemma allTexts_app l l' : flat_map allTexts (l ++ l') = flat_map allTexts l ++ flat_map allTexts l'.
Proof. apply flat_map_app. Qed.

Lemma allTexts_rendered s : flat_map allTexts (text s) = rendered [s].
Proof. unfold text, rendered, nonEmptyStr. cbn. now destruct (s =? ""). Qed.

Lemma rendered_app l l' : rendered (l ++ l') = rendered l ++ rendered l'.
Proof. apply filter_app. Qed.

Lemma allTexts_workDates cl exp :
  flat_map allTexts (Preview.workDates cl exp)
  = rendered [Preview.formatDate (Preview.cl_engine cl) (we_startDate exp); " - ";
              if JS.truthy (current exp) then "Present"
              else Preview.formatDate (Preview.cl_engine cl) (we_endDate exp)].
Proof.
  unfold Preview.workDates. rewrite !allTexts_app, allTexts_rendered.
  change (rendered [?a; ?b; ?c]) with (rendered ([a] ++ [b] ++ [c])).
  rewrite !rendered_app. f_equal. f_equal.
  destruct (JS.truthy (current exp)); [reflexivity | apply allTexts_rendered].
Qed.

Lemma allTexts_educationDates cl edu :
  flat_map allTexts (Preview.educationDates cl edu)
  = rendered [Preview.formatDate (Preview.cl_engine cl) (ed_startDate edu); " - ";
              Preview.formatDate (Preview.cl_engine cl) (ed_endDate edu)].
Proof.
  unfold Preview.educationDates. rewrite !allTexts_app, !allTexts_rendered.
  change (rendered [?a; ?b; ?c]) with (rendered ([a] ++ [b] ++ [c])).
  now rewrite !rendered_app.
Qed.

(** X15. The rows of the tree that start with a calendar icon, in both
    revisions: one for each job, in order, with the formatted start date,
    a dash and the formatted end date or Present; then, in the two-column
    layout only, one for each education entry with its two formatted
    dates. The single-column layout shows the dates of the education
    without the icon. *)
Theorem date_rows_of_jobs_and_education (e : Platform.Engine) :
  let jobs (d : CVData) :=
    map (fun exp => rendered [Preview.formatDate e (we_startDate exp); " - ";
                              if JS.truthy (current exp) then "Present"
                              else Preview.formatDate e (we_endDate exp)])
        (workExperience d) in
  let studies (d : CVData) :=
    map (fun edu => rendered [Preview.formatDate e (ed_startDate edu); " - ";
                              Preview.formatDate e (ed_endDate edu)])
        (education d) in
  (forall props,
     shownAfter Calendar (tree (Current.CVPreview e props))
     = jobs (Current.data props)
       ++ if (columns (Current.template props) =? 2)%Z
          then studies (Current.data props) else [])
  /\ (forall props,
        shownAfter Calendar (tree (Legacy.CVPreview e props))
        = jobs (Legacy.data props)
          ++ if (columns (Legacy.template props) =? 2)%Z
             then studies (Legacy.data props) else []).
Proof.
  cbv zeta. split; intros props; unfold shownAfter.
  - rewrite rows_Current. cbv zeta. rewrite map_app, map_map.
    f_equal; [apply map_ext; intros; apply allTexts_workDates|].
    destruct (columns (Current.template props) =? 2)%Z; [|reflexivity].
    rewrite map_map. apply map_ext. intros. apply allTexts_educationDates.
  - rewrite rows_Legacy. cbv zeta. rewrite map_app, map_map.
    f_equal; [apply map_ext; intros; apply allTexts_workDates|].
    destruct (columns (Legacy.template props) =? 2)%Z; [|reflexivity].
    rewrite map_map. apply map_ext. intros. apply allTexts_educationDates.
Qed.

(* ===================================================================== *)
(** * The editor and the preview *)
(* ===================================================================== *)

Section EditorAndPreview.
Import CVEditor.

Lemma nonEmpty_added {A} (l : list A) x : nonEmpty (l ++ [x]) = true.
Proof. now destruct l. Qed.

Lemma nonEmpty_filter {A} (keep : A -> bool) l : nonEmpty (filter keep l) = existsb keep l.
Proof.
  induction l as [|x l IH]; [reflexivity|]. cbn. now destruct (keep x).
Qed.

Lemma sections_after_add_and_delete (now : Z) (id : string) (d : CVData)
    (shows : CVData -> VNode) :
  (forall d', headings (shows d') = sectionsTwoColumn d'
              \/ headings (shows d') = sectionsSingleColumn d') ->
  sectionsFollowEditor now id d shows.
Proof.
  intros H.
  assert (F : forall d', sectionsFollowData d' (shows d'))
    by (intros d'; apply sections_follow, H).
  unfold sectionsFollowEditor, remains. split.
  - repeat split;
      match goal with
      | |- hasSection _ (shows ?d') = _ =>
          destruct (F d') as (F1 & F2 & F3 & F4 & F5 & F6 & F7)
      end;
      first [ rewrite F2 | rewrite F3 | rewrite F4 | rewrite F5 | rewrite F6 | rewrite F7 ];
      apply nonEmpty_added.
  - repeat split;
      match goal with
      | |- hasSection _ (shows ?d') = _ =>
          destruct (F d') as (F1 & F2 & F3 & F4 & F5 & F6 & F7)
      end;
      first [ rewrite F2 | rewrite F3 | rewrite F4 | rewrite F5 | rewrite F6 | rewrite F7 ];
      apply nonEmpty_filter.
Qed.

(** X16. The Add and the Delete button and the sections of the preview,
    in both revisions and both layouts: after an entry was added to a
    collection the preview has the section of that collection; after the
    entries with an id were deleted it has the section exactly when an
    entry with another id remains. *)
Theorem sections_follow_add_and_delete (e : Platform.Engine) (now : Z) (id : string) :
  (forall props,
     sectionsFollowEditor now id (Current.data props)
       (fun d' => tree (Current.CVPreview e (withDataCurrent d' props))))
  /\ (forall props,
        sectionsFollowEditor now id (Legacy.data props)
          (fun d' => tree (Legacy.CVPreview e (withDataLegacy d' props)))).
Proof.
  split; intros props; apply sections_after_add_and_delete; intros d'.
  - rewrite headings_Current. cbn [Current.template Current.data withDataCurrent].
    destruct (columns (Current.template props) =? 2)%Z; auto.
  - rewrite headings_Legacy. cbn [Legacy.template Legacy.data withDataLegacy].
    destruct (columns (Legacy.template props) =? 2)%Z; auto.
Qed.

(** X17. What is typed into the inputs of the full name and of the job
    title heads the preview, in both revisions and both layouts: the name
    is the text of the only first-level heading and the job title the
    paragraph next to it, with Your Name and Your Job Title in place of
    an empty text. *)
Theorem typed_name_and_title_head_the_preview (e : Platform.Engine) (v : string) :
  (forall props,
     let info := personalInfo (Current.data props) in
     let shows d' := tree (Current.CVPreview e (withDataCurrent d' props)) in
     headerShows (orStr v "Your Name") (shownTitle info)
       (shows (updatePersonalInfo "fullName" v (Current.data props)))
     /\ headerShows (shownName info) (orStr v "Your Job Title")
          (shows (updatePersonalInfo "jobTitle" v (Current.data props))))
  /\ (forall props,
        let info := personalInfo (Legacy.data props) in
        let shows d' := tree (Legacy.CVPreview e (withDataLegacy d' props)) in
        headerShows (orStr v "Your Name") (shownTitle info)
          (shows (updatePersonalInfo "fullName" v (Legacy.data props)))
        /\ headerShows (shownName info) (orStr v "Your Job Title")
             (shows (updatePersonalInfo "jobTitle" v (Legacy.data props)))).
Proof.
  split; intros props; cbv zeta; split.
  - apply (header_Current e
             (withDataCurrent (updatePersonalInfo "fullName" v (Current.data props)) props)).
  - apply (header_Current e
             (withDataCurrent (updatePersonalInfo "jobTitle" v (Current.data props)) props)).
  - apply (header_Legacy e
             (withDataLegacy (updatePersonalInfo "fullName" v (Legacy.data props)) props)).
  - apply (header_Legacy e
             (withDataLegacy (updatePersonalInfo "jobTitle" v (Legacy.data props)) props)).
Qed.
End EditorAndPreview.

(* ===================================================================== *)
(** * The builder page *)
(* ===================================================================== *)

Section MoreScaleFacts.
Import CVBuilder.

Lemma ratio_le (w w' : Z) :
  (w <= w')%Z -> (inject_Z w / inject_Z cvWidth <= inject_Z w' / inject_Z cvWidth)%Q.
Proof. unfold Qle, Qdiv, Qmult, Qinv, inject_Z, cvWidth. simpl. lia. Qed.

Lemma ratio_pos (w : Z) : (0 < w)%Z -> (0 < inject_Z w / inject_Z cvWidth)%Q.
Proof. unfold Qlt, Qdiv, Qmult, Qinv, inject_Z, cvWidth. simpl. lia. Qed.

(** X18. The scale of the on-screen preview grows with the width of its
    container and is positive for a container of positive width (a
    container of width 0 gives the scale 0); computing it again for the
    same container changes nothing; and without a mounted container, or
    in preview mode, the stored scale is left as it is. *)
Theorem preview_scale_grows_with_the_container (w w' : Z) (c : option Z) (st : State) :
  ((w <= w')%Z -> (scaleFor w <= scaleFor w')%Q)
  /\ ((0 < w)%Z -> (0 < scaleFor w)%Q)
  /\ (scaleFor 0 == 0)%Q
  /\ calculateScale c (calculateScale c st) = calculateScale c st
  /\ (c = None \/ previewMode st = true -> calculateScale c st = st).
Proof.
  repeat match goal with |- _ /\ _ => split end.
  - intros H. unfold scaleFor. apply Q.min_le_compat_r. now apply ratio_le.
  - intros H. unfold scaleFor. apply Q.min_glb_lt; [now apply ratio_pos | reflexivity].
  - reflexivity.
  - unfold calculateScale. destruct c as [x|]; [|reflexivity].
    destruct (previewMode st) eqn:E; [now rewrite E|]. cbn. now rewrite E.
  - intros [-> | H]; [reflexivity|]. unfold calculateScale.
    destruct c; [now rewrite H | reflexivity].
Qed.

Lemma preview_scale_grows_with_the_container_witness :
  (397 <= 500)%Z /\ (scaleFor 397 <= scaleFor 500)%Q
  /\ (0 < 397)%Z /\ (0 < scaleFor 397)%Q
  /\ calculateScale (Some 397%Z) {| previewMode := true; previewScale := 1%Q |}
     = {| previewMode := true; previewScale := 1%Q |}.
Proof.
  pose proof (preview_scale_grows_with_the_container 397 500 (Some 397%Z)
                {| previewMode := true; previewScale := 1%Q |}) as (H1 & H2 & _ & _ & H5).
  split; [lia|]. split; [apply H1; lia|]. split; [lia|]. split; [apply H2; lia|].
  apply H5. right. reflexivity.
Defined.
End MoreScaleFacts.

Section PageFacts.
Import JS CVBuilderPage.

(** X19. The flags [isPreview], [isPDF], [unbounded] and [isFullPagePDF]
    do not reach the content: two renderings of the same data with the
    same template have the same children under the root element of the
    content, and, when neither is wrapped as a full page, under the root
    of the tree; they differ at most in the class and the style of that
    element. On the builder page the scaled preview beside the editor and
    the hidden node the export reads are such a pair, and the full-width
    preview is the same tree as the export node. *)
Theorem flags_leave_the_content (e : Platform.Engine) :
  (forall props props',
     Current.data props' = Current.data props ->
     Current.template props' = Current.template props ->
     childrenOf (Current.cvContent e props') = childrenOf (Current.cvContent e props)
     /\ (Current.isFullPagePDF props = false -> Current.isFullPagePDF props' = false ->
         childrenOf (tree (Current.CVPreview e props'))
         = childrenOf (tree (Current.CVPreview e props))))
  /\ (forall cvData currentTemplate templateColor,
        let live := livePreview cvData currentTemplate templateColor in
        let exported := exportNode cvData currentTemplate templateColor in
        let full := fullWidthPreview cvData currentTemplate templateColor in
        childrenOf (tree (Current.CVPreview e live))
        = childrenOf (tree (Current.CVPreview e exported))
        /\ tree (Current.CVPreview e full) = tree (Current.CVPreview e exported)).
Proof.
  assert (H : forall props props',
             Current.data props' = Current.data props ->
             Current.template props' = Current.template props ->
             childrenOf (Current.cvContent e props')
             = childrenOf (Current.cvContent e props)).
  { intros props props' Hd Ht. unfold Current.cvContent, Current.closure.
    rewrite Hd, Ht. destruct (columns (Current.template props) =? 2)%Z; reflexivity. }
  split.
  - intros props props' Hd Ht. split; [now apply H|].
    intros F F'. unfold Current.CVPreview. cbn [tree]. rewrite F, F'. now apply H.
  - intros cvData currentTemplate templateColor. cbv zeta. split; [|reflexivity].
    unfold Current.CVPreview. cbn [tree Current.isFullPagePDF livePreview exportNode].
    now apply H.
Qed.

Lemma flags_leave_the_content_witness :
  let live := livePreview Samples.janeDoe Samples.professional "rose" in
  let exported := exportNode Samples.janeDoe Samples.professional "rose" in
  Current.data live = Current.data exported
  /\ Current.template live = Current.template exported
  /\ Current.isFullPagePDF exported = false
  /\ Current.isFullPagePDF live = false
  /\ childrenOf (tree (Current.CVPreview Platform.strictUTC live))
     = childrenOf (tree (Current.CVPreview Platform.strictUTC exported)).
Proof.
  cbv zeta. split; [reflexivity|]. split; [reflexivity|].
  split; [reflexivity|]. split; [reflexivity|].
  exact (proj2 (proj1 (flags_leave_the_content Platform.strictUTC)
                  (exportNode Samples.janeDoe Samples.professional "rose")
                  (livePreview Samples.janeDoe Samples.professional "rose")
                  eq_refl eq_refl) eq_refl eq_refl).
Defined.
End PageFacts.

Section ChooserFacts.
Import JS CVBuilderPage.

Lemma findTemplate_listed templateId template :
  findTemplate templateId = Some template ->
  In template templates /\ id template = templateId.
Proof.
  unfold findTemplate. intros H. apply find_some in H as [Hin Hid].
  split; [exact Hin | now apply String.eqb_eq].
Qed.

Lemma assoc_map {A B} (f : A -> B) k (l : list (string * A)) :
  assoc k (map (fun kv => (fst kv, f (snd kv))) l) = option_map f (assoc k l).
Proof.
  induction l as [|[k' a] l IH]; [reflexivity|]. cbn. now destruct (k =? k').
Qed.

(** X20. Choosing a template by its thumbnail opens the builder in the
    colour the thumbnail was drawn in: the colour picked under the
    thumbnail, or else the colour of the template. The data becomes the
    placeholder data and no field counts as edited. *)
Theorem builder_opens_in_the_colour_of_the_thumbnail
    (placeholderData : CVData) (template : CVTemplate) (s : Session) :
  findTemplate (id template) = Some template ->
  assoc (id template) (thumbColors s) <> Some "" ->
  let chosen := chosenColor (thumbColors s) template in
  let s' := handleTemplateSelect placeholderData (id template) chosen s in
  templateColor s' = chosen
  /\ chosen = VStr (match assoc (id template) (thumbColors s) with
                    | Some c => c
                    | None => color template
                    end)
  /\ cvData s' = placeholderData
  /\ editedFields s' = []
  /\ selectedTemplate s' = Some (id template).
Proof.
  intros Hfind Hthumb. cbv zeta.
  assert (Hc : chosenColor (thumbColors s) template
               = VStr (match assoc (id template) (thumbColors s) with
                       | Some c => c
                       | None => color template
                       end)).
  { unfold chosenColor, thumbColor, get. rewrite assoc_map.
    destruct (assoc (id template) (thumbColors s)) as [c|]; [reflexivity|]. cbn.
    destruct (findTemplate_listed _ _ Hfind) as [Hin _].
    cbn in Hin. destruct Hin as [<- | [<- | [<- | [<- | []]]]]; reflexivity. }
  repeat split; try assumption.
  unfold handleTemplateSelect. cbn [templateColor]. rewrite Hfind, Hc.
  unfold thumbColor, get. rewrite assoc_map.
  destruct (assoc (id template) (thumbColors s)) as [c|].
  - destruct c as [|a c]; [contradiction|]. reflexivity.
  - destruct (findTemplate_listed _ _ Hfind) as [Hin _].
    cbn in Hin. destruct Hin as [<- | [<- | [<- | [<- | []]]]]; reflexivity.
Qed.

Lemma builder_opens_in_the_colour_of_the_thumbnail_witness :
  let s := {| selectedTemplate := None; cvData := Samples.initialCVData;
              editedFields := []; templateColor := VStr "blue";
              thumbColors := [("creative", "rose")] |} in
  findTemplate (id Samples.creative) = Some Samples.creative
  /\ assoc (id Samples.creative) (thumbColors s) <> Some ""
  /\ templateColor
       (handleTemplateSelect Samples.janeDoe (id Samples.creative)
          (chosenColor (thumbColors s) Samples.creative) s)
     = VStr "rose".
Proof.
  cbv zeta.
  assert (H : assoc (id Samples.creative) [("creative", "rose")] <> Some "")
    by discriminate.
  split; [reflexivity|]. split; [exact H|].
  exact (proj1 (builder_opens_in_the_colour_of_the_thumbnail Samples.janeDoe
                  Samples.creative
                  {| selectedTemplate := None; cvData := Samples.initialCVData;
                     editedFields := []; templateColor := VStr "blue";
                     thumbColors := [("creative", "rose")] |} eq_refl H)).
Defined.

(** X21. The sample data of the thumbnails: each of the four template
    ids has its own sample, and every other id that is not the name of a
    property all objects inherit gets the professional sample. For an
    inherited name the lookup finds the inherited value and returns it:
    no sample data. *)
Theorem sample_data_of_a_template
    (professional creative executive minimal : CVData) (templateId : string) :
  let sample := getSampleDataForTemplate professional creative executive minimal in
  (inherited templateId = false ->
   sample templateId
   = inl (if templateId =? "creative" then creative
          else if templateId =? "executive" then executive
          else if templateId =? "minimal" then minimal
          else professional))
  /\ (inherited templateId = true -> exists v, sample templateId = inr v).
Proof.
  cbv zeta. unfold getSampleDataForTemplate, sampleDataMap. cbn [assoc].
  split; intros H.
  - destruct (templateId =? "professional") eqn:E1.
    { apply String.eqb_eq in E1. now subst. }
    destruct (templateId =? "creative"); [reflexivity|].
    destruct (templateId =? "executive"); [reflexivity|].
    destruct (templateId =? "minimal"); [reflexivity|].
    unfold get. cbn [assoc]. unfold inherited in H.
    now destruct (assoc templateId Object_prototype).
  - assert (N : forall k, inherited k = false -> (templateId =? k) = false).
    { intros k Hk. apply String.eqb_neq. intros ->. congruence. }
    rewrite !N by reflexivity.
    unfold get. cbn [assoc]. unfold inherited in H.
    destruct (assoc templateId Object_prototype) as [v|] eqn:E; [|discriminate].
    exists v.
    assert (T : truthy v = true).
    { clear -E. unfold Object_prototype in E. cbn [assoc] in E.
      repeat match type of E with
             | (if ?c then _ else _) = _ => destruct c; [now injection E as <-|]
             end. discriminate. }
    now rewrite T.
Qed.

Lemma sample_data_of_a_template_witness :
  inherited "executive" = false
  /\ getSampleDataForTemplate Samples.janeDoe Samples.contactFilled
       Samples.initialCVData Samples.contactFilledWithReference "executive"
     = inl Samples.initialCVData
  /\ inherited "constructor" = true
  /\ exists v,
       getSampleDataForTemplate Samples.janeDoe Samples.contactFilled
         Samples.initialCVData Samples.contactFilledWithReference "constructor"
       = inr v.
Proof.
  pose proof (sample_data_of_a_template Samples.janeDoe Samples.contactFilled
                Samples.initialCVData Samples.contactFilledWithReference) as H.
  split; [reflexivity|]. split; [exact (proj1 (H "executive") eq_refl)|].
  split; [reflexivity|]. exact (proj2 (H "constructor") eq_refl).
Defined.
End ChooserFacts.

Section OfferedChoices.
Import JS Tables CVBuilderPage.

(** X22. What the page offers is in the tables of the preview: each of
    the six colours of the colour picker has its own palette entry, which
    both revisions resolve to; each of the four levels of the level
    select has its percentage, between 25 and 100, in both revisions, and
    the level of a skill just added is one of them. Of the default
    colours of the four templates only blue is a palette name: the other
    three templates are drawn in the slate palette until a colour is
    picked. *)
Theorem offered_choices_are_in_the_tables :
  (forall c, In c colorOptions ->
     assoc c colorMap = Some (Current.getColorValues c)
     /\ isTriple (Current.getColorValues c) = true
     /\ Legacy.getColorValues c = Current.getColorValues c)
  /\ (forall l, In l CVEditor.levelOptions ->
        exists n, Current.getSkillLevel l = VNum n
                  /\ Legacy.getSkillLevel l = VNum n
                  /\ (25 <= n <= 100)%Z)
  /\ (forall now d skill,
        In (level (last (skills (CVEditor.addSkill now d)) skill)) CVEditor.levelOptions)
  /\ (forall t, In t templates ->
        Current.getColorValues (color t)
        = Current.getColorValues (if id t =? "professional" then "blue" else "slate")).
Proof.
  repeat match goal with |- _ /\ _ => split end.
  - intros c Hc. cbn in Hc.
    repeat (destruct Hc as [<- | Hc]; [repeat split|]). contradiction.
  - intros l Hl. cbn in Hl.
    repeat (destruct Hl as [<- | Hl];
            [eexists; split; [reflexivity|]; split; [reflexivity|]; lia|]).
    contradiction.
  - intros now d skill. unfold CVEditor.addSkill. cbn [skills CVEditor.withSkills].
    rewrite last_last. cbn. auto.
  - intros t Ht. cbn in Ht.
    repeat (destruct Ht as [<- | Ht]; [reflexivity|]). contradiction.
Qed.

Lemma offered_choices_are_in_the_tables_witness :
  In "rose" colorOptions
  /\ isTriple (Current.getColorValues "rose") = true
  /\ In "Expert" CVEditor.levelOptions
  /\ exists n, Current.getSkillLevel "Expert" = VNum n
               /\ Legacy.getSkillLevel "Expert" = VNum n
               /\ (25 <= n <= 100)%Z.
Proof.
  assert (Hc : In "rose" colorOptions) by (cbn; auto).
  assert (Hl : In "Expert" CVEditor.levelOptions) by (cbn; auto).
  split; [exact Hc|].
  split; [exact (proj1 (proj2 (proj1 offered_choices_are_in_the_tables "rose" Hc)))|].
  split; [exact Hl|].
  exact (proj1 (proj2 offered_choices_are_in_the_tables) "Expert" Hl).
Defined.
End OfferedChoices.

(* ===================================================================== *)
(** * What the inputs of the editor show *)
(* ===================================================================== *)

Section Keys.
Import CVEditor.

Lemma keyOf_split p : plainParts p -> split dot (keyOf p) = p.
Proof.
  intros [Hne H]. destruct p as [|x l]; [contradiction|]. now apply split_join.
Qed.

Lemma keyOf_inj p q : plainParts p -> plainParts q -> keyOf p = keyOf q -> p = q.
Proof.
  intros Hp Hq E. rewrite <- (keyOf_split p Hp), <- (keyOf_split q Hq). now rewrite E.
Qed.
End Keys.

Section Views.
Import CVEditor.

Lemma map_flat_map {A B C} (g : B -> C) (f : A -> list B) l :
  map g (flat_map f l) = flat_map (fun x => map g (f x)) l.
Proof. induction l as [|x l IH]; [reflexivity|]. cbn. now rewrite map_app, IH. Qed.

Lemma setAt_put pre field v name old :
  setAt (pre ++ [field]) v (pre ++ [name], old) = (pre ++ [name], put field v name old).
Proof.
  unfold setAt, put. cbn [fst].
  destruct (list_eq_dec string_dec (pre ++ [name]) (pre ++ [field])) as [E|N].
  - apply app_inv_head in E. injection E as ->. now rewrite String.eqb_refl.
  - destruct (field =? name) eqn:F; [|reflexivity].
    apply String.eqb_eq in F. now subst.
Qed.

Lemma setAt_put2 c field v name old :
  setAt [c; field] v ([c; name], old) = ([c; name], put field v name old).
Proof. exact (setAt_put [c] field v name old). Qed.

Lemma setAt_put3 c id field v name old :
  setAt [c; id; field] v ([c; id; name], old) = ([c; id; name], put field v name old).
Proof. exact (setAt_put [c; id] field v name old). Qed.

Lemma setAt_other p v l :
  (forall pv, In pv l -> fst pv <> p) -> map (setAt p v) l = l.
Proof.
  intros H. rewrite <- (map_id l) at 2. apply map_ext_in. intros pv Hin.
  unfold setAt. destruct (list_eq_dec string_dec (fst pv) p) as [E|]; [|reflexivity].
  now apply H in Hin.
Qed.

Lemma entryViews_update {A} c (idOf : A -> string) fieldsOf (upd : A -> A) id field nv l :
  (forall e, idOf (upd e) = idOf e) ->
  (forall e, fieldsOf (upd e)
             = map (fun fv => (fst fv, put field nv (fst fv) (snd fv))) (fieldsOf e)) ->
  entryViews c idOf fieldsOf (map (fun e => if idOf e =? id then upd e else e) l)
  = map (setAt [c; id; field] nv) (entryViews c idOf fieldsOf l).
Proof.
  intros Hid Hf. unfold entryViews.
  induction l as [|e l IH]; [reflexivity|]. cbn [map flat_map].
  rewrite map_app, IH. f_equal.
  destruct (idOf e =? id) eqn:E.
  - apply String.eqb_eq in E. rewrite Hid, Hf, !map_map, E. apply map_ext.
    intros [name old]. cbn [fst snd]. symmetry. apply setAt_put3.
  - symmetry. apply setAt_other. intros pv Hin.
    apply in_map_iff in Hin as (fv & <- & _). cbn [fst].
    intros [= H]. apply String.eqb_neq in E. contradiction.
Qed.

Lemma entryViews_other {A} c (idOf : A -> string) fieldsOf l p v :
  nth 0 p "" <> c ->
  map (setAt p v) (entryViews c idOf fieldsOf l) = entryViews c idOf fieldsOf l.
Proof.
  intros H. apply setAt_other. intros pv Hin. unfold entryViews in Hin.
  apply in_flat_map in Hin as (e & _ & Hin).
  apply in_map_iff in Hin as (fv & <- & _). cbn [fst]. intros <-. now apply H.
Qed.

Lemma plain_entryViews {A} c (idOf : A -> string) fieldsOf l :
  mentions dot c = false ->
  (forall e, Forall (fun fv => mentions dot (fst fv) = false) (fieldsOf e)) ->
  Forall (fun e => mentions dot (idOf e) = false) l ->
  Forall (fun pv => plainParts (fst pv)) (entryViews c idOf fieldsOf l).
Proof.
  intros Hc Hf Hl. apply Forall_forall. intros pv Hin. unfold entryViews in Hin.
  apply in_flat_map in Hin as (e & He & Hin).
  apply in_map_iff in Hin as (fv & <- & Hfv). cbn [fst].
  split; [discriminate|]. repeat constructor; try assumption.
  - now apply (proj1 (Forall_forall _ _) Hl).
  - now apply (proj1 (Forall_forall _ _) (Hf e)).
Qed.
End Views.

Section ViewsOfTheData.
Import CVEditor.

Let personalViews (d : CVData) : list (list string * string) :=
  let info := personalInfo d in
  [ (["personalInfo"; "fullName"], fullName info);
    (["personalInfo"; "jobTitle"], pi_jobTitle info);
    (["personalInfo"; "email"], email info);
    (["personalInfo"; "phone"], phone info);
    (["personalInfo"; "address"], address info);
    (["personalInfo"; "website"], website info) ].

Let workFields (exp : WorkExperience) : list (string * string) :=
  [ ("jobTitle", we_jobTitle exp); ("company", company exp);
    ("responsibilities", responsibilitiesText exp) ].
Let educationFields (edu : Education) : list (string * string) :=
  [ ("degree", degree edu); ("fieldOfStudy", fieldOfStudy edu);
    ("institution", institution edu); ("grade", gradeText edu) ].
Let skillFields (skill : Skill) : list (string * string) := [("name", sk_name skill)].
Let languageFields (language : Language) : list (string * string) :=
  [("name", la_name language)].
Let certificationFields (cert : Certification) : list (string * string) :=
  [("name", ce_name cert); ("issuer", issuer cert)].
Let referenceFields (reference : Reference) : list (string * string) :=
  [ ("name", re_name reference); ("organization", organization reference);
    ("email", re_email reference); ("phone", re_phone reference) ].

Let views (d : CVData) : list (list string * string) :=
  personalViews d
  ++ [(["summary"], summary d)]
  ++ entryViews "workExperience" we_id workFields (workExperience d)
  ++ entryViews "education" ed_id educationFields (education d)
  ++ entryViews "skills" sk_id skillFields (skills d)
  ++ entryViews "languages" la_id languageFields (languages d)
  ++ entryViews "certifications" ce_id certificationFields (certifications d)
  ++ entryViews "references" re_id referenceFields (references d).

Lemma views_inputs d : map view (inputs d) = views d.
Proof.
  unfold inputs, views, entryViews. rewrite !map_app, !map_flat_map. reflexivity.
Qed.

Lemma plain_views d :
  dotFreeIds d = true -> Forall (fun pv => plainParts (fst pv)) (views d).
Proof.
  unfold dotFreeIds. rewrite !forallb_app. intros H.
  repeat (apply andb_true_iff in H as [?H H]).
  assert (F : forall {A} (idOf : A -> string) l,
             forallb (fun s => negb (mentions dot s)) (map idOf l) = true ->
             Forall (fun e => mentions dot (idOf e) = false) l).
  { intros A idOf l Hl. apply Forall_forall. intros e He.
    apply negb_true_iff.
    apply (proj1 (forallb_forall _ _) Hl). now apply in_map. }
  unfold views. rewrite !Forall_app.
  repeat match goal with |- _ /\ _ => split end.
  - unfold personalViews. repeat constructor; discriminate.
  - repeat constructor; discriminate.
  - apply plain_entryViews; [reflexivity | intros e; repeat constructor | now apply F].
  - apply plain_entryViews; [reflexivity | intros e; repeat constructor | now apply F].
  - apply plain_entryViews; [reflexivity | intros e; repeat constructor | now apply F].
  - apply plain_entryViews; [reflexivity | intros e; repeat constructor | now apply F].
  - apply plain_entryViews; [reflexivity | intros e; repeat constructor | now apply F].
  - apply plain_entryViews; [reflexivity | intros e; repeat constructor | now apply F].
Qed.

Ltac frames :=
  rewrite ?(entryViews_other "workExperience"), ?(entryViews_other "education"),
    ?(entryViews_other "skills"), ?(entryViews_other "languages"),
    ?(entryViews_other "certifications"), ?(entryViews_other "references")
    by (cbn; discriminate);
  rewrite ?setAt_other
    by (intros pv Hin; cbn in Hin;
        repeat (destruct Hin as [<- | Hin]; [discriminate|]); contradiction);
  unfold personalViews.

Lemma views_updatePersonalInfo field v d :
  views (updatePersonalInfo field v d) = map (setAt ["personalInfo"; field] v) (views d).
Proof.
  unfold views. rewrite !map_app. frames.
  cbn [updatePersonalInfo withPersonalInfo personalInfo summary workExperience education
       skills languages certifications references].
  f_equal. cbn [map setPersonalField fullName pi_jobTitle email phone
                                      address website].
  now rewrite !setAt_put2.
Qed.

Lemma views_updateSummary v d :
  views (updateSummary v d) = map (setAt ["summary"] v) (views d).
Proof.
  unfold views. rewrite !map_app. frames.
  cbn [updateSummary withSummary personalInfo summary workExperience education
       skills languages certifications references].
  reflexivity.
Qed.

Lemma views_updateEducation id field v d :
  field <> "id" ->
  views (updateEducation id field v d)
  = map (setAt ["education"; id; field] v) (views d).
Proof.
  intros Hf. unfold views. rewrite !map_app. frames.
  cbn [updateEducation withEducation personalInfo summary workExperience education
       skills languages certifications references].
  rewrite entryViews_update with (field := field) (nv := v); [reflexivity | |].
  - intros e. cbn. now apply put_other.
  - intros e. unfold educationFields, gradeText. cbn. unfold put.
    now destruct (field =? "grade").
Qed.

Lemma views_updateSkill id field v d :
  field <> "id" ->
  views (updateSkill id field v d) = map (setAt ["skills"; id; field] v) (views d).
Proof.
  intros Hf. unfold views. rewrite !map_app. frames.
  cbn [updateSkill withSkills personalInfo summary workExperience education
       skills languages certifications references].
  rewrite entryViews_update with (field := field) (nv := v); [reflexivity | |].
  - intros e. cbn. now apply put_other.
  - intros e. reflexivity.
Qed.

Lemma views_updateLanguage id field v d :
  field <> "id" ->
  views (updateLanguage id field v d) = map (setAt ["languages"; id; field] v) (views d).
Proof.
  intros Hf. unfold views. rewrite !map_app. frames.
  cbn [updateLanguage withLanguages personalInfo summary workExperience education
       skills languages certifications references].
  rewrite entryViews_update with (field := field) (nv := v); [reflexivity | |].
  - intros e. cbn. now apply put_other.
  - intros e. reflexivity.
Qed.

Lemma views_updateCertification id field v d :
  field <> "id" ->
  views (updateCertification id field v d)
  = map (setAt ["certifications"; id; field] v) (views d).
Proof.
  intros Hf. unfold views. rewrite !map_app. frames.
  cbn [updateCertification withCertifications personalInfo summary workExperience
       education skills languages certifications references].
  rewrite entryViews_update with (field := field) (nv := v); [reflexivity | |].
  - intros e. cbn. now apply put_other.
  - intros e. reflexivity.
Qed.

Lemma views_updateReference id field v d :
  field <> "id" ->
  views (updateReference id field v d)
  = map (setAt ["references"; id; field] v) (views d).
Proof.
  intros Hf. unfold views. rewrite !map_app. frames.
  cbn [updateReference withReferences personalInfo summary workExperience
       education skills languages certifications references].
  rewrite entryViews_update with (field := field) (nv := v); [reflexivity | |].
  - intros e. cbn. now apply put_other.
  - intros e. reflexivity.
Qed.
Lemma views_updateWork_string id field v d :
  existsb (String.eqb field) ["jobTitle"; "company"] = true ->
  exists d',
    updateWorkExperience id field (FString v) d = Some d'
    /\ views d' = map (setAt ["workExperience"; id; field] v) (views d).
Proof.
  intros H. cbn in H. apply orb_true_iff in H as [H | H];
    [|apply orb_true_iff in H as [H | H]; [|discriminate]];
    apply String.eqb_eq in H; subst field.
  - set (upd := fun e : WorkExperience =>
                  {| we_id := we_id e; we_jobTitle := v; company := company e;
                     we_startDate := we_startDate e; we_endDate := we_endDate e;
                     current := current e; responsibilities := responsibilities e |}).
    exists (withWorkExperience
              (map (fun e => if we_id e =? id then upd e else e) (workExperience d)) d).
    split.
    + unfold updateWorkExperience.
      rewrite (mapM_total _ (fun e => if we_id e =? id then upd e else e));
        [reflexivity|].
      intros e. now destruct (we_id e =? id).
    + unfold views. rewrite !map_app. frames.
      cbn [withWorkExperience personalInfo summary workExperience education
           skills languages certifications references].
      now rewrite entryViews_update with (field := "jobTitle") (nv := v).
  - set (upd := fun e : WorkExperience =>
                  {| we_id := we_id e; we_jobTitle := we_jobTitle e; company := v;
                     we_startDate := we_startDate e; we_endDate := we_endDate e;
                     current := current e; responsibilities := responsibilities e |}).
    exists (withWorkExperience
              (map (fun e => if we_id e =? id then upd e else e) (workExperience d)) d).
    split.
    + unfold updateWorkExperience.
      rewrite (mapM_total _ (fun e => if we_id e =? id then upd e else e));
        [reflexivity|].
      intros e. now destruct (we_id e =? id).
    + unfold views. rewrite !map_app. frames.
      cbn [withWorkExperience personalInfo summary workExperience education
           skills languages certifications references].
      now rewrite entryViews_update with (field := "company") (nv := v).
Qed.

Lemma views_updateWork_lines id l d :
  exists d',
    updateWorkExperience id "responsibilities" (FStrings l) d = Some d'
    /\ views d'
       = map (setAt ["workExperience"; id; "responsibilities"] (join (String newline "") l))
           (views d).
Proof.
  set (upd := fun e : WorkExperience =>
                {| we_id := we_id e; we_jobTitle := we_jobTitle e; company := company e;
                   we_startDate := we_startDate e; we_endDate := we_endDate e;
                   current := current e; responsibilities := l |}).
  exists (withWorkExperience
            (map (fun e => if we_id e =? id then upd e else e) (workExperience d)) d).
  split.
  - unfold updateWorkExperience.
      rewrite (mapM_total _ (fun e => if we_id e =? id then upd e else e));
        [reflexivity|].
    intros e. now destruct (we_id e =? id).
  - unfold views. rewrite !map_app. frames.
    cbn [withWorkExperience personalInfo summary workExperience education
         skills languages certifications references].
    now rewrite entryViews_update
      with (field := "responsibilities") (nv := join (String newline "") l).
Qed.

(** What typing into an input does to the data. *)
Lemma input_change d i typed :
  In i (inputs d) ->
  exists d', onChange i typed = Some d'
             /\ views d' = map (setAt (keyParts i) typed) (views d).
Proof.
  unfold inputs. rewrite !in_app_iff, !in_flat_map.
  intros [H | [H | [H | [H | [H | [H | [H | H]]]]]]].
  - cbn in H. repeat (destruct H as [<- | H]; [eexists; split; [reflexivity|];
                                              apply views_updatePersonalInfo|]).
    contradiction.
  - destruct H as [<- | []]. eexists. split; [reflexivity|]. apply views_updateSummary.
  - destruct H as (e & _ & H). cbn in H.
    destruct H as [<- | [<- | [<- | []]]]; cbn [onChange keyParts].
    + now apply views_updateWork_string.
    + now apply views_updateWork_string.
    + destruct (views_updateWork_lines (we_id e) (split newline typed) d) as (d' & E & V).
      exists d'. split; [exact E|]. rewrite V. now rewrite join_split.
  - destruct H as (e & _ & H). cbn in H.
    repeat (destruct H as [<- | H];
            [eexists; split; [reflexivity|]; now apply views_updateEducation|]).
    contradiction.
  - destruct H as (e & _ & H). cbn in H.
    repeat (destruct H as [<- | H];
            [eexists; split; [reflexivity|]; now apply views_updateSkill|]).
    contradiction.
  - destruct H as (e & _ & H). cbn in H.
    repeat (destruct H as [<- | H];
            [eexists; split; [reflexivity|]; now apply views_updateLanguage|]).
    contradiction.
  - destruct H as (e & _ & H). cbn in H.
    repeat (destruct H as [<- | H];
            [eexists; split; [reflexivity|]; now apply views_updateCertification|]).
    contradiction.
  - destruct H as (e & _ & H). cbn in H.
    repeat (destruct H as [<- | H];
            [eexists; split; [reflexivity|]; now apply views_updateReference|]).
    contradiction.
Qed.
Lemma dotFree_ids d :
  dotFreeIds d = true ->
  (forall e, In e (workExperience d) -> mentions dot (we_id e) = false)
  /\ (forall e, In e (education d) -> mentions dot (ed_id e) = false)
  /\ (forall e, In e (skills d) -> mentions dot (sk_id e) = false)
  /\ (forall e, In e (languages d) -> mentions dot (la_id e) = false)
  /\ (forall e, In e (certifications d) -> mentions dot (ce_id e) = false)
  /\ (forall e, In e (references d) -> mentions dot (re_id e) = false).
Proof.
  unfold dotFreeIds. rewrite !forallb_app. intros H.
  repeat (apply andb_true_iff in H as [?H H]).
  repeat split; intros e He; apply negb_true_iff;
    match goal with
    | Hl : forallb _ (map ?f ?l) = true, He : In e ?l |- negb (mentions dot (?f e)) = true =>
        apply (proj1 (forallb_forall _ _) Hl); now apply in_map
    end.
Qed.

Ltac entry_focus st D :=
  let Hfresh := fresh "Hfresh" in
  intros Hfresh;
  match type of Hfresh with
  | context [[_; ?id; ?f]] =>
      let F1 := fresh in let F2 := fresh in let F3 := fresh in
      let F4 := fresh in let F5 := fresh in let F6 := fresh in
      pose proof (focus_on_entry_key id f st D eq_refl) as (F1 & F2 & F3 & F4 & F5 & F6);
      eexists; split;
      [ first [ exact (F2 Hfresh) | exact (F3 Hfresh) | exact (F4 Hfresh)
              | exact (F5 Hfresh) | exact (F6 Hfresh) ] | ]
  end.

(** What the first focus on an input does to the data. *)
Lemma input_focus st i :
  dotFreeIds (cvData st) = true ->
  In i (inputs (cvData st)) ->
  edited (editedFields st) (keyOf (keyParts i)) = false ->
  exists d',
    onFocus i st
    = Some {| cvData := d';
              editedFields := mark (keyOf (keyParts i)) (editedFields st) |}
    /\ views d' = map (setAt (keyParts i) "") (views (cvData st)).
Proof.
  intros Hdot Hin. unfold onFocus.
  destruct (dotFree_ids _ Hdot) as (Dw & De & Ds & Dl & Dc & Dr).
  unfold inputs in Hin. rewrite !in_app_iff, !in_flat_map in Hin.
  destruct Hin as [H | [H | [H | [H | [H | [H | [H | H]]]]]]].
  - cbn in H.
    repeat (destruct H as [<- | H];
            [intros Hfresh; eexists; split;
             [exact (proj1 (focus_on_personal_key _ st) Hfresh)
             |apply views_updatePersonalInfo]|]).
    contradiction.
  - destruct H as [<- | []]. intros Hfresh. eexists. split;
      [exact (proj2 (focus_on_personal_key "" st) Hfresh) | apply views_updateSummary].
  - destruct H as (e & He & H). cbn in H. specialize (Dw e He).
    destruct H as [<- | [<- | [<- | []]]]; cbn [keyParts]; intros Hfresh.
    + destruct (views_updateWork_string (we_id e) "jobTitle" "" (cvData st) eq_refl)
        as (d' & E & V).
      exists d'. split; [|exact V].
      pose proof (proj1 (focus_on_entry_key (we_id e) "jobTitle" st Dw eq_refl) Hfresh) as F.
      change (if _ =? _ then _ else _) with (FString "") in F.
      rewrite E in F. exact F.
    + destruct (views_updateWork_string (we_id e) "company" "" (cvData st) eq_refl)
        as (d' & E & V).
      exists d'. split; [|exact V].
      pose proof (proj1 (focus_on_entry_key (we_id e) "company" st Dw eq_refl) Hfresh) as F.
      change (if _ =? _ then _ else _) with (FString "") in F.
      rewrite E in F. exact F.
    + destruct (views_updateWork_lines (we_id e) [""] (cvData st)) as (d' & E & V).
      exists d'. split; [|exact V].
      pose proof (proj1 (focus_on_entry_key (we_id e) "responsibilities" st Dw eq_refl) Hfresh) as F.
      change (if _ =? _ then _ else _) with (FStrings [""]) in F.
      rewrite E in F. exact F.
  - destruct H as (e & He & H). cbn in H. specialize (De e He).
    repeat (destruct H as [<- | H]; [entry_focus st De; now apply views_updateEducation|]).
    contradiction.
  - destruct H as (e & He & H). cbn in H. specialize (Ds e He).
    repeat (destruct H as [<- | H]; [entry_focus st Ds; now apply views_updateSkill|]).
    contradiction.
  - destruct H as (e & He & H). cbn in H. specialize (Dl e He).
    repeat (destruct H as [<- | H]; [entry_focus st Dl; now apply views_updateLanguage|]).
    contradiction.
  - destruct H as (e & He & H). cbn in H. specialize (Dc e He).
    repeat (destruct H as [<- | H];
            [entry_focus st Dc; now apply views_updateCertification|]).
    contradiction.
  - destruct H as (e & He & H). cbn in H. specialize (Dr e He).
    repeat (destruct H as [<- | H]; [entry_focus st Dr; now apply views_updateReference|]).
    contradiction.
Qed.
Lemma display_views st :
  display st
  = map (fun pv => shown (editedFields st) (keyOf (fst pv)) (snd pv))
        (map view (inputs (cvData st))).
Proof. unfold display. now rewrite map_map. Qed.

(** X23. The first focus on an input of the editor, the ids of the
    entries holding no dot: the key of the input counts as edited
    afterwards, the text stored under that key is emptied and every other
    stored text is kept, and every input shows what it showed before; the
    focused input showed nothing and still shows nothing. A focus on an
    input whose key is edited already changes nothing. *)
Theorem first_focus_keeps_what_the_inputs_show (st : Store) (i : Input) :
  dotFreeIds (cvData st) = true ->
  In i (inputs (cvData st)) ->
  exists st',
    onFocus i st = Some st'
    /\ edited (editedFields st') (keyOf (keyParts i)) = true
    /\ display st' = display st
    /\ (if edited (editedFields st) (keyOf (keyParts i)) then st' = st
        else map view (inputs (cvData st'))
             = map (setAt (keyParts i) "") (map view (inputs (cvData st)))).
Proof.
  intros Hdot Hin. destruct (edited (editedFields st) (keyOf (keyParts i))) eqn:E.
  - exists st. unfold onFocus, handleFieldFocus. rewrite E. now repeat split.
  - destruct (input_focus st i Hdot Hin E) as (d' & F & V).
    eexists. split; [exact F|]. cbn [editedFields cvData].
    split; [apply edited_mark|].
    rewrite !views_inputs. split; [|exact V].
    rewrite !display_views. cbn [editedFields cvData].
    rewrite !views_inputs, V, map_map.
    apply map_ext_in. intros pv Hpv.
    pose proof (proj1 (Forall_forall _ _) (plain_views _ Hdot) pv Hpv) as Ppv.
    assert (Pi : plainParts (keyParts i)).
    { rewrite <- views_inputs in Hpv.
      pose proof (plain_views _ Hdot) as P. rewrite <- views_inputs in P.
      apply (proj1 (Forall_forall _ _) P (view i)). now apply in_map. }
    unfold setAt. destruct (list_eq_dec string_dec (fst pv) (keyParts i)) as [Ep|Np].
    + cbn [fst snd]. rewrite Ep. unfold shown. rewrite E, edited_mark. reflexivity.
    + unfold shown. rewrite edited_mark_other; [reflexivity|].
      intros K. apply Np. now apply keyOf_inj.
Qed.

(** X24. Typing into an input of the editor whose key is edited: the
    changed data holds the typed text under the key of the input and
    every other stored text as before, so that the input, and every input
    with the same key, shows the typed text; for the responsibilities and
    the grade as for the plain fields. *)
Theorem typed_text_is_what_the_input_shows (st : Store) (i : Input) (typed : string) :
  In i (inputs (cvData st)) ->
  edited (editedFields st) (keyOf (keyParts i)) = true ->
  exists d',
    onChange i typed = Some d'
    /\ map view (inputs d')
       = map (setAt (keyParts i) typed) (map view (inputs (cvData st)))
    /\ forall j, In j (inputs d') -> keyParts j = keyParts i ->
         shownValue (editedFields st) j = typed.
Proof.
  intros Hin E. destruct (input_change (cvData st) i typed Hin) as (d' & C & V).
  exists d'. split; [exact C|]. rewrite !views_inputs. split; [exact V|].
  intros j Hj Hk. unfold shownValue, shown. rewrite Hk, E.
  assert (Hv : In (view j) (views d')) by (rewrite <- views_inputs; now apply in_map).
  rewrite V in Hv. apply in_map_iff in Hv as (pv & Hpv & _).
  unfold setAt in Hpv.
  destruct (list_eq_dec string_dec (fst pv) (keyParts i)) as [Ep|Np].
  - now injection Hpv as _ <-.
  - destruct pv as [q v]. injection Hpv as Hq _. cbn [fst] in Np.
    unfold view in Hq. congruence.
Qed.
End ViewsOfTheData.

Section InputWitnesses.
Import CVEditor.

Lemma first_focus_keeps_what_the_inputs_show_witness :
  dotFreeIds (cvData EditorSamples.janeStore) = true
  /\ In EditorSamples.janeSkillInput (inputs (cvData EditorSamples.janeStore))
  /\ exists st',
       onFocus EditorSamples.janeSkillInput EditorSamples.janeStore = Some st'
       /\ edited (editedFields st') "skills.s1.name" = true
       /\ display st' = display EditorSamples.janeStore.
Proof.
  assert (Hin : In EditorSamples.janeSkillInput (inputs (cvData EditorSamples.janeStore)))
    by (cbn; repeat (first [left; reflexivity | right])).
  split; [reflexivity|]. split; [exact Hin|].
  destruct (first_focus_keeps_what_the_inputs_show EditorSamples.janeStore
              EditorSamples.janeSkillInput eq_refl Hin) as (st' & F & E & D & _).
  exists st'. repeat split; assumption.
Defined.

Lemma typed_text_is_what_the_input_shows_witness :
  In EditorSamples.janeSkillInputFocused (inputs (cvData EditorSamples.janeFocused))
  /\ edited (editedFields EditorSamples.janeFocused) "skills.s1.name" = true
  /\ exists d',
       onChange EditorSamples.janeSkillInputFocused "Rust" = Some d'
       /\ forall j, In j (inputs d') ->
            keyParts j = keyParts EditorSamples.janeSkillInputFocused ->
            shownValue (editedFields EditorSamples.janeFocused) j = "Rust".
Proof.
  assert (Hin : In EditorSamples.janeSkillInputFocused
                  (inputs (cvData EditorSamples.janeFocused)))
    by (cbn; repeat (first [left; reflexivity | right])).
  split; [exact Hin|]. split; [reflexivity|].
  destruct (typed_text_is_what_the_input_shows EditorSamples.janeFocused
              EditorSamples.janeSkillInputFocused "Rust" Hin eq_refl)
    as (d' & C & _ & S).
  exists d'. split; assumption.
Defined.
End InputWitnesses.

(* ===================================================================== *)
(** * All the texts of the preview *)
(* ===================================================================== *)

Lemma rendered_cons x l : rendered (x :: l) = rendered [x] ++ rendered l.
Proof. unfold rendered. cbn. now destruct (nonEmptyStr x). Qed.

Lemma allTexts_when c l :
  flat_map allTexts (when c l) = if c then flat_map allTexts l else [].
Proof. now destruct c. Qed.

Lemma allTexts_items i rs :
  forallb (fun r => negb (r =? "")) rs = true ->
  flat_map allTexts (Preview.items i rs) = rs.
Proof.
  revert i. induction rs as [|r rs IH]; intros i H; [reflexivity|].
  cbn in H. apply andb_true_iff in H as [Hr H].
  cbn [Preview.items flat_map allTexts]. rewrite IH by assumption.
  unfold text. apply negb_true_iff in Hr. now rewrite Hr.
Qed.

Lemma allTexts_titled_list {A} c cls title listCls (f : A -> VNode) l :
  flat_map allTexts
    (when c [Elem div [] [Preview.sectionTitle cls title;
                          Elem div [className listCls] (map f l)]])
  = if c then title :: flat_map (fun x => allTexts (f x)) l else [].
Proof.
  rewrite allTexts_when. destruct c; [|reflexivity].
  unfold Preview.sectionTitle. cbn [flat_map allTexts app].
  now rewrite !app_nil_r, flat_map_of_map.
Qed.

(** Bring both sides to appended single texts. *)
Ltac texts :=
  repeat (cbn [allTexts flat_map app];
          rewrite ?flat_map_app, ?allTexts_when, ?allTexts_rendered, ?app_nil_r);
  rewrite ?(rendered_cons _ (_ :: _)); rewrite <- ?app_assoc.

Section Texts.
Import Preview.
Variable cl : Closure.
Let e : Platform.Engine := cl_engine cl.
Let d : CVData := cl_data cl.

Lemma texts_workEntry sz icon cls exp :
  allTexts (workEntry cl sz icon cls exp) = workTexts e exp.
Proof.
  unfold workEntry, workTexts, accentBar, workDates, responsibilityItems.
  texts. rewrite allTexts_items.
  2:{ apply forallb_forall. intros r Hr. apply filter_In in Hr as [_ Hr].
      apply negb_true_iff in Hr. now rewrite blank_nonEmpty. }
  destruct (id (cl_template cl) =? "creative"), (JS.truthy (current exp)),
    (responsibilities exp) as [|r l]; cbn [nonEmpty]; texts; reflexivity.
Qed.

Lemma texts_gradeLine edu : flat_map allTexts (gradeLine edu) = gradeTexts edu.
Proof.
  unfold gradeLine, gradeTexts. destruct (grade edu) as [g|]; [|reflexivity].
  now destruct (nonEmptyStr g).
Qed.

Lemma texts_educationEntryTwoColumn edu :
  allTexts (educationEntryTwoColumn cl edu) = educationTexts e edu.
Proof.
  unfold educationEntryTwoColumn, educationTexts, accentBar, educationDates.
  texts. rewrite texts_gradeLine.
  destruct (id (cl_template cl) =? "creative"); texts; reflexivity.
Qed.

Lemma texts_educationEntrySingleColumn edu :
  allTexts (educationEntrySingleColumn cl edu) = educationTexts e edu.
Proof.
  unfold educationEntrySingleColumn, educationTexts, educationDates.
  texts. now rewrite texts_gradeLine.
Qed.

Lemma texts_skillEntry sz skill : allTexts (skillEntry cl sz skill) = skillTexts skill.
Proof. unfold skillEntry, skillTexts. texts. reflexivity. Qed.

Lemma texts_languageEntry sz lang : allTexts (languageEntry sz lang) = languageTexts lang.
Proof. unfold languageEntry, languageTexts. texts. reflexivity. Qed.

Lemma texts_iconEntry k ic icn sz first others :
  allTexts (iconEntry cl k ic icn sz first others) = rendered (first :: others).
Proof.
  unfold iconEntry.
  match goal with
  | |- allTexts (Elem _ _ [Elem _ _ [Elem ?i ?a []; Elem div [] ?lines]]) = _ =>
      change (flat_map allTexts [Elem div [] lines] ++ [] = rendered (first :: others))
  end.
  rewrite app_nil_r, allTexts_wrapped. apply allTexts_lines.
Qed.
Lemma texts_entries {A} c cls title listCls (f : A -> VNode) (g : A -> list string) l :
  c = nonEmpty l ->
  (forall x, allTexts (f x) = g x) ->
  flat_map allTexts
    (when c [Elem div [] [sectionTitle cls title; Elem div [className listCls] (map f l)]])
  = sectionTexts title g l.
Proof.
  intros -> H. rewrite allTexts_titled_list. unfold sectionTexts.
  destruct (nonEmpty l); [|reflexivity]. f_equal. apply flat_map_ext. exact H.
Qed.

Lemma texts_summarySection cls : flat_map allTexts (summarySection cl cls) = summaryTexts d.
Proof.
  unfold summarySection, summaryTexts, sectionTitle. rewrite allTexts_when.
  fold d. destruct (nonEmptyStr (summary d)) eqn:E; [|reflexivity].
  texts. unfold rendered. cbn. now rewrite E.
Qed.

Lemma texts_workSection cls sz icon listCls :
  flat_map allTexts (workSection cl cls sz icon listCls)
  = sectionTexts "Work Experience" (workTexts e) (workExperience d).
Proof. apply texts_entries; [reflexivity|]. intros x. apply texts_workEntry. Qed.

Lemma texts_educationSectionTwoColumn :
  flat_map allTexts (educationSectionTwoColumn cl)
  = sectionTexts "Education" (educationTexts e) (education d).
Proof.
  apply texts_entries; [reflexivity|]. intros x. apply texts_educationEntryTwoColumn.
Qed.

Lemma texts_educationSectionSingleColumn :
  flat_map allTexts (educationSectionSingleColumn cl)
  = sectionTexts "Education" (educationTexts e) (education d).
Proof.
  apply texts_entries; [reflexivity|]. intros x. apply texts_educationEntrySingleColumn.
Qed.

Lemma texts_skillsSection cls sz :
  flat_map allTexts (skillsSection cl cls sz) = sectionTexts "Skills" skillTexts (skills d).
Proof. apply texts_entries; [reflexivity|]. intros x. apply texts_skillEntry. Qed.

Lemma texts_languagesSection cls sz :
  flat_map allTexts (languagesSection cl cls sz)
  = sectionTexts "Languages" languageTexts (languages d).
Proof. apply texts_entries; [reflexivity|]. intros x. apply texts_languageEntry. Qed.

Lemma texts_certificationsSection cls sp icn sz :
  flat_map allTexts (certificationsSection cl cls sp icn sz)
  = sectionTexts "Certifications" (certificationTexts e) (certifications d).
Proof.
  apply texts_entries; [reflexivity|]. intros x. unfold certificationEntry.
  apply texts_iconEntry.
Qed.

Lemma texts_referencesSection cls sp icn sz :
  flat_map allTexts (referencesSection cl cls sp icn sz)
  = sectionTexts "References" referenceTexts (references d).
Proof.
  apply texts_entries; [reflexivity|]. intros x. unfold referenceEntry.
  apply texts_iconEntry.
Qed.

Lemma texts_contactLine ic cls v :
  flat_map allTexts (contactLine cl ic cls v) = rendered [v].
Proof.
  unfold contactLine. rewrite allTexts_when. texts.
  unfold rendered. cbn. now destruct (nonEmptyStr v).
Qed.

Lemma texts_inlineContact ic v : flat_map allTexts (inlineContact ic v) = rendered [v].
Proof.
  unfold inlineContact. rewrite allTexts_when. texts.
  unfold rendered. cbn. now destruct (nonEmptyStr v).
Qed.

Lemma texts_contactSection :
  allTexts (contactSection cl)
  = "Contact" :: rendered [email (personalInfo d); phone (personalInfo d);
                           address (personalInfo d); website (personalInfo d)].
Proof.
  unfold contactSection, sectionTitle. cbn [allTexts flat_map app].
  rewrite !flat_map_app, !texts_contactLine, !app_nil_r.
  rewrite !(rendered_cons _ (_ :: _)). reflexivity.
Qed.

Lemma texts_inlineContacts cls :
  allTexts (inlineContacts cl cls)
  = rendered [email (personalInfo d); phone (personalInfo d); address (personalInfo d)].
Proof.
  unfold inlineContacts. cbn [allTexts].
  rewrite !flat_map_app, !texts_inlineContact.
  rewrite !(rendered_cons _ (_ :: _)). reflexivity.
Qed.

Lemma texts_photo cls label : allTexts (photo cl cls label) = [].
Proof. reflexivity. Qed.

Lemma texts_headerTwoColumn :
  allTexts (headerTwoColumn cl) = [shownName (personalInfo d); shownTitle (personalInfo d)].
Proof.
  unfold headerTwoColumn. cbn [allTexts].
  rewrite flat_map_app, !allTexts_when.
  destruct (id (cl_template cl) =? "minimal"); cbn [negb flat_map allTexts app];
    now rewrite text_displayName, text_displayTitle.
Qed.

Lemma texts_headerSingleColumn :
  allTexts (headerSingleColumn cl)
  = [shownName (personalInfo d); shownTitle (personalInfo d)]
    ++ rendered [email (personalInfo d); phone (personalInfo d); address (personalInfo d)].
Proof.
  unfold headerSingleColumn. cbn [allTexts].
  rewrite flat_map_app, !allTexts_when.
  destruct (id (cl_template cl) =? "minimal"), (hasPhoto (cl_template cl));
    cbn [negb when flat_map allTexts app];
    rewrite ?texts_photo, text_displayName, text_displayTitle, ?texts_inlineContacts;
    cbn [flat_map allTexts app]; now rewrite ?texts_inlineContacts, ?app_nil_r.
Qed.

Lemma texts_twoColumnBody :
  flat_map allTexts (twoColumnBody cl) = textsTwoColumn e d.
Proof.
  unfold twoColumnBody, sidebar, content, textsTwoColumn.
  cbn [flat_map allTexts]. rewrite !flat_map_app, allTexts_when.
  cbn [flat_map]. rewrite texts_contactSection, texts_headerTwoColumn,
    texts_skillsSection, texts_languagesSection, texts_certificationsSection,
    texts_referencesSection, texts_summarySection, texts_workSection,
    texts_educationSectionTwoColumn.
  destruct (hasPhoto (cl_template cl)); cbn [flat_map app];
    rewrite ?texts_photo; cbn [app]; rewrite ?app_nil_r;
    repeat (rewrite <- ?app_assoc; cbn [app]); reflexivity.
Qed.

Lemma texts_singleColumnBody :
  flat_map allTexts (singleColumnBody cl) = textsSingleColumn e d.
Proof.
  unfold singleColumnBody, textsSingleColumn.
  rewrite !flat_map_app. cbn [flat_map allTexts]. rewrite !flat_map_app.
  rewrite texts_headerSingleColumn, texts_skillsSection, texts_languagesSection,
    texts_certificationsSection, texts_referencesSection, texts_summarySection,
    texts_workSection, texts_educationSectionSingleColumn.
  rewrite ?app_nil_r. repeat (rewrite <- ?app_assoc; cbn [app]). reflexivity.
Qed.
End Texts.

(** X25. All the texts of the tree, in both revisions: after the style
    sheet the two-column layout has the contact block, the skills, the
    languages, the certifications and the references, then the name and
    the job title, the summary, the jobs and the education; the
    single-column layout has the name, the job title and the contact
    line, then the summary, the jobs, the education, the skills, the
    languages, the certifications and the references. Every entry gives
    its fields in a fixed order, empty fields are left out, dates are
    formatted, a grade follows the word Grade, and the tree has no other
    text. *)
Theorem texts_of_the_preview (e : Platform.Engine) :
  (forall props,
     exists css,
       allTexts (tree (Current.CVPreview e props))
       = css :: if (columns (Current.template props) =? 2)%Z
                then textsTwoColumn e (Current.data props)
                else textsSingleColumn e (Current.data props))
  /\ (forall props,
        exists css,
          allTexts (tree (Legacy.CVPreview e props))
          = css :: if (columns (Legacy.template props) =? 2)%Z
                   then textsTwoColumn e (Legacy.data props)
                   else textsSingleColumn e (Legacy.data props)).
Proof.
  split; intros props; eexists.
  - unfold Current.CVPreview, Current.cvContent. cbn [tree].
    pose proof (texts_twoColumnBody (Current.closure e props)) as H2.
    pose proof (texts_singleColumnBody (Current.closure e props)) as H1.
    cbn [Preview.cl_engine Preview.cl_data Current.closure] in H1, H2.
    destruct (columns (Current.template props) =? 2)%Z, (Current.isFullPagePDF props);
      cbn [allTexts flat_map app Preview.styleElem];
      rewrite ?H2, ?H1, ?app_nil_r; reflexivity.
  - unfold Legacy.CVPreview. cbn [tree].
    pose proof (texts_twoColumnBody (Legacy.closure e props)) as H2.
    pose proof (texts_singleColumnBody (Legacy.closure e props)) as H1.
    cbn [Preview.cl_engine Preview.cl_data Legacy.closure] in H1, H2.
    destruct (columns (Legacy.template props) =? 2)%Z;
      cbn [allTexts flat_map app Preview.styleElem];
      rewrite ?H2, ?H1, ?app_nil_r; reflexivity.
Qed.
